(** * go-api-proxy: the token-filtering and proxying request paths

    A shallow embedding of the Go sources of the proxy (packages [models],
    [client], [middleware], [config] and [main]) together with the
    properties of the whitelist store, the backend client's error taxonomy
    and forwarded headers, the two handlers, the CORS handler, the
    configuration and the router.

    Conventions of the embedding:
    - a Go [string] is a [string] (a sequence of bytes);
    - a Go slice is an [option (list A)]: [None] is the nil slice, [Some []]
      an allocated slice of length zero.  The two differ observably:
      encoding/json writes [null] for the first and [[]] for the second;
    - a Go [error] value is a term of [GoErrors.error]; a function returning
      [(T, error)] returns a [result T];
    - a method with a pointer receiver that mutates it takes the receiver's
      state and returns the new state next to its results;
    - log calls have no influence on any result and are left out. *)

From Stdlib Require Import ZArith NArith Lia.
From stdpp Require Import base list strings gmap pretty.
From Stdlib Require Import Ascii.

Local Open Scope Z_scope.
Set Warnings "-register-all,-clear-no-such-hyp".

(* ------------------------------------------------------------------ *)
(** * Part I: definitions *)
(* ------------------------------------------------------------------ *)

(** ** Slices and results *)

Definition slice (A : Type) : Type := option (list A).

(** [len(s)]: a nil slice has length zero. *)
Definition len {A} (s : slice A) : nat :=
  match s with None => 0%nat | Some l => length l end.

(** The elements of a slice in order, as [for _, x := range s] visits them. *)
Definition elems {A} (s : slice A) : list A :=
  match s with None => [] | Some l => l end.

(** [append(s, x)]: always an allocated slice. *)
Definition append {A} (s : slice A) (x : A) : slice A := Some (elems s ++ [x]).

(** [make([]T, 0)] and the literal [[]T{}]. *)
Definition make0 {A} : slice A := Some [].

Inductive result (E A : Type) : Type :=
| Ok (a : A)
| Err (e : E).
Arguments Ok {E A} a.
Arguments Err {E A} e.

(** ** Package strings (the functions the proxy calls) *)

Module GoStrings.

Definition byte (c : ascii) : N := N_of_ascii c.

(** [strings.HasPrefix(s, prefix)] *)
Fixpoint HasPrefix (s prefix : string) {struct prefix} : bool :=
  match prefix with
  | EmptyString => true
  | String p prefix' =>
      match s with
      | EmptyString => false
      | String c s' => if Ascii.eqb c p then HasPrefix s' prefix' else false
      end
  end.

(** [s[i:]] for [i <= len(s)]. *)
Fixpoint drop (i : nat) (s : string) : string :=
  match i, s with
  | O, _ => s
  | S _, EmptyString => EmptyString
  | S i', String _ s' => drop i' s'
  end.

(** [s[:i]] for [i <= len(s)]. *)
Fixpoint take (i : nat) (s : string) : string :=
  match i, s with
  | O, _ => EmptyString
  | S _, EmptyString => EmptyString
  | S i', String c s' => String c (take i' s')
  end.

(** [strings.HasSuffix(s, suffix)]:
    [len(s) >= len(suffix) && s[len(s)-len(suffix):] == suffix]. *)
Definition HasSuffix (s suffix : string) : bool :=
  (String.length suffix <=? String.length s)%nat &&
  String.eqb (drop (String.length s - String.length suffix) s) suffix.

(** [strings.TrimSuffix(s, suffix)]: one occurrence of the suffix is cut. *)
Definition TrimSuffix (s suffix : string) : string :=
  if HasSuffix s suffix
  then take (String.length s - String.length suffix) s
  else s.

(** [strings.Contains(s, substr)] *)
Fixpoint Contains (s substr : string) : bool :=
  HasPrefix s substr ||
  match s with
  | EmptyString => false
  | String _ s' => Contains s' substr
  end.

(** [strings.ToLower] on the ASCII range: the letters [A-Z] are mapped to
    [a-z], every other byte is kept. *)
Definition lower_byte (c : ascii) : ascii :=
  if (65 <=? byte c)%N && (byte c <=? 90)%N
  then ascii_of_N (byte c + 32)
  else c.

Fixpoint ToLower (s : string) : string :=
  match s with
  | EmptyString => EmptyString
  | String c s' => String (lower_byte c) (ToLower s')
  end.

(** [strings.Split(s, sep)] for a separator [sep] of one byte: the pieces
    between the occurrences of the separator, one more than there are
    occurrences. *)
Fixpoint SplitByte (s : string) (sep : ascii) : list string :=
  match s with
  | EmptyString => [EmptyString]
  | String c s' =>
      if Ascii.eqb c sep then EmptyString :: SplitByte s' sep
      else match SplitByte s' sep with
           | piece :: pieces => String c piece :: pieces
           | [] => [String c EmptyString]
           end
  end.

(** [strings.Join(elems, sep)] *)
Fixpoint Join (elems : list string) (sep : string) : string :=
  match elems with
  | [] => EmptyString
  | [x] => x
  | x :: elems' => x +:+ sep +:+ Join elems' sep
  end.

(** The white space of the ASCII range: tab, line feed, vertical tab, form
    feed, carriage return, space. *)
Definition isSpace (c : ascii) : bool :=
  ((9 <=? byte c) && (byte c <=? 13) || (byte c =? 32))%N.

Fixpoint TrimLeftSpace (s : string) : string :=
  match s with
  | EmptyString => EmptyString
  | String c s' => if isSpace c then TrimLeftSpace s' else s
  end.

Fixpoint TrimRightSpace (s : string) : string :=
  match s with
  | EmptyString => EmptyString
  | String c s' =>
      match TrimRightSpace s' with
      | EmptyString => if isSpace c then EmptyString else String c EmptyString
      | t => String c t
      end
  end.

(** [strings.TrimSpace] on the ASCII range. *)
Definition TrimSpace (s : string) : string :=
  TrimRightSpace (TrimLeftSpace s).

(** [strings.LastIndex(s, sep)] for a separator of one byte; [None] is the
    result -1. *)
Fixpoint LastIndexByte (s : string) (sep : ascii) : option nat :=
  match s with
  | EmptyString => None
  | String c s' =>
      match LastIndexByte s' sep with
      | Some i => Some (S i)
      | None => if Ascii.eqb c sep then Some 0%nat else None
      end
  end.

End GoStrings.

(** ** Error values

    The dynamic types of [error] that reach the proxy: the two error types of
    package [client], the values built by [errors.New] and [fmt.Errorf], and
    the typed errors of the standard library, which carry the text the
    library gives them and the error they unwrap to. *)

Module GoErrors.

Inductive libType : Type :=
| net_OpError                 (* *net.OpError *)
| url_Error                   (* *url.Error *)
| net_DNSError                (* *net.DNSError *)
| json_SyntaxError            (* *json.SyntaxError *)
| json_UnmarshalTypeError     (* *json.UnmarshalTypeError *)
| other_error.                (* any other library type *)

Inductive error : Type :=
| errorString (s : string)
    (* errors.New(s), fmt.Errorf(s) without %w *)
| wrapError (prefix : string) (err : error)
    (* fmt.Errorf(prefix + "%w", err) *)
| NetworkError (Operation URL : string) (Err : option error)
    (* &client.NetworkError{Operation, URL, Err} *)
| APIError (StatusCode : Z) (Status URL : string)
    (* &client.APIError{StatusCode, Status, URL} *)
| libError (t : libType) (text : string) (inner : option error).

(** [err.Error()].  [%v] of a nil error prints [<nil>], [%d] prints the
    decimal digits of the status code. *)
Fixpoint Error (e : error) : string :=
  match e with
  | errorString s => s
  | wrapError prefix err => prefix +:+ Error err
  | NetworkError Operation URL cause =>
      "network error during " +:+ Operation +:+ " to " +:+ URL +:+ ": "
      +:+ match cause with Some err => Error err | None => "<nil>" end
  | APIError StatusCode Status URL =>
      "API error: " +:+ Status +:+ " (" +:+ pretty StatusCode +:+ ") from "
      +:+ URL
  | libError _ text _ => text
  end.

(** [errors.As(err, &target)] for a target type recognised by [is_T]: the
    chain [err, Unwrap(err), ...] is searched for a value of that type. *)
Fixpoint As (is_T : error -> bool) (e : error) : bool :=
  is_T e ||
  match e with
  | wrapError _ err => As is_T err
  | NetworkError _ _ (Some err) => As is_T err
  | libError _ _ (Some err) => As is_T err
  | _ => false
  end.

Definition is_NetworkError (e : error) : bool :=
  match e with NetworkError _ _ _ => true | _ => false end.

Definition is_APIError (e : error) : bool :=
  match e with APIError _ _ _ => true | _ => false end.

Definition is_OpError (e : error) : bool :=
  match e with libError net_OpError _ _ => true | _ => false end.

Definition is_URLError (e : error) : bool :=
  match e with libError url_Error _ _ => true | _ => false end.

Definition is_DNSError (e : error) : bool :=
  match e with libError net_DNSError _ _ => true | _ => false end.

End GoErrors.

Abbreviation error := GoErrors.error.
Abbreviation res := (result error).

(** ** Package encoding/json: documents and decoding

    The scanner of the library (which bytes are a JSON text, and which value
    they denote) and its case-insensitive matching of member names are the
    library's and are taken as given: [parse] returns the value of a text or
    the message of the syntax error, [fold_match field key] says whether
    [key] names [field] when no member carries the exact name.

    The decoders below follow the library's rules for the Go types the proxy
    decodes into: [null] leaves the zero value, a JSON string fills a
    [string] or a [*string], an array fills a slice (allocated even when the
    array is empty), members that name no field are skipped, and a value of
    the wrong kind makes [Unmarshal] fail with an [*UnmarshalTypeError].
    Every value is decoded into fresh storage, as the library does for
    documents whose member names are not repeated. *)

Module GoJSON.

Inductive json : Type :=
| JNull
| JBool (b : bool)
| JNumber (literal : string)
| JString (s : string)
| JArray (l : list json)
| JObject (members : list (string * json)).

Class Codec : Type := {
  parse : string -> result string json;
  fold_match : string -> string -> bool
}.

Definition kind (v : json) : string :=
  match v with
  | JNull => "null"
  | JBool _ => "bool"
  | JNumber _ => "number"
  | JString _ => "string"
  | JArray _ => "array"
  | JObject _ => "object"
  end.

Definition type_error (v : json) (go_type : string) : error :=
  GoErrors.libError GoErrors.json_UnmarshalTypeError
    ("json: cannot unmarshal " +:+ kind v +:+ " into Go value of type "
     +:+ go_type) None.

(** Decoding into a [string]. *)
Definition decode_string (v : json) : res string :=
  match v with
  | JString s => Ok s
  | JNull => Ok ""
  | _ => Err (type_error v "string")
  end.

(** Decoding into a [*string]. *)
Definition decode_string_ptr (v : json) : res (option string) :=
  match v with
  | JString s => Ok (Some s)
  | JNull => Ok None
  | _ => Err (type_error v "string")
  end.

(** The elements of an array, decoded left to right; the first failure is
    the one reported. *)
Fixpoint decode_elems {A} (dec : json -> res A) (l : list json)
  : res (list A) :=
  match l with
  | [] => Ok []
  | v :: l' =>
      match dec v with
      | Err e => Err e
      | Ok a =>
          match decode_elems dec l' with
          | Err e => Err e
          | Ok r => Ok (a :: r)
          end
      end
  end.

(** Decoding into a slice [[]T]. *)
Definition decode_slice {A} (go_type : string) (dec : json -> res A)
  (v : json) : res (slice A) :=
  match v with
  | JNull => Ok None
  | JArray l =>
      match decode_elems dec l with
      | Err e => Err e
      | Ok r => Ok (Some r)
      end
  | _ => Err (type_error v go_type)
  end.

Section Decoding.
Context {codec : Codec}.

(** The field a member name selects among the JSON names of a struct's
    fields: the field of exactly that name, or else the first field the
    name matches up to case. *)
Definition field_of (fields : list string) (key : string) : option string :=
  match List.find (String.eqb key) fields with
  | Some f => Some f
  | None => List.find (fun f => fold_match f key) fields
  end.

(** The members of an object decoded in document order into a struct value:
    [set field v s] stores [v] in the field of [s]. *)
Fixpoint decode_members {S} (fields : list string)
  (set : string -> json -> S -> res S) (members : list (string * json))
  (s : S) : res S :=
  match members with
  | [] => Ok s
  | (key, v) :: members' =>
      match field_of fields key with
      | None => decode_members fields set members' s
      | Some f =>
          match set f v s with
          | Err e => Err e
          | Ok s' => decode_members fields set members' s'
          end
      end
  end.

(** Decoding into a struct whose zero value is [zero]. *)
Definition decode_struct {S} (go_type : string) (fields : list string)
  (set : string -> json -> S -> res S) (zero : S) (v : json) : res S :=
  match v with
  | JNull => Ok zero
  | JObject members => decode_members fields set members zero
  | _ => Err (type_error v go_type)
  end.

(** [json.Unmarshal(data, &x)] for a fresh [x] decoded by [dec]. *)
Definition Unmarshal {A} (dec : json -> res A) (data : string) : res A :=
  match parse data with
  | Err msg => Err (GoErrors.libError GoErrors.json_SyntaxError msg None)
  | Ok v => dec v
  end.

End Decoding.

End GoJSON.

Abbreviation json := GoJSON.json.

(** ** Package os: the two calls [LoadFromFile] makes *)

Module GoOS.

Inductive StatResult : Type :=
| StatOK                      (* err == nil *)
| StatNotExist                (* os.IsNotExist(err) *)
| StatFailed (e : error).     (* any other failure *)

Record FileSystem : Type := {
  Stat : string -> StatResult;
  ReadFile : string -> res string
}.

End GoOS.

(** ** Package models (src/models/token.go, src/models/error.go) *)

Module models.

(** [Token]: pointer fields are optional strings. *)
Record Token : Type := {
  Address : string;
  AddressHash : string;
  CirculatingMarketCap : option string;
  Decimals : string;
  ExchangeRate : option string;
  Holders : string;
  HoldersCount : string;
  IconURL : option string;
  Name : string;
  Symbol : string;
  TotalSupply : string;
  Type_ : string;
  Volume24h : option string
}.

Record TokenResponse : Type := { Items : slice Token }.

Record ErrorResponse : Type := { Error : string; Message : string }.

(** [TokenWhitelist]; the mutex is not part of the state. *)
Record TokenWhitelist : Type := { Addresses : slice string }.

(** [NewTokenWhitelist] *)
Definition NewTokenWhitelist : TokenWhitelist :=
  {| Addresses := make0 |}.

Section WithCodec.
Context {codec : GoJSON.Codec}.

(** The anonymous struct [temp] of [LoadFromJSON] has the single field
    [Addresses []string `json:"addresses"`]. *)
Definition decode_temp : json -> res (slice string) :=
  GoJSON.decode_struct "struct { Addresses []string }" ["addresses"]
    (fun _ v _ => GoJSON.decode_slice "[]string" GoJSON.decode_string v)
    None.

(** [LoadFromJSON] *)
Definition LoadFromJSON (data : string) (tw : TokenWhitelist)
  : TokenWhitelist * option error :=
  match GoJSON.Unmarshal decode_temp data with
  | Err err => (tw, Some err)
  | Ok temp_Addresses =>
      match temp_Addresses with
      | None => ({| Addresses := make0 |}, None)
      | Some _ => ({| Addresses := temp_Addresses |}, None)
      end
  end.

End WithCodec.

(** [Contains] *)
Definition Contains (tw : TokenWhitelist) (address : string) : bool :=
  existsb (fun addr => String.eqb addr address) (elems (Addresses tw)).

(** [GetAddresses]: a copy, always allocated. *)
Definition GetAddresses (tw : TokenWhitelist) : slice string :=
  Some (elems (Addresses tw)).

(** [Size] *)
Definition Size (tw : TokenWhitelist) : nat := len (Addresses tw).

(** The loop of [Validate]: [i] is the index of the head of [l], [seen] the
    addresses met so far. *)
Fixpoint Validate_loop (i : nat) (seen : gset string) (l : list string)
  : option error :=
  match l with
  | [] => None
  | addr :: l' =>
      if String.eqb addr ""
      then Some (GoErrors.errorString
                   ("empty address at index " +:+ pretty i))
      else if decide (addr ∈ seen)
      then Some (GoErrors.errorString
                   ("duplicate address found: " +:+ addr))
      else Validate_loop (S i) ({[addr]} ∪ seen) l'
  end.

(** [Validate] *)
Definition Validate (tw : TokenWhitelist) : option error :=
  match Addresses tw with
  | None => Some (GoErrors.errorString "addresses slice is nil")
  | Some l => Validate_loop 0 ∅ l
  end.

(** [fmt.Errorf("address %s already exists in whitelist", address)] *)
Definition already_exists (address : string) : error :=
  GoErrors.errorString
    ("address " +:+ address +:+ " already exists in whitelist").

(** [AddAddress] *)
Definition AddAddress (address : string) (tw : TokenWhitelist)
  : TokenWhitelist * option error :=
  if String.eqb address ""
  then (tw, Some (GoErrors.errorString "address cannot be empty"))
  else if existsb (fun addr => String.eqb addr address) (elems (Addresses tw))
  then (tw, Some (models.already_exists address))
  else ({| Addresses := append (Addresses tw) address |}, None).

(** The index at which the loop of [RemoveAddress] stops. *)
Fixpoint index_of (address : string) (l : list string) : option nat :=
  match l with
  | [] => None
  | addr :: l' =>
      if String.eqb addr address then Some 0%nat
      else match index_of address l' with
           | Some i => Some (S i)
           | None => None
           end
  end.

(** [RemoveAddress]: [append(tw.Addresses[:i], tw.Addresses[i+1:]...)] at
    the first index [i] that holds the address. *)
Definition RemoveAddress (address : string) (tw : TokenWhitelist)
  : TokenWhitelist * bool :=
  match Addresses tw with
  | None => (tw, false)
  | Some l =>
      match index_of address l with
      | Some i => ({| Addresses := Some (take i l ++ drop (S i) l) |}, true)
      | None => (tw, false)
      end
  end.

(** [Clear] *)
Definition Clear (tw : TokenWhitelist) : TokenWhitelist :=
  {| Addresses := make0 |}.

Section WithFiles.
Context {codec : GoJSON.Codec} (fs : GoOS.FileSystem).

(** [LoadFromFile] *)
Definition LoadFromFile (filename : string) (tw : TokenWhitelist)
  : TokenWhitelist * option error :=
  match GoOS.Stat fs filename with
  | GoOS.StatNotExist => (tw, None)
  | _ =>
      match GoOS.ReadFile fs filename with
      | Err err =>
          (tw, Some (GoErrors.wrapError
                       ("failed to read whitelist file " +:+ filename
                        +:+ ": ") err))
      | Ok data =>
          match LoadFromJSON data tw with
          | (tw1, Some err) =>
              (tw1, Some (GoErrors.wrapError
                            ("failed to parse whitelist file " +:+ filename
                             +:+ ": ") err))
          | (tw1, None) =>
              match Validate tw1 with
              | Some err =>
                  (tw1, Some (GoErrors.wrapError
                                ("whitelist validation failed for file "
                                 +:+ filename +:+ ": ") err))
              | None => (tw1, None)
              end
          end
      end
  end.

End WithFiles.

End models.

(** ** Package models, the variant with per-token metadata
    (src/unnamed/part_004)

    The second definition of the package adds [WhitelistToken] and the
    [tokens] array of the whitelist file; the rest of the file is the same
    text as above. *)

Module models_tokens.

Record WhitelistToken : Type := {
  Address : string;
  IconURL : option string
}.

Record TokenWhitelist : Type := {
  Tokens : slice WhitelistToken;
  Addresses : slice string
}.

(** [NewTokenWhitelist]: [Tokens] is left nil. *)
Definition NewTokenWhitelist : TokenWhitelist :=
  {| Tokens := None; Addresses := make0 |}.

(** The anonymous struct [temp] of [LoadFromJSON]. *)
Record temp : Type := {
  temp_Tokens : slice WhitelistToken;
  temp_Addresses : slice string
}.

Section WithCodec.
Context {codec : GoJSON.Codec}.

Definition decode_WhitelistToken : json -> res WhitelistToken :=
  GoJSON.decode_struct "models.WhitelistToken" ["address"; "icon_url"]
    (fun f v t =>
       if String.eqb f "address"
       then match GoJSON.decode_string v with
            | Err e => Err e
            | Ok a => Ok {| Address := a; IconURL := IconURL t |}
            end
       else match GoJSON.decode_string_ptr v with
            | Err e => Err e
            | Ok u => Ok {| Address := Address t; IconURL := u |}
            end)
    {| Address := ""; IconURL := None |}.

Definition decode_temp : json -> res temp :=
  GoJSON.decode_struct "struct { Tokens; Addresses }" ["tokens"; "addresses"]
    (fun f v t =>
       if String.eqb f "tokens"
       then match GoJSON.decode_slice "[]models.WhitelistToken"
                    decode_WhitelistToken v with
            | Err e => Err e
            | Ok ts => Ok {| temp_Tokens := ts;
                             temp_Addresses := temp_Addresses t |}
            end
       else match GoJSON.decode_slice "[]string" GoJSON.decode_string v with
            | Err e => Err e
            | Ok a => Ok {| temp_Tokens := temp_Tokens t;
                            temp_Addresses := a |}
            end)
    {| temp_Tokens := None; temp_Addresses := None |}.

(** [LoadFromJSON] *)
Definition LoadFromJSON (data : string) (tw : TokenWhitelist)
  : TokenWhitelist * option error :=
  match GoJSON.Unmarshal decode_temp data with
  | Err err => (tw, Some err)
  | Ok t =>
      match temp_Tokens t with
      | Some (tok :: toks) =>
          (* temp.Tokens != nil && len(temp.Tokens) > 0 *)
          ({| Tokens := temp_Tokens t;
              Addresses := Some (List.map Address (tok :: toks)) |}, None)
      | _ =>
          match temp_Addresses t with
          | Some addrs =>
              ({| Tokens :=
                    Some (List.map
                            (fun addr => {| Address := addr; IconURL := None |})
                            addrs);
                  Addresses := temp_Addresses t |}, None)
          | None =>
              ({| Tokens := make0; Addresses := make0 |}, None)
          end
      end
  end.

End WithCodec.

(** [Contains] *)
Definition Contains (tw : TokenWhitelist) (address : string) : bool :=
  existsb (fun addr => String.eqb addr address) (elems (Addresses tw)).

(** [Size] *)
Definition Size (tw : TokenWhitelist) : nat := len (Addresses tw).

(** [GetTokenInfo]: the first entry of [Tokens] with the address; [None]
    is the nil pointer. *)
Definition GetTokenInfo (tw : TokenWhitelist) (address : string)
  : option WhitelistToken :=
  List.find (fun token => String.eqb (Address token) address)
    (elems (Tokens tw)).

(** [AddAddress] *)
Definition AddAddress (address : string) (tw : TokenWhitelist)
  : TokenWhitelist * option error :=
  if String.eqb address ""
  then (tw, Some (GoErrors.errorString "address cannot be empty"))
  else if existsb (fun addr => String.eqb addr address) (elems (Addresses tw))
  then (tw, Some (models.already_exists address))
  else ({| Tokens := Tokens tw;
           Addresses := append (Addresses tw) address |}, None).

(** [RemoveAddress] *)
Definition RemoveAddress (address : string) (tw : TokenWhitelist)
  : TokenWhitelist * bool :=
  match Addresses tw with
  | None => (tw, false)
  | Some l =>
      match models.index_of address l with
      | Some i =>
          ({| Tokens := Tokens tw;
              Addresses := Some (take i l ++ drop (S i) l) |}, true)
      | None => (tw, false)
      end
  end.

(** [Clear] *)
Definition Clear (tw : TokenWhitelist) : TokenWhitelist :=
  {| Tokens := Tokens tw; Addresses := make0 |}.

(** The two lists of a whitelist agree: the addresses are those of the
    tokens, in order. *)
Definition in_step (tw : TokenWhitelist) : Prop :=
  elems (Addresses tw) = List.map Address (elems (Tokens tw)).

End models_tokens.

(** ** Package unicode/utf8: decoding one rune *)

Module GoUTF8.

Definition RuneError : N := 0xFFFD.

(** The table [first]: information about the first byte of an encoding.
    [0xF0] marks an ASCII byte, [0xF1] an invalid first byte; otherwise the
    low three bits give the size and the high four bits the index of the
    range accepted for the second byte. *)
Definition first (b : N) : N :=
  (if b <? 0x80 then 0xF0
   else if b <? 0xC2 then 0xF1
   else if b <? 0xE0 then 0x02
   else if b =? 0xE0 then 0x13
   else if b <? 0xED then 0x03
   else if b =? 0xED then 0x23
   else if b <? 0xF0 then 0x03
   else if b =? 0xF0 then 0x34
   else if b <? 0xF4 then 0x04
   else if b =? 0xF4 then 0x44
   else 0xF1)%N.

(** The table [acceptRanges]: the bounds of the second byte. *)
Definition acceptRanges (i : N) : N * N :=
  match i with
  | 0 => (0x80, 0xBF)
  | 1 => (0xA0, 0xBF)
  | 2 => (0x80, 0x9F)
  | 3 => (0x90, 0xBF)
  | 4 => (0x80, 0x8F)
  | _ => (0, 0)
  end%N.

(** Is [b] outside the range of a continuation byte? *)
Definition not_cont (b : N) : bool := ((b <? 0x80) || (0xBF <? b))%N.

(** [utf8.DecodeRuneInString(s)]: the rune at the head of [s] and the number
    of bytes of its encoding; [(RuneError, 1)] when the encoding is invalid
    or cut short, [(RuneError, 0)] when [s] is empty. *)
Definition DecodeRuneInString (s : string) : N * nat :=
  match s with
  | EmptyString => (RuneError, 0%nat)
  | String c0 s1 =>
      let s0 := GoStrings.byte c0 in
      let x := first s0 in
      if (0xF0 <=? x)%N
      then ((if (x =? 0xF0)%N then s0 else RuneError), 1%nat)
      else
        let sz := N.to_nat (N.land x 7) in
        let '(lo, hi) := acceptRanges (N.shiftr x 4) in
        if (String.length s <? sz)%nat then (RuneError, 1%nat)
        else
          match s1 with
          | EmptyString => (RuneError, 1%nat)
          | String c1 s2 =>
              let b1 := GoStrings.byte c1 in
              if ((b1 <? lo) || (hi <? b1))%N then (RuneError, 1%nat)
              else if (sz <=? 2)%nat
              then (N.lor (N.shiftl (N.land s0 0x1F) 6) (N.land b1 0x3F),
                    2%nat)
              else
                match s2 with
                | EmptyString => (RuneError, 1%nat)
                | String c2 s3 =>
                    let b2 := GoStrings.byte c2 in
                    if not_cont b2 then (RuneError, 1%nat)
                    else if (sz <=? 3)%nat
                    then (N.lor (N.shiftl (N.land s0 0x0F) 12)
                            (N.lor (N.shiftl (N.land b1 0x3F) 6)
                               (N.land b2 0x3F)),
                          3%nat)
                    else
                      match s3 with
                      | EmptyString => (RuneError, 1%nat)
                      | String c3 _ =>
                          let b3 := GoStrings.byte c3 in
                          if not_cont b3 then (RuneError, 1%nat)
                          else (N.lor (N.shiftl (N.land s0 0x07) 18)
                                  (N.lor (N.shiftl (N.land b1 0x3F) 12)
                                     (N.lor (N.shiftl (N.land b2 0x3F) 6)
                                        (N.land b3 0x3F))),
                                4%nat)
                      end
                end
          end
  end.

(** The next [k] bytes of [s], as far as there are any, are not ASCII. *)
Fixpoint high_prefix (k : nat) (s : string) : Prop :=
  match k, s with
  | S k', String c s' => (0x80 <= GoStrings.byte c)%N /\ high_prefix k' s'
  | _, _ => True
  end.

End GoUTF8.

(** ** Package encoding/json: encoding

    [json.NewEncoder(w).Encode(v)] writes the JSON text of [v] followed by
    a newline, with HTML escaping on (the default of an [Encoder]). *)

Module GoJSONEncode.

Definition dq : string := String (ascii_of_nat 34) "".
Definition backslash : string := String (ascii_of_nat 92) "".
Definition newline : string := String (ascii_of_nat 10) "".

Definition hex (n : N) : ascii :=
  match String.get (N.to_nat n) "0123456789abcdef" with
  | Some c => c
  | None => "0"%char
  end.

(** [htmlSafeSet]: the ASCII bytes written as they are. *)
Definition htmlSafe (b : N) : bool :=
  ((0x20 <=? b) && (b <? 0x80)
   && negb (b =? 0x22) && negb (b =? 0x5C)
   && negb (b =? 0x3C) && negb (b =? 0x3E) && negb (b =? 0x26))%N.

(** The escape written for an ASCII byte outside [htmlSafeSet]. *)
Definition escape (c : ascii) : string :=
  let b := GoStrings.byte c in
  (if (b =? 0x5C) || (b =? 0x22) then backslash +:+ String c ""
   else if b =? 0x08 then backslash +:+ "b"
   else if b =? 0x0C then backslash +:+ "f"
   else if b =? 0x0A then backslash +:+ "n"
   else if b =? 0x0D then backslash +:+ "r"
   else if b =? 0x09 then backslash +:+ "t"
   else backslash +:+ "u00"
        +:+ String (hex (N.shiftr b 4)) (String (hex (N.land b 0xF)) ""))%N.

(** The loop of [appendString].  [pending] counts the bytes of the rune
    decoded last that are still ahead ([i += size] in the source): they are
    copied when [keep] holds and dropped when the rune was replaced by an
    escape. *)
Fixpoint appendString_from (pending : nat) (keep : bool) (src : string)
  : string :=
  match src with
  | EmptyString => EmptyString
  | String c rest =>
      match pending with
      | S k =>
          if keep then String c (appendString_from k keep rest)
          else appendString_from k keep rest
      | O =>
          let b := GoStrings.byte c in
          if (b <? 0x80)%N then
            (if htmlSafe b then String c "" else escape c)
            +:+ appendString_from 0 true rest
          else
            let '(r, size) := GoUTF8.DecodeRuneInString src in
            if (r =? GoUTF8.RuneError)%N && (size =? 1)%nat then
              backslash +:+ "ufffd" +:+ appendString_from 0 true rest
            else if ((r =? 0x2028) || (r =? 0x2029))%N then
              backslash +:+ "u202" +:+ String (hex (N.land r 0xF)) ""
              +:+ appendString_from (size - 1) false rest
            else String c (appendString_from (size - 1) true rest)
      end
  end.

(** The JSON string literal of a Go string. *)
Definition appendString (src : string) : string :=
  dq +:+ appendString_from 0 true src +:+ dq.

(** A [*string] field: [null] for nil. *)
Definition appendStringPtr (p : option string) : string :=
  match p with
  | None => "null"
  | Some s => appendString s
  end.

(** The elements of an array, separated by commas. *)
Fixpoint join_elems (l : list string) : string :=
  match l with
  | [] => ""
  | [x] => x
  | x :: l' => x +:+ "," +:+ join_elems l'
  end.

(** A slice: [null] for nil, an array otherwise. *)
Definition appendSlice {A} (enc : A -> string) (s : slice A) : string :=
  match s with
  | None => "null"
  | Some l => "[" +:+ join_elems (List.map enc l) +:+ "]"
  end.

(** One member [name:value] of an object. *)
Definition member (name value : string) : string :=
  dq +:+ name +:+ dq +:+ ":" +:+ value.

Definition Marshal_ErrorResponse (e : models.ErrorResponse) : string :=
  "{" +:+ (member "error" (appendString (models.Error e))
           +:+ "," +:+ member "message" (appendString (models.Message e)))
  +:+ "}".

Definition Marshal_Token (t : models.Token) : string :=
  "{" +:+
  (member "address" (appendString (models.Address t))
  +:+ "," +:+ member "address_hash" (appendString (models.AddressHash t))
  +:+ "," +:+ member "circulating_market_cap"
                (appendStringPtr (models.CirculatingMarketCap t))
  +:+ "," +:+ member "decimals" (appendString (models.Decimals t))
  +:+ "," +:+ member "exchange_rate" (appendStringPtr (models.ExchangeRate t))
  +:+ "," +:+ member "holders" (appendString (models.Holders t))
  +:+ "," +:+ member "holders_count" (appendString (models.HoldersCount t))
  +:+ "," +:+ member "icon_url" (appendStringPtr (models.IconURL t))
  +:+ "," +:+ member "name" (appendString (models.Name t))
  +:+ "," +:+ member "symbol" (appendString (models.Symbol t))
  +:+ "," +:+ member "total_supply" (appendString (models.TotalSupply t))
  +:+ "," +:+ member "type" (appendString (models.Type_ t))
  +:+ "," +:+ member "volume_24h" (appendStringPtr (models.Volume24h t)))
  +:+ "}".

Definition Marshal_TokenResponse (r : models.TokenResponse) : string :=
  "{" +:+ member "items" (appendSlice Marshal_Token (models.Items r)) +:+ "}".

(** ** JSON texts

    The grammar of RFC 8259 for the texts an encoder can write: no white
    space inside a value, no numbers.  [chars s] says that [s] may stand
    between the quotes of a string: no quote, backslash or control
    character outside an escape. *)

Definition raw_ok (c : ascii) : bool :=
  let b := GoStrings.byte c in
  ((0x20 <=? b) && negb (b =? 0x22) && negb (b =? 0x5C))%N.

Definition simple_escape (c : ascii) : bool :=
  let b := GoStrings.byte c in
  ((b =? 0x22) || (b =? 0x5C) || (b =? 0x2F) || (b =? 0x62) || (b =? 0x66)
   || (b =? 0x6E) || (b =? 0x72) || (b =? 0x74))%N.

Definition hex_digit (c : ascii) : bool :=
  let b := GoStrings.byte c in
  (((0x30 <=? b) && (b <=? 0x39)) || ((0x41 <=? b) && (b <=? 0x46))
   || ((0x61 <=? b) && (b <=? 0x66)))%N.

Inductive chars : string -> Prop :=
| chars_nil : chars ""
| chars_raw c s : raw_ok c = true -> chars s -> chars (String c s)
| chars_escape c s :
    simple_escape c = true -> chars s -> chars (backslash +:+ String c s)
| chars_unicode h1 h2 h3 h4 s :
    hex_digit h1 = true -> hex_digit h2 = true ->
    hex_digit h3 = true -> hex_digit h4 = true ->
    chars s ->
    chars (backslash +:+ "u"
           +:+ String h1 (String h2 (String h3 (String h4 s)))).

Inductive value : string -> Prop :=
| value_null : value "null"
| value_true : value "true"
| value_false : value "false"
| value_string s : chars s -> value (dq +:+ s +:+ dq)
| value_empty_array : value "[]"
| value_array es : elements es -> value ("[" +:+ es +:+ "]")
| value_empty_object : value "{}"
| value_object ms : members ms -> value ("{" +:+ ms +:+ "}")
with elements : string -> Prop :=
| elements_one v : value v -> elements v
| elements_more v es :
    value v -> elements es -> elements (v +:+ "," +:+ es)
with members : string -> Prop :=
| members_one k v : chars k -> value v -> members (member k v)
| members_more k v ms :
    chars k -> value v -> members ms ->
    members (member k v +:+ "," +:+ ms).

(** A JSON text: one value and the newline the encoder ends it with. *)
Definition json_text (body : string) : Prop :=
  exists v, value v /\ body = v +:+ newline.

End GoJSONEncode.

(** ** Packages net/textproto and net/http: header maps and the response
    writer *)

Module GoHTTP.

(** [validHeaderFieldByte]: the token characters of RFC 7230. *)
Definition validHeaderFieldByte (c : ascii) : bool :=
  let b := GoStrings.byte c in
  (((0x30 <=? b) && (b <=? 0x39)) || ((0x41 <=? b) && (b <=? 0x5A))
   || ((0x61 <=? b) && (b <=? 0x7A))
   || (b =? 0x21) || (b =? 0x23) || (b =? 0x24) || (b =? 0x25)
   || (b =? 0x26) || (b =? 0x27) || (b =? 0x2A) || (b =? 0x2B)
   || (b =? 0x2D) || (b =? 0x2E) || (b =? 0x5E) || (b =? 0x5F)
   || (b =? 0x60) || (b =? 0x7C) || (b =? 0x7E))%N.

Fixpoint all_valid (s : string) : bool :=
  match s with
  | EmptyString => true
  | String c s' => validHeaderFieldByte c && all_valid s'
  end.

(** The second loop of [canonicalMIMEHeaderKey]: upper case for the first
    letter and after each dash, lower case elsewhere. *)
Fixpoint canonical_from (upper : bool) (s : string) : string :=
  match s with
  | EmptyString => EmptyString
  | String c s' =>
      let b := GoStrings.byte c in
      let c' :=
        (if upper && (0x61 <=? b) && (b <=? 0x7A) then ascii_of_N (b - 32)
         else if negb upper && (0x41 <=? b) && (b <=? 0x5A)
              then ascii_of_N (b + 32)
              else c)%N in
      String c' (canonical_from (GoStrings.byte c' =? 0x2D)%N s')
  end.

(** [textproto.CanonicalMIMEHeaderKey]: a key with a byte that is no token
    character is returned as it is. *)
Definition CanonicalMIMEHeaderKey (s : string) : string :=
  if all_valid s then canonical_from true s else s.

(** [http.Header] is [map[string][]string]. *)
Abbreviation Header := (gmap string (list string)).

(** [h.Set(key, value)] *)
Definition Set_ (h : Header) (key value : string) : Header :=
  <[CanonicalMIMEHeaderKey key := [value]]> h.

(** [h.Add(key, value)] *)
Definition Add (h : Header) (key value : string) : Header :=
  <[CanonicalMIMEHeaderKey key :=
      default [] (h !! CanonicalMIMEHeaderKey key) ++ [value]]> h.

(** [h.Del(key)] *)
Definition Del (h : Header) (key : string) : Header :=
  delete (CanonicalMIMEHeaderKey key) h.

(** An [http.ResponseWriter]: the header map the handler edits, the status
    line once written (with the headers as they were then: later edits of
    the map do not reach the client), and the bytes of the body. *)
Record ResponseWriter : Type := {
  header : Header;
  written : option (Z * Header);
  body : string
}.

Definition NewRecorder : ResponseWriter :=
  {| header := ∅; written := None; body := "" |}.

(** [w.WriteHeader(code)]: only the first call counts. *)
Definition WriteHeader (code : Z) (w : ResponseWriter) : ResponseWriter :=
  match written w with
  | Some _ => w
  | None =>
      {| header := header w; written := Some (code, header w);
         body := body w |}
  end.

(** [w.Write(data)]: writes the status 200 first when none was written. *)
Definition Write (data : string) (w : ResponseWriter) : ResponseWriter :=
  let w1 := WriteHeader 200 w in
  {| header := header w1; written := written w1;
     body := body w1 +:+ data |}.

(** [http.Error(w, error, code)] *)
Definition Error (w : ResponseWriter) (error : string) (code : Z)
  : ResponseWriter :=
  let h := Del (header w) "Content-Length" in
  let h := Set_ h "Content-Type" "text/plain; charset=utf-8" in
  let h := Set_ h "X-Content-Type-Options" "nosniff" in
  let w1 := {| header := h; written := written w; body := body w |} in
  Write (error +:+ GoJSONEncode.newline) (WriteHeader code w1).

(** What the client has received: status, headers, body. *)
Definition StatusCode (w : ResponseWriter) : option Z :=
  match written w with Some (code, _) => Some code | None => None end.

Definition SentHeader (w : ResponseWriter) : option Header :=
  match written w with Some (_, h) => Some h | None => None end.

(** An [*http.Response] as the proxy uses it. *)
Record Response : Type := {
  resp_StatusCode : Z;
  resp_Header : Header;
  resp_Body : string
}.

(** [h.Get(key)]: the first value under the canonical form of [key], the
    empty string when there is none. *)
Definition Get (h : Header) (key : string) : string :=
  match h !! CanonicalMIMEHeaderKey key with
  | Some (v :: _) => v
  | _ => ""
  end.

(** An inbound [*http.Request] as the proxy reads it.  [req_Body] is [None]
    for a nil body and otherwise what [io.ReadAll] gives for it. *)
Record Request : Type := {
  req_Method : string;
  req_Path : string;
  req_RawQuery : string;
  req_Header : Header;
  req_RemoteAddr : string;
  req_Body : option (res string)
}.

(** The request the client sends to the backend. *)
Record Outgoing : Type := {
  out_Method : string;
  out_URL : string;
  out_Header : Header;
  out_Body : option string
}.

End GoHTTP.

(** ** Package client *)

Module client.

(** What [c.client.Do(req)] gave: a transport failure, or a response with
    the outcome of reading its body to the end. *)
Inductive RoundTrip : Type :=
| DoFailed (err : error)
| DoResponse (StatusCode : Z) (Status : string) (Body : res string).

Section WithCodec.
Context {codec : GoJSON.Codec}.

Definition set_Token (f : string) (v : json) (t : models.Token)
  : res models.Token :=
  let str (k : string -> models.Token) :=
    match GoJSON.decode_string v with Err e => Err e | Ok s => Ok (k s) end in
  let ptr (k : option string -> models.Token) :=
    match GoJSON.decode_string_ptr v with
    | Err e => Err e
    | Ok s => Ok (k s)
    end in
  let '(models.Build_Token a ah cmc d er h hc iu n sy ts ty v24) := t in
  if String.eqb f "address" then
    str (fun s => models.Build_Token s ah cmc d er h hc iu n sy ts ty v24)
  else if String.eqb f "address_hash" then
    str (fun s => models.Build_Token a s cmc d er h hc iu n sy ts ty v24)
  else if String.eqb f "circulating_market_cap" then
    ptr (fun s => models.Build_Token a ah s d er h hc iu n sy ts ty v24)
  else if String.eqb f "decimals" then
    str (fun s => models.Build_Token a ah cmc s er h hc iu n sy ts ty v24)
  else if String.eqb f "exchange_rate" then
    ptr (fun s => models.Build_Token a ah cmc d s h hc iu n sy ts ty v24)
  else if String.eqb f "holders" then
    str (fun s => models.Build_Token a ah cmc d er s hc iu n sy ts ty v24)
  else if String.eqb f "holders_count" then
    str (fun s => models.Build_Token a ah cmc d er h s iu n sy ts ty v24)
  else if String.eqb f "icon_url" then
    ptr (fun s => models.Build_Token a ah cmc d er h hc s n sy ts ty v24)
  else if String.eqb f "name" then
    str (fun s => models.Build_Token a ah cmc d er h hc iu s sy ts ty v24)
  else if String.eqb f "symbol" then
    str (fun s => models.Build_Token a ah cmc d er h hc iu n s ts ty v24)
  else if String.eqb f "total_supply" then
    str (fun s => models.Build_Token a ah cmc d er h hc iu n sy s ty v24)
  else if String.eqb f "type" then
    str (fun s => models.Build_Token a ah cmc d er h hc iu n sy ts s v24)
  else
    ptr (fun s => models.Build_Token a ah cmc d er h hc iu n sy ts ty s).

Definition zero_Token : models.Token :=
  models.Build_Token "" "" None "" None "" "" None "" "" "" "" None.

Definition decode_Token : json -> res models.Token :=
  GoJSON.decode_struct "models.Token"
    ["address"; "address_hash"; "circulating_market_cap"; "decimals";
     "exchange_rate"; "holders"; "holders_count"; "icon_url"; "name";
     "symbol"; "total_supply"; "type"; "volume_24h"]
    set_Token zero_Token.

Definition decode_TokenResponse : json -> res models.TokenResponse :=
  GoJSON.decode_struct "models.TokenResponse" ["items"]
    (fun _ v _ =>
       match GoJSON.decode_slice "[]models.Token" decode_Token v with
       | Err e => Err e
       | Ok items => Ok {| models.Items := items |}
       end)
    {| models.Items := None |}.

(** [parseJSON(data, &tokenResponse)] *)
Definition parseJSON (data : string) : res models.TokenResponse :=
  if (String.length data =? 0)%nat
  then Err (GoErrors.errorString "empty response body")
  else
    match GoJSON.Unmarshal decode_TokenResponse data with
    | Err err => Err (GoErrors.wrapError "invalid JSON: " err)
    | Ok v => Ok v
    end.

(** [GetTokens].  [newRequest] is the error of
    [http.NewRequestWithContext], if any; [do] what the transport gave. *)
Definition GetTokens (backendURL : string) (newRequest : option error)
  (do : RoundTrip) : res models.TokenResponse :=
  let targetURL := backendURL +:+ "/tokens" in
  match newRequest with
  | Some err =>
      Err (GoErrors.wrapError "failed to create tokens request: " err)
  | None =>
      match do with
      | DoFailed err =>
          Err (GoErrors.NetworkError "get_tokens" targetURL (Some err))
      | DoResponse StatusCode Status Body =>
          if negb (StatusCode =? 200)
          then Err (GoErrors.APIError StatusCode Status targetURL)
          else
            match Body with
            | Err err =>
                Err (GoErrors.wrapError "failed to read response body: " err)
            | Ok bodyBytes =>
                match parseJSON bodyBytes with
                | Err err =>
                    Err (GoErrors.wrapError
                           "failed to parse tokens response: " err)
                | Ok tokenResponse => Ok tokenResponse
                end
            end
      end
  end.

End WithCodec.

Definition networkKeywords : list string :=
  ["network"; "timeout"; "connection"; "refused"; "unreachable";
   "no such host"; "dns"; "dial"; "i/o timeout"; "broken pipe"].

(** [IsNetworkError]; [None] is the nil error. *)
Definition IsNetworkError (err : option error) : bool :=
  match err with
  | None => false
  | Some e =>
      if GoErrors.As GoErrors.is_NetworkError e then true
      else if GoErrors.As GoErrors.is_OpError e
              || GoErrors.As GoErrors.is_URLError e
              || GoErrors.As GoErrors.is_DNSError e then true
      else
        let errStr := GoStrings.ToLower (GoErrors.Error e) in
        existsb (fun keyword => GoStrings.Contains errStr keyword)
          networkKeywords
  end.

(** [IsAPIError] *)
Definition IsAPIError (err : option error) : bool :=
  match err with
  | None => false
  | Some e => GoErrors.As GoErrors.is_APIError e
  end.

(** The headers [forwardHeaders] copies. *)
Definition headersToForward : list string :=
  ["Accept"; "Accept-Encoding"; "Accept-Language"; "Cache-Control";
   "Content-Type"; "User-Agent"; "X-Forwarded-For"; "X-Real-IP"].

(** [getClientIP] *)
Definition getClientIP (req : GoHTTP.Request) : string :=
  let xff := GoHTTP.Get (GoHTTP.req_Header req) "X-Forwarded-For" in
  match (if String.eqb xff "" then None
         else match GoStrings.SplitByte xff ","%char with
              | ip :: _ => Some (GoStrings.TrimSpace ip)   (* len(ips) > 0 *)
              | [] => None
              end) with
  | Some ip => ip
  | None =>
      let xri := GoHTTP.Get (GoHTTP.req_Header req) "X-Real-IP" in
      if negb (String.eqb xri "") then xri
      else if negb (String.eqb (GoHTTP.req_RemoteAddr req) "") then
        match GoStrings.LastIndexByte (GoHTTP.req_RemoteAddr req) ":"%char with
        | Some idx => GoStrings.take idx (GoHTTP.req_RemoteAddr req)
        | None => GoHTTP.req_RemoteAddr req
        end
      else ""
  end.

(** [forwardHeaders]: the header map of the backend request after the
    call, from the map [backend] it had before. *)
Definition forwardHeaders (originalReq : GoHTTP.Request)
  (backend : GoHTTP.Header) : GoHTTP.Header :=
  let h1 :=
    fold_left
      (fun h header =>
         let value := GoHTTP.Get (GoHTTP.req_Header originalReq) header in
         if negb (String.eqb value "") then GoHTTP.Set_ h header value else h)
      headersToForward backend in
  let h2 :=
    if String.eqb (GoHTTP.Get (GoHTTP.req_Header originalReq)
                     "X-Forwarded-For") ""
    then let remoteAddr := getClientIP originalReq in
         if negb (String.eqb remoteAddr "")
         then GoHTTP.Set_ h1 "X-Forwarded-For" remoteAddr
         else h1
    else h1 in
  if String.eqb (GoHTTP.Get (GoHTTP.req_Header originalReq) "User-Agent") ""
  then GoHTTP.Set_ h2 "User-Agent" "go-api-proxy/1.0"
  else h2.

(** [ProxyRequest].  [newRequest method url] is the error of
    [http.NewRequestWithContext], if any, and [do] the transport: what
    [c.client.Do] gives for the request sent.  The body of the inbound
    request is read to the end and sent on. *)
Definition ProxyRequest (backendURL : string)
  (newRequest : string -> string -> option error)
  (do : GoHTTP.Outgoing -> res GoHTTP.Response)
  (originalReq : GoHTTP.Request) (endpoint : string) : res GoHTTP.Response :=
  let targetURL := backendURL +:+ endpoint in
  let read : res (option string) :=
    match GoHTTP.req_Body originalReq with
    | None => Ok None
    | Some (Err err) =>
        Err (GoErrors.wrapError "failed to read request body: " err)
    | Some (Ok bodyBytes) => Ok (Some bodyBytes)
    end in
  match read with
  | Err e => Err e
  | Ok body =>
      match newRequest (GoHTTP.req_Method originalReq) targetURL with
      | Some err =>
          Err (GoErrors.wrapError "failed to create backend request: " err)
      | None =>
          let req :=
            {| GoHTTP.out_Method := GoHTTP.req_Method originalReq;
               GoHTTP.out_URL := targetURL;
               GoHTTP.out_Header := forwardHeaders originalReq ∅;
               GoHTTP.out_Body := body |} in
          match do req with
          | Err err =>
              Err (GoErrors.NetworkError "backend_request" targetURL
                     (Some err))
          | Ok resp => Ok resp
          end
      end
  end.

(** Every entry of a header map holds one value, which is not empty. *)
Definition single_valued (h : GoHTTP.Header) : Prop :=
  forall k vs, h !! k = Some vs -> exists v, vs = [v] /\ v <> "".

End client.

(** ** Package middleware *)

Module middleware.

Module TokenFilterHandler.

(** [filterTokens]; [response] is a pointer, [None] when nil. *)
Definition filterTokens (whitelist : models.TokenWhitelist)
  (response : option models.TokenResponse) : models.TokenResponse :=
  match response with
  | None => {| models.Items := make0 |}
  | Some r =>
      if (len (models.Items r) =? 0)%nat
      then {| models.Items := make0 |}
      else if (models.Size whitelist =? 0)%nat
      then r
      else
        (* var filteredTokens []models.Token *)
        let filteredTokens :=
          fold_left
            (fun filteredTokens token =>
               if models.Contains whitelist (models.Address token)
               then append filteredTokens token
               else filteredTokens)
            (elems (models.Items r)) None in
        {| models.Items := filteredTokens |}
  end.

(** [writeErrorResponse] *)
Definition writeErrorResponse (w : GoHTTP.ResponseWriter) (statusCode : Z)
  (message detail : string) : GoHTTP.ResponseWriter :=
  let w1 :=
    {| GoHTTP.header :=
         GoHTTP.Set_ (GoHTTP.header w) "Content-Type" "application/json";
       GoHTTP.written := GoHTTP.written w;
       GoHTTP.body := GoHTTP.body w |} in
  let w2 := GoHTTP.WriteHeader statusCode w1 in
  let errorResponse :=
    {| models.Error := message; models.Message := detail |} in
  GoHTTP.Write
    (GoJSONEncode.Marshal_ErrorResponse errorResponse
     +:+ GoJSONEncode.newline) w2.

(** [handleError]; [err] is not nil. *)
Definition handleError (w : GoHTTP.ResponseWriter) (err : error)
  : GoHTTP.ResponseWriter :=
  if client.IsNetworkError (Some err)
  then writeErrorResponse w 502 "Backend API unreachable" (GoErrors.Error err)
  else if client.IsAPIError (Some err)
  then writeErrorResponse w 502 "Backend API error" (GoErrors.Error err)
  else writeErrorResponse w 500 "Internal server error" (GoErrors.Error err).

(** [ServeHTTP]; [fetched] is what [h.httpClient.GetTokens(ctx)] returned
    (a response that is not nil when the error is nil). *)
Definition ServeHTTP (whitelist : models.TokenWhitelist)
  (fetched : res models.TokenResponse) (w : GoHTTP.ResponseWriter)
  : GoHTTP.ResponseWriter :=
  let w1 :=
    {| GoHTTP.header :=
         GoHTTP.Set_ (GoHTTP.header w) "Content-Type" "application/json";
       GoHTTP.written := GoHTTP.written w;
       GoHTTP.body := GoHTTP.body w |} in
  match fetched with
  | Err err => handleError w1 err
  | Ok tokenResponse =>
      let filteredResponse := filterTokens whitelist (Some tokenResponse) in
      GoHTTP.Write
        (GoJSONEncode.Marshal_TokenResponse filteredResponse
         +:+ GoJSONEncode.newline) w1
  end.

End TokenFilterHandler.

Module StandardProxyHandler.

(** [isHopByHopHeader] *)
Definition isHopByHopHeader (header : string) : bool :=
  existsb (fun hopHeader => String.eqb header hopHeader)
    ["Connection"; "Keep-Alive"; "Proxy-Authenticate"; "Proxy-Authorization";
     "Te"; "Trailers"; "Transfer-Encoding"; "Upgrade"].

(** [isCORSHeader] *)
Definition isCORSHeader (header : string) : bool :=
  existsb (fun corsHeader => String.eqb header corsHeader)
    ["Access-Control-Allow-Origin"; "Access-Control-Allow-Methods";
     "Access-Control-Allow-Headers"; "Access-Control-Allow-Credentials";
     "Access-Control-Expose-Headers"; "Access-Control-Max-Age";
     "Access-Control-Request-Method"; "Access-Control-Request-Headers"].

(** The keys at which the loop of [copyHeaders] takes one of its two
    [continue]s. *)
Definition skipped (key : string) : bool :=
  isHopByHopHeader key || isCORSHeader key.

(** The body of the loop of [copyHeaders] for one key of [src]. *)
Definition copyHeader (dst : GoHTTP.Header) (entry : string * list string)
  : GoHTTP.Header :=
  let '(key, values) := entry in
  if isHopByHopHeader key then dst
  else if isCORSHeader key then dst
  else fold_left (fun dst value => GoHTTP.Add dst key value) values dst.

(** [copyHeaders].  [range] is the sequence in which
    [for key, values := range src] visits the map: Go leaves the order
    open, so it is any arrangement of the entries of [src]. *)
Definition copyHeaders (range : list (string * list string))
  (dst : GoHTTP.Header) : GoHTTP.Header :=
  fold_left copyHeader range dst.

(** [handleError] *)
Definition handleError (w : GoHTTP.ResponseWriter) (err : error)
  : GoHTTP.ResponseWriter :=
  if client.IsNetworkError (Some err)
  then GoHTTP.Error w "Bad Gateway: Backend API unreachable" 502
  else if client.IsAPIError (Some err)
  then GoHTTP.Error w "Bad Gateway: Backend API error" 502
  else GoHTTP.Error w "Internal Server Error" 500.

(** [ServeHTTP]; [proxied] is what [h.httpClient.ProxyRequest] returned and
    [range] the order in which the headers of the response are visited. *)
Definition ServeHTTP (proxied : res GoHTTP.Response)
  (range : list (string * list string)) (w : GoHTTP.ResponseWriter)
  : GoHTTP.ResponseWriter :=
  match proxied with
  | Err err => handleError w err
  | Ok resp =>
      let w1 :=
        {| GoHTTP.header := copyHeaders range (GoHTTP.header w);
           GoHTTP.written := GoHTTP.written w;
           GoHTTP.body := GoHTTP.body w |} in
      let w2 := GoHTTP.WriteHeader (GoHTTP.resp_StatusCode resp) w1 in
      GoHTTP.Write (GoHTTP.resp_Body resp) w2
  end.

(** The endpoint [ServeHTTP] asks the client for: the path, and the raw
    query after a question mark when there is one. *)
Definition endpoint (r : GoHTTP.Request) : string :=
  if String.eqb (GoHTTP.req_RawQuery r) ""
  then GoHTTP.req_Path r
  else GoHTTP.req_Path r +:+ "?" +:+ GoHTTP.req_RawQuery r.

(** [ServeHTTP] with the client [ProxyRequest] of package [client] behind
    it.  [order h] is the sequence in which the header map [h] of the
    response is visited. *)
Definition Serve (backendURL : string)
  (newRequest : string -> string -> option error)
  (do : GoHTTP.Outgoing -> res GoHTTP.Response)
  (order : GoHTTP.Header -> list (string * list string))
  (r : GoHTTP.Request) (w : GoHTTP.ResponseWriter) : GoHTTP.ResponseWriter :=
  let proxied := client.ProxyRequest backendURL newRequest do r (endpoint r) in
  ServeHTTP proxied
    match proxied with
    | Ok resp => order (GoHTTP.resp_Header resp)
    | Err _ => []
    end w.

End StandardProxyHandler.

Module CORSHandler.

(** [contains]: membership up to case. *)
Definition contains (slice : list string) (item : string) : bool :=
  let item := GoStrings.ToLower item in
  existsb (fun s => String.eqb (GoStrings.ToLower s) item) slice.

Definition defaultAllowedHeaders : list string :=
  ["Accept"; "Accept-Language"; "Content-Type"; "Content-Language"; "Origin";
   "Authorization"; "X-Requested-With"; "X-HTTP-Method-Override";
   "Cache-Control"; "Pragma"].

Definition exposedHeaders : list string :=
  ["Content-Length"; "Content-Type"; "Date"; "Server"; "X-Request-ID";
   "Cache-Control"; "Etag"; "Last-Modified"].

(** The loop of [setCORSHeaders] over the pieces of
    [Access-Control-Request-Headers]. *)
Definition addRequested (allowedHeaders : list string)
  (additionalHeaders : list string) : list string :=
  fold_left
    (fun allowedHeaders header =>
       let header := GoStrings.TrimSpace header in
       if negb (String.eqb header "") && negb (contains allowedHeaders header)
       then allowedHeaders ++ [header]
       else allowedHeaders)
    additionalHeaders allowedHeaders.

(** The list joined into [Access-Control-Allow-Headers]. *)
Definition allowedHeaders (r : GoHTTP.Request) : list string :=
  let requestHeaders :=
    GoHTTP.Get (GoHTTP.req_Header r) "Access-Control-Request-Headers" in
  if negb (String.eqb requestHeaders "")
  then addRequested defaultAllowedHeaders
         (GoStrings.SplitByte requestHeaders ","%char)
  else defaultAllowedHeaders.

(** [setCORSHeaders], on the header map of the response. *)
Definition setCORSHeaders (h : GoHTTP.Header) (r : GoHTTP.Request)
  : GoHTTP.Header :=
  let origin := GoHTTP.Get (GoHTTP.req_Header r) "Origin" in
  let h :=
    if negb (String.eqb origin "")
    then GoHTTP.Set_ h "Access-Control-Allow-Origin" origin
    else GoHTTP.Set_ h "Access-Control-Allow-Origin" "*" in
  let h := GoHTTP.Set_ h "Access-Control-Allow-Credentials" "true" in
  let h := GoHTTP.Set_ h "Access-Control-Allow-Methods"
             "GET, POST, PUT, DELETE, OPTIONS, HEAD, PATCH" in
  let h := GoHTTP.Set_ h "Access-Control-Allow-Headers"
             (GoStrings.Join (allowedHeaders r) ", ") in
  let h := GoHTTP.Set_ h "Access-Control-Expose-Headers"
             (GoStrings.Join exposedHeaders ", ") in
  GoHTTP.Set_ h "Access-Control-Max-Age" "86400".

(** [ServeHTTP].  [next] is the wrapped handler and [requestID] the string
    under the key [request_id] of the request's context, empty when there
    is none. *)
Definition ServeHTTP
  (next : GoHTTP.Request -> GoHTTP.ResponseWriter -> GoHTTP.ResponseWriter)
  (requestID : string) (r : GoHTTP.Request) (w : GoHTTP.ResponseWriter)
  : GoHTTP.ResponseWriter :=
  let h := setCORSHeaders (GoHTTP.header w) r in
  let h :=
    if negb (String.eqb requestID "")
    then GoHTTP.Set_ h "X-Request-ID" requestID
    else h in
  let w1 := {| GoHTTP.header := h; GoHTTP.written := GoHTTP.written w;
               GoHTTP.body := GoHTTP.body w |} in
  if String.eqb (GoHTTP.req_Method r) "OPTIONS"
  then GoHTTP.WriteHeader 200 w1
  else next r w1.

End CORSHandler.

End middleware.

(** ** Package config (src/config/config.go)

    [int] has 64 bits; a [time.Duration] is a number of nanoseconds in 64
    bits. *)

Module config.

Definition min_int : Z := - 2 ^ 63.
Definition max_int : Z := 2 ^ 63 - 1.

(** Arithmetic of [int64]: the result wraps around. *)
Definition wrap64 (z : Z) : Z := (z + 2 ^ 63) mod 2 ^ 64 - 2 ^ 63.

(** The value of a string of decimal digits after the digits of value
    [acc]; [None] when a byte is no digit. *)
Fixpoint digits (acc : Z) (s : string) : option Z :=
  match s with
  | EmptyString => Some acc
  | String c s' =>
      let b := GoStrings.byte c in
      if ((48 <=? b) && (b <=? 57))%N
      then digits (acc * 10 + (Z.of_N b - 48)) s'
      else None
  end.

(** [strconv.Atoi]: an optional sign and at least one decimal digit, of a
    value that fits [int]; [None] stands for an error. *)
Definition Atoi (s : string) : option Z :=
  match s with
  | EmptyString => None
  | String c s' =>
      let neg := Ascii.eqb c "-"%char in
      let body := if neg || Ascii.eqb c "+"%char then s' else s in
      match body with
      | EmptyString => None
      | _ =>
          match digits 0 body with
          | None => None
          | Some n =>
              let v := if neg then - n else n in
              if (min_int <=? v) && (v <=? max_int) then Some v else None
          end
      end
  end.

Definition Second : Z := 1000000000.

Record Config : Type := {
  BackendHost : string;
  Port : string;
  WhitelistFile : string;
  Timeout : Z
}.

(** [Validate] *)
Definition Validate (c : Config) : option error :=
  if String.eqb (BackendHost c) ""
  then Some (GoErrors.errorString "backend host cannot be empty")
  else if negb (GoStrings.HasPrefix (BackendHost c) "http://")
          && negb (GoStrings.HasPrefix (BackendHost c) "https://")
  then Some (GoErrors.errorString
               "backend host must start with http:// or https://")
  else if String.eqb (Port c) ""
  then Some (GoErrors.errorString "port cannot be empty")
  else if match Atoi (Port c) with
          | None => true
          | Some port => (port <? 1) || (port >? 65535)
          end
  then Some (GoErrors.errorString
               "port must be a valid number between 1 and 65535")
  else if String.eqb (WhitelistFile c) ""
  then Some (GoErrors.errorString "whitelist file path cannot be empty")
  else if Timeout c <=? 0
  then Some (GoErrors.errorString "timeout must be greater than 0")
  else None.

(** [GetBackendAPIURL] *)
Definition GetBackendAPIURL (c : Config) : string :=
  GoStrings.TrimSuffix (BackendHost c) "/" +:+ "/api/v2".

Section WithEnv.
(** [os.Getenv]: the empty string for a variable that is not set. *)
Variable Getenv : string -> string.

(** [getEnvWithDefault] *)
Definition getEnvWithDefault (key defaultValue : string) : string :=
  let value := Getenv key in
  if negb (String.eqb value "") then value else defaultValue.

(** [getTimeoutFromEnv] *)
Definition getTimeoutFromEnv (key : string) (defaultValue : Z) : Z :=
  let value := Getenv key in
  if negb (String.eqb value "")
  then match Atoi value with
       | Some seconds =>
           if seconds >? 0 then wrap64 (seconds * Second) else defaultValue
       | None => defaultValue
       end
  else defaultValue.

(** [Load] *)
Definition Load : res Config :=
  let config :=
    {| BackendHost := getEnvWithDefault "BACKEND_HOST" "https://exp.co2e.cc";
       Port := getEnvWithDefault "PORT" "80";
       WhitelistFile := getEnvWithDefault "WHITELIST_FILE" "whitelist.json";
       Timeout := getTimeoutFromEnv "HTTP_TIMEOUT" (30 * Second) |} in
  match Validate config with
  | Some err =>
      Err (GoErrors.wrapError "configuration validation failed: " err)
  | None => Ok config
  end.

End WithEnv.

End config.

(** ** Call sequences on a whitelist *)

Module whitelist_ops.

Inductive op : Type :=
| OpLoadFromJSON (data : string)
| OpAddAddress (address : string)
| OpRemoveAddress (address : string)
| OpClear.

Section WithCodec.
Context {codec : GoJSON.Codec}.

Definition step (tw : models.TokenWhitelist) (o : op)
  : models.TokenWhitelist :=
  match o with
  | OpLoadFromJSON data => fst (models.LoadFromJSON data tw)
  | OpAddAddress address => fst (models.AddAddress address tw)
  | OpRemoveAddress address => fst (models.RemoveAddress address tw)
  | OpClear => models.Clear tw
  end.

(** The whitelist after the calls [ops], made in order on [tw]. *)
Definition run (ops : list op) (tw : models.TokenWhitelist)
  : models.TokenWhitelist :=
  fold_left step ops tw.

End WithCodec.

End whitelist_ops.

(** ** The two shapes of a whitelist file, and sample data *)

Module samples.

(** The double quote, for writing JSON texts. *)
Definition dq : string := String (ascii_of_nat 34) "".

Definition quoted (s : string) : string := dq +:+ s +:+ dq.

(** The legacy shape [{"addresses": [string, ...]}]. *)
Definition legacy_doc (addrs : list string) : json :=
  GoJSON.JObject [("addresses", GoJSON.JArray (List.map GoJSON.JString addrs))].

(** One entry [{address, icon_url?}] of the extended shape. *)
Definition token_doc (t : models_tokens.WhitelistToken) : json :=
  GoJSON.JObject
    (("address", GoJSON.JString (models_tokens.Address t)) ::
     match models_tokens.IconURL t with
     | Some u => [("icon_url", GoJSON.JString u)]
     | None => []
     end).

(** The extended shape [{"tokens": [{address, icon_url?}, ...]}]. *)
Definition tokens_doc (toks : list models_tokens.WhitelistToken) : json :=
  GoJSON.JObject [("tokens", GoJSON.JArray (List.map token_doc toks))].

(** A document that carries both arrays. *)
Definition both_doc (toks : list models_tokens.WhitelistToken)
  (addrs : list string) : json :=
  GoJSON.JObject
    [("tokens", GoJSON.JArray (List.map token_doc toks));
     ("addresses", GoJSON.JArray (List.map GoJSON.JString addrs))].

(** A token of the given address and name. *)
Definition token (address name : string) : models.Token :=
  models.Build_Token address address None "18" None "0" "0" None name name
    "0" "ERC-20" None.

(** The body [{"error":<category>,"message":<detail>}] of an error
    response, [detail] written as a JSON string, and the newline after it. *)
Definition error_json (category detail : string) : string :=
  "{" +:+ quoted "error" +:+ ":" +:+ quoted category +:+ ","
  +:+ quoted "message" +:+ ":" +:+ GoJSONEncode.appendString detail +:+ "}"
  +:+ GoJSONEncode.newline.

(** The bodies [{"items":[]}] and [{"items":null}], with the newline. *)
Definition items_empty_json : string :=
  "{" +:+ quoted "items" +:+ ":[]}" +:+ GoJSONEncode.newline.

Definition items_null_json : string :=
  "{" +:+ quoted "items" +:+ ":null}" +:+ GoJSONEncode.newline.

(** A backend response with a hop-by-hop header, a CORS header and a
    header of two values; [sample_range] is one order of its headers. *)
Definition sample_range : list (string * list string) :=
  [("Connection", ["close"]);
   ("Access-Control-Allow-Origin", ["*"]);
   ("X-Multi", ["a"; "b"]);
   ("Content-Type", ["application/json"])].

Definition sample_response : GoHTTP.Response :=
  {| GoHTTP.resp_StatusCode := 404;
     GoHTTP.resp_Header := list_to_map sample_range;
     GoHTTP.resp_Body := "not found" |}.

(** Matching of member names up to the case of ASCII letters. *)
Definition ascii_fold (field key : string) : bool :=
  String.eqb (GoStrings.ToLower field) (GoStrings.ToLower key).

(** A codec that knows the value of the texts listed in [table] and takes
    every other text for malformed. *)
Definition table_codec (table : list (string * json)) : GoJSON.Codec :=
  {| GoJSON.parse data :=
       match List.find (fun kv => String.eqb (fst kv) data) table with
       | Some kv => Ok (snd kv)
       | None => Err "invalid character looking for beginning of value"
       end;
     GoJSON.fold_match := ascii_fold |}.

(** [{"tokens":[{"address":"0xA"}]}] *)
Definition tokens_text : string :=
  "{" +:+ quoted "tokens" +:+ ":[{" +:+ quoted "address" +:+ ":"
  +:+ quoted "0xA" +:+ "}]}".

(** [{"addresses": ["addr1", "addr2",}], the malformed text of the tests. *)
Definition malformed_text : string :=
  "{" +:+ quoted "addresses" +:+ ": [" +:+ quoted "addr1" +:+ ", "
  +:+ quoted "addr2" +:+ ",}".

Definition sample_codec : GoJSON.Codec :=
  table_codec
    [(tokens_text,
      tokens_doc [{| models_tokens.Address := "0xA";
                     models_tokens.IconURL := None |}])].

(** A file system with the single file [whitelist.json], which holds the
    malformed text. *)
Definition sample_fs : GoOS.FileSystem :=
  {| GoOS.Stat name :=
       if String.eqb name "whitelist.json"
       then GoOS.StatOK else GoOS.StatNotExist;
     GoOS.ReadFile name :=
       if String.eqb name "whitelist.json"
       then Ok malformed_text
       else Err (GoErrors.libError GoErrors.other_error
                   ("open " +:+ name +:+ ": no such file or directory")
                   None) |}.

(** [{"addresses":["0xA","0xB"]}] and [{"addresses":["0xA","0xA"]}] *)
Definition legacy_text : string :=
  "{" +:+ quoted "addresses" +:+ ":[" +:+ quoted "0xA" +:+ ","
  +:+ quoted "0xB" +:+ "]}".

Definition duplicate_text : string :=
  "{" +:+ quoted "addresses" +:+ ":[" +:+ quoted "0xA" +:+ ","
  +:+ quoted "0xA" +:+ "]}".

Definition whitelist_codec : GoJSON.Codec :=
  table_codec
    [(legacy_text, legacy_doc ["0xA"; "0xB"]);
     (duplicate_text, legacy_doc ["0xA"; "0xA"]);
     (tokens_text,
      tokens_doc [{| models_tokens.Address := "0xA";
                     models_tokens.IconURL := None |}])].

(** A file system with a good whitelist file, one with a duplicate, one
    that is malformed and one that cannot be read. *)
Definition whitelist_fs : GoOS.FileSystem :=
  {| GoOS.Stat name :=
       if String.eqb name "good.json" || String.eqb name "duplicate.json"
          || String.eqb name "malformed.json" || String.eqb name "locked.json"
       then GoOS.StatOK else GoOS.StatNotExist;
     GoOS.ReadFile name :=
       if String.eqb name "good.json" then Ok legacy_text
       else if String.eqb name "duplicate.json" then Ok duplicate_text
       else if String.eqb name "malformed.json" then Ok malformed_text
       else Err (GoErrors.libError GoErrors.other_error
                   ("open " +:+ name +:+ ": permission denied") None) |}.

(** A configuration that names the whitelist file [file]. *)
Definition config_with (file : string) : config.Config :=
  {| config.BackendHost := "https://exp.co2e.cc";
     config.Port := "80";
     config.WhitelistFile := file;
     config.Timeout := 30 * config.Second |}.

End samples.

(** ** Package main: the router *)

Module main.

(** [isTokensEndpoint] *)
Definition isTokensEndpoint (path : string) : bool :=
  let normalizedPath := GoStrings.TrimSuffix path "/" in
  String.eqb normalizedPath "/api/v2/tokens"
  || GoStrings.HasPrefix path "/api/v2/tokens?".

(** The two handlers [routeHandler] can hand a request to. *)
Inductive handler : Type :=
| tokenHandler      (* ps.tokenHandler.ServeHTTP *)
| standardHandler.  (* ps.standardHandler.ServeHTTP *)

(** [routeHandler]: the handler chosen for [r.URL.Path]. *)
Definition routeHandler (path : string) : handler :=
  if isTokensEndpoint path then tokenHandler else standardHandler.

(** The whitelist [NewProxyServer] hands to the token filter handler: a new
    whitelist after [LoadFromFile], whose error is logged and dropped. *)
Definition startup_whitelist {codec : GoJSON.Codec} (fs : GoOS.FileSystem)
  (cfg : config.Config) : models.TokenWhitelist :=
  fst (models.LoadFromFile fs (config.WhitelistFile cfg)
         models.NewTokenWhitelist).

(** The handler [setupRoutes] registers for the pattern [/]: [routeHandler]
    inside the CORS handler.  [tokens] and [standard] are the [ServeHTTP] of
    the two handlers; the context of a request that arrives from the server
    has no [request_id]. *)
Definition rootHandler
  (tokens : GoHTTP.ResponseWriter -> GoHTTP.ResponseWriter)
  (standard : GoHTTP.Request -> GoHTTP.ResponseWriter -> GoHTTP.ResponseWriter)
  (r : GoHTTP.Request) (w : GoHTTP.ResponseWriter) : GoHTTP.ResponseWriter :=
  middleware.CORSHandler.ServeHTTP
    (fun r w =>
       match routeHandler (GoHTTP.req_Path r) with
       | tokenHandler => tokens w
       | standardHandler => standard r w
       end)
    "" r w.

End main.

(* ------------------------------------------------------------------ *)
(** * Part II: properties *)
(* ------------------------------------------------------------------ *)

Section StringFacts.

Lemma append_cons c s t : String c s +:+ t = String c (s +:+ t).
Proof. reflexivity. Qed.

Lemma append_nil_l t : "" +:+ t = t.
Proof. reflexivity. Qed.

Lemma HasPrefix_app p q : GoStrings.HasPrefix (p +:+ q) p = true.
Proof.
  induction p as [|c p IH]; [reflexivity|].
  rewrite append_cons. simpl. rewrite Ascii.eqb_refl. exact IH.
Qed.

Lemma HasPrefix_inv s p :
  GoStrings.HasPrefix s p = true -> exists q, s = p +:+ q.
Proof.
  revert s. induction p as [|c p IH]; intros s H.
  - exists s. reflexivity.
  - destruct s as [|d s]; simpl in H; [discriminate|].
    destruct (Ascii.eqb_spec d c) as [->|]; [|discriminate].
    destruct (IH _ H) as [q ->]. exists q. reflexivity.
Qed.

Lemma HasPrefix_iff s p :
  GoStrings.HasPrefix s p = true <-> exists q, s = p +:+ q.
Proof.
  split; [apply HasPrefix_inv|]. intros [q ->]. apply HasPrefix_app.
Qed.

End StringFacts.


Section SuffixFacts.

Lemma length_append s t :
  String.length (s +:+ t) = (String.length s + String.length t)%nat.
Proof.
  induction s as [|c s IH]; [reflexivity|].
  rewrite append_cons. simpl. now rewrite IH.
Qed.

Lemma take_drop n s : GoStrings.take n s +:+ GoStrings.drop n s = s.
Proof.
  revert s. induction n as [|n IH]; intros [|c s]; try reflexivity.
  simpl. rewrite append_cons. now rewrite IH.
Qed.

Lemma take_length_append s t : GoStrings.take (String.length s) (s +:+ t) = s.
Proof.
  induction s as [|c s IH]; [destruct t; reflexivity|].
  rewrite append_cons. simpl. now rewrite IH.
Qed.

Lemma drop_length_append s t : GoStrings.drop (String.length s) (s +:+ t) = t.
Proof.
  induction s as [|c s IH]; [destruct t; reflexivity|].
  rewrite append_cons. simpl. exact IH.
Qed.

Lemma HasSuffix_iff s suffix :
  GoStrings.HasSuffix s suffix = true <-> exists q, s = q +:+ suffix.
Proof.
  unfold GoStrings.HasSuffix. split.
  - intros H. apply andb_true_iff in H as [_ H].
    apply String.eqb_eq in H.
    exists (GoStrings.take (String.length s - String.length suffix) s).
    rewrite <- (take_drop (String.length s - String.length suffix) s) at 1.
    now rewrite H.
  - intros [q ->]. rewrite length_append.
    replace (String.length q + String.length suffix - String.length suffix)%nat
      with (String.length q) by lia.
    rewrite drop_length_append, String.eqb_refl.
    apply andb_true_iff. split; [|reflexivity]. apply Nat.leb_le. lia.
Qed.

Lemma TrimSuffix_app q suffix : GoStrings.TrimSuffix (q +:+ suffix) suffix = q.
Proof.
  unfold GoStrings.TrimSuffix.
  replace (GoStrings.HasSuffix (q +:+ suffix) suffix) with true
    by (symmetry; apply HasSuffix_iff; eauto).
  rewrite length_append.
  replace (String.length q + String.length suffix - String.length suffix)%nat
    with (String.length q) by lia.
  apply take_length_append.
Qed.

Lemma TrimSuffix_cases s suffix :
  (exists q, s = q +:+ suffix /\ GoStrings.TrimSuffix s suffix = q)
  \/ ((forall q, s <> q +:+ suffix) /\ GoStrings.TrimSuffix s suffix = s).
Proof.
  destruct (GoStrings.HasSuffix s suffix) eqn:E.
  - left. apply HasSuffix_iff in E as [q ->]. exists q.
    split; [reflexivity | apply TrimSuffix_app].
  - right. split.
    + intros q ->. assert (GoStrings.HasSuffix (q +:+ suffix) suffix = true)
        by (apply HasSuffix_iff; eauto). congruence.
    + unfold GoStrings.TrimSuffix. now rewrite E.
Qed.

End SuffixFacts.

Section Router.

Lemma isTokensEndpoint_paths (p : string) :
  main.isTokensEndpoint p = true <->
  p = "/api/v2/tokens" \/ p = "/api/v2/tokens/"
  \/ exists q, p = "/api/v2/tokens?" +:+ q.
Proof.
  unfold main.isTokensEndpoint. rewrite orb_true_iff, String.eqb_eq, HasPrefix_iff.
  split.
  - intros [H|H]; [|auto].
    destruct (TrimSuffix_cases p "/") as [(q & -> & Hq)|[_ Hq]];
      rewrite Hq in H; subst; auto.
  - intros [->|[->|H]]; auto.
Qed.

(** C3. The router hands a path to the token filter handler exactly when the
    path with one trailing slash cut equals [/api/v2/tokens] or the path
    starts with [/api/v2/tokens?] (that is: the path is [/api/v2/tokens],
    [/api/v2/tokens/] or [/api/v2/tokens?...]); every other path, among them
    [/api/v2/tokens/123], goes to the generic proxy handler. *)
Theorem routeHandler_dispatch (p : string) :
  (main.routeHandler p = main.tokenHandler <->
     GoStrings.TrimSuffix p "/" = "/api/v2/tokens"
     \/ GoStrings.HasPrefix p "/api/v2/tokens?" = true)
  /\ (main.routeHandler p = main.tokenHandler <->
        p = "/api/v2/tokens" \/ p = "/api/v2/tokens/"
        \/ exists q, p = "/api/v2/tokens?" +:+ q)
  /\ (main.routeHandler p <> main.tokenHandler ->
        main.routeHandler p = main.standardHandler)
  /\ main.routeHandler "/api/v2/tokens/123" = main.standardHandler.
Proof.
  assert (R : main.routeHandler p = main.tokenHandler
              <-> main.isTokensEndpoint p = true).
  { unfold main.routeHandler. destruct (main.isTokensEndpoint p); split;
      intros; congruence. }
  repeat split.
  - intros H. apply R in H. unfold main.isTokensEndpoint in H.
    apply orb_true_iff in H as [H|H]; [left; now apply String.eqb_eq | now right].
  - intros H. apply R. unfold main.isTokensEndpoint. apply orb_true_iff.
    destruct H as [H|H]; [left; now apply String.eqb_eq | now right].
  - intros H. now apply isTokensEndpoint_paths, R.
  - intros H. now apply R, isTokensEndpoint_paths.
  - unfold main.routeHandler. destruct (main.isTokensEndpoint p); congruence.
Qed.

End Router.


(** ** The whitelist store *)

Section Whitelist.

Lemma existsb_eqb_In (a : string) (l : list string) :
  existsb (fun addr => String.eqb addr a) l = true <-> In a l.
Proof.
  rewrite existsb_exists. split.
  - intros (x & Hx & E). apply String.eqb_eq in E. now subst.
  - intros H. exists a. split; [exact H | apply String.eqb_refl].
Qed.

Lemma Contains_In (tw : models.TokenWhitelist) (a : string) :
  models.Contains tw a = true <-> In a (elems (models.Addresses tw)).
Proof. apply existsb_eqb_In. Qed.

Lemma index_of_None (a : string) (l : list string) :
  models.index_of a l = None <-> ~ In a l.
Proof.
  induction l as [|x l IH]; simpl; [tauto|].
  destruct (String.eqb_spec x a) as [->|Hne].
  - split; [discriminate | intros H; exfalso; apply H; now left].
  - destruct (models.index_of a l) eqn:E.
    + split; [discriminate|]. intros H. exfalso.
      assert (~ In a l) as Hl by (intros Hin; apply H; now right).
      apply IH in Hl. discriminate.
    + split; [|reflexivity]. intros _ [H|H]; [congruence|].
      now apply (proj1 IH).
Qed.

Lemma index_of_Some (a : string) (l : list string) (i : nat) :
  models.index_of a l = Some i ->
  exists l1 l2, l = l1 ++ a :: l2 /\ ~ In a l1
                /\ take i l ++ drop (S i) l = l1 ++ l2.
Proof.
  revert i. induction l as [|x l IH]; intros i H; simpl in H; [discriminate|].
  destruct (String.eqb_spec x a) as [->|Hne].
  - injection H as <-. exists [], l. repeat split; auto.
  - destruct (models.index_of a l) as [j|] eqn:E; [|discriminate].
    injection H as <-. destruct (IH j eq_refl) as (l1 & l2 & -> & Hn & Ht).
    exists (x :: l1), l2. repeat split.
    + intros [H|H]; [congruence | contradiction].
    + simpl. simpl in Ht. now rewrite Ht.
Qed.



Section Reachable.
Context {codec : GoJSON.Codec}.

Lemma LoadFromJSON_allocated data tw :
  models.Addresses tw <> None ->
  models.Addresses (fst (models.LoadFromJSON data tw)) <> None.
Proof.
  intros H. unfold models.LoadFromJSON.
  destruct (GoJSON.Unmarshal _ data) as [[l|]|e]; simpl;
    [discriminate | discriminate | exact H].
Qed.

Lemma step_allocated tw o :
  models.Addresses tw <> None ->
  models.Addresses (whitelist_ops.step tw o) <> None.
Proof.
  intros H. destruct o as [data|a|a|]; simpl.
  - now apply LoadFromJSON_allocated.
  - unfold models.AddAddress.
    destruct (String.eqb a ""); [exact H|].
    destruct (existsb _ _); [exact H | discriminate].
  - unfold models.RemoveAddress.
    destruct (models.Addresses tw) as [l|] eqn:E; [|congruence].
    destruct (models.index_of a l); simpl; congruence.
  - discriminate.
Qed.

Lemma run_allocated ops tw :
  models.Addresses tw <> None ->
  models.Addresses (whitelist_ops.run ops tw) <> None.
Proof.
  revert tw. induction ops as [|o ops IH]; intros tw H; [exact H|].
  apply IH. now apply step_allocated.
Qed.

Lemma Validate_loop_text i seen l e :
  models.Validate_loop i seen l = Some e ->
  e <> GoErrors.errorString "addresses slice is nil".
Proof.
  revert i seen. induction l as [|x l IH]; intros i seen H; simpl in H;
    [discriminate|].
  destruct (String.eqb x "").
  - injection H as <-. intros E. injection E as E. discriminate E.
  - destruct (decide (x ∈ seen)).
    + injection H as <-. intros E. injection E as E. discriminate E.
    + eapply IH, H.
Qed.

(** C10. From [NewTokenWhitelist], after any finite sequence of
    [LoadFromJSON] (succeeding or failing), [AddAddress], [RemoveAddress]
    and [Clear] calls the [Addresses] slice is not nil, and so [Validate]
    never reports "addresses slice is nil" on such a state. *)
Theorem Addresses_never_nil (ops : list whitelist_ops.op) :
  models.Addresses (whitelist_ops.run ops models.NewTokenWhitelist) <> None
  /\ models.Validate (whitelist_ops.run ops models.NewTokenWhitelist)
     <> Some (GoErrors.errorString "addresses slice is nil").
Proof.
  assert (H : models.Addresses
                (whitelist_ops.run ops models.NewTokenWhitelist) <> None)
    by (apply run_allocated; discriminate).
  split; [exact H|].
  unfold models.Validate.
  destruct (models.Addresses _) as [l|]; [|congruence].
  intros E. now apply Validate_loop_text in E.
Qed.

End Reachable.

End Whitelist.


(** ** Loading the whitelist *)

Section Loading.
Context {codec : GoJSON.Codec}.

Lemma Unmarshal_syntax_error {A} (dec : json -> res A) data msg :
  GoJSON.parse data = Err msg ->
  GoJSON.Unmarshal dec data
  = Err (GoErrors.libError GoErrors.json_SyntaxError msg None).
Proof. intros H. unfold GoJSON.Unmarshal. now rewrite H. Qed.

Lemma LoadFromJSON_error data tw err :
  GoJSON.Unmarshal models.decode_temp data = Err err ->
  models.LoadFromJSON data tw = (tw, Some err).
Proof. intros H. unfold models.LoadFromJSON. now rewrite H. Qed.

(** C6. Whatever the whitelist holds: when the path does not exist
    [LoadFromFile] returns no error and the whitelist is as before; when the
    file exists and its bytes are not a JSON text [LoadFromFile] returns an
    error (the syntax error, wrapped) and the whitelist is as before. *)
Theorem LoadFromFile_missing_or_malformed
  (fs : GoOS.FileSystem) (S : models.TokenWhitelist) (p : string) :
  (GoOS.Stat fs p = GoOS.StatNotExist ->
   models.LoadFromFile fs p S = (S, None))
  /\ (forall data msg,
        GoOS.Stat fs p = GoOS.StatOK ->
        GoOS.ReadFile fs p = Ok data ->
        GoJSON.parse data = Err msg ->
        models.LoadFromFile fs p S
        = (S, Some (GoErrors.wrapError
                      ("failed to parse whitelist file " +:+ p +:+ ": ")
                      (GoErrors.libError GoErrors.json_SyntaxError msg None)))).
Proof.
  split.
  - intros H. unfold models.LoadFromFile. now rewrite H.
  - intros data msg Hs Hr Hp. unfold models.LoadFromFile.
    rewrite Hs, Hr.
    rewrite (LoadFromJSON_error data S _
               (Unmarshal_syntax_error models.decode_temp data msg Hp)).
    reflexivity.
Qed.

(** A text that decodes to the wrong Go type is refused in the same way. *)
Lemma LoadFromFile_undecodable
  (fs : GoOS.FileSystem) (S : models.TokenWhitelist) (p data : string) err :
  GoOS.Stat fs p <> GoOS.StatNotExist ->
  GoOS.ReadFile fs p = Ok data ->
  GoJSON.Unmarshal models.decode_temp data = Err err ->
  models.LoadFromFile fs p S
  = (S, Some (GoErrors.wrapError
                ("failed to parse whitelist file " +:+ p +:+ ": ") err)).
Proof.
  intros Hs Hr Hu. unfold models.LoadFromFile.
  rewrite Hr, (LoadFromJSON_error _ _ _ Hu).
  destruct (GoOS.Stat fs p); congruence.
Qed.

Lemma decode_elems_map {A} (dec : json -> res A) (f : A -> json) :
  (forall a, dec (f a) = Ok a) ->
  forall l, GoJSON.decode_elems dec (List.map f l) = Ok l.
Proof.
  intros H. induction l as [|a l IH]; [reflexivity|].
  simpl. now rewrite H, IH.
Qed.

Lemma decode_elems_strings (addrs : list string) :
  GoJSON.decode_elems GoJSON.decode_string (List.map GoJSON.JString addrs)
  = Ok addrs.
Proof. now apply decode_elems_map. Qed.

Lemma decode_token_doc (t : models_tokens.WhitelistToken) :
  models_tokens.decode_WhitelistToken (samples.token_doc t) = Ok t.
Proof. destruct t as [a [u|]]; reflexivity. Qed.

Lemma decode_elems_tokens (toks : list models_tokens.WhitelistToken) :
  GoJSON.decode_elems models_tokens.decode_WhitelistToken
    (List.map samples.token_doc toks) = Ok toks.
Proof. apply decode_elems_map, decode_token_doc. Qed.

Lemma decode_members_skip {S} fields
  (set : string -> json -> S -> res S) members (s : S) :
  Forall (fun kv => GoJSON.field_of fields (fst kv) = None) members ->
  GoJSON.decode_members fields set members s = Ok s.
Proof.
  induction 1 as [|[k v] l Hk _ IH]; [reflexivity|].
  simpl in *. now rewrite Hk.
Qed.

Lemma decode_temp_legacy addrs :
  models_tokens.decode_temp (samples.legacy_doc addrs)
  = Ok {| models_tokens.temp_Tokens := None;
          models_tokens.temp_Addresses := Some addrs |}.
Proof.
  unfold models_tokens.decode_temp, samples.legacy_doc. cbn.
  unfold GoJSON.decode_slice. now rewrite decode_elems_strings.
Qed.

Lemma decode_temp_tokens toks :
  models_tokens.decode_temp (samples.tokens_doc toks)
  = Ok {| models_tokens.temp_Tokens := Some toks;
          models_tokens.temp_Addresses := None |}.
Proof.
  unfold models_tokens.decode_temp, samples.tokens_doc. cbn.
  unfold GoJSON.decode_slice. now rewrite decode_elems_tokens.
Qed.

Lemma decode_temp_both toks addrs :
  models_tokens.decode_temp (samples.both_doc toks addrs)
  = Ok {| models_tokens.temp_Tokens := Some toks;
          models_tokens.temp_Addresses := Some addrs |}.
Proof.
  unfold models_tokens.decode_temp, samples.both_doc. cbn.
  unfold GoJSON.decode_slice.
  rewrite decode_elems_tokens. cbn. now rewrite decode_elems_strings.
Qed.

Lemma LoadFromJSON_decoded data doc t tw :
  GoJSON.parse data = Ok doc ->
  models_tokens.decode_temp doc = Ok t ->
  models_tokens.LoadFromJSON data tw
  = match models_tokens.temp_Tokens t with
    | Some (tok :: toks) =>
        ({| models_tokens.Tokens := models_tokens.temp_Tokens t;
            models_tokens.Addresses :=
              Some (List.map models_tokens.Address (tok :: toks)) |}, None)
    | _ =>
        match models_tokens.temp_Addresses t with
        | Some addrs =>
            ({| models_tokens.Tokens :=
                  Some (List.map
                          (fun addr => {| models_tokens.Address := addr;
                                          models_tokens.IconURL := None |})
                          addrs);
                models_tokens.Addresses := models_tokens.temp_Addresses t |},
             None)
        | None =>
            ({| models_tokens.Tokens := make0;
                models_tokens.Addresses := make0 |}, None)
        end
    end.
Proof.
  intros Hp Hd. unfold models_tokens.LoadFromJSON, GoJSON.Unmarshal.
  now rewrite Hp, Hd.
Qed.


(** The definition of src/models/token.go reads the [addresses] member
    only: an extended-shape file leaves the whitelist empty there. *)
Lemma legacy_LoadFromJSON_skips_tokens data toks tw :
  GoJSON.parse data = Ok (samples.tokens_doc toks) ->
  GoJSON.fold_match "addresses" "tokens" = false ->
  models.LoadFromJSON data tw = ({| models.Addresses := make0 |}, None).
Proof.
  intros Hp Hf. unfold models.LoadFromJSON, GoJSON.Unmarshal. rewrite Hp.
  unfold models.decode_temp, samples.tokens_doc. cbn.
  unfold GoJSON.field_of. cbn. now rewrite Hf.
Qed.

(** On the legacy shape the two definitions agree. *)
Lemma legacy_LoadFromJSON_addresses data addrs tw :
  GoJSON.parse data = Ok (samples.legacy_doc addrs) ->
  models.LoadFromJSON data tw = ({| models.Addresses := Some addrs |}, None).
Proof.
  intros Hp. unfold models.LoadFromJSON, GoJSON.Unmarshal. rewrite Hp.
  unfold models.decode_temp, samples.legacy_doc. cbn.
  unfold GoJSON.decode_slice. now rewrite decode_elems_strings.
Qed.

End Loading.

(** A missing file and the malformed file of the sample file system. *)
Lemma LoadFromFile_missing_or_malformed_witness :
  models.LoadFromFile (codec := samples.sample_codec) samples.sample_fs
    "absent.json" {| models.Addresses := Some ["0xA"] |}
  = ({| models.Addresses := Some ["0xA"] |}, None)
  /\ fst (models.LoadFromFile (codec := samples.sample_codec) samples.sample_fs
            "whitelist.json" {| models.Addresses := Some ["0xA"] |})
     = {| models.Addresses := Some ["0xA"] |}.
Proof.
  split.
  - destruct (LoadFromFile_missing_or_malformed (codec := samples.sample_codec)
                samples.sample_fs {| models.Addresses := Some ["0xA"] |}
                "absent.json") as [H _].
    apply H. reflexivity.
  - destruct (LoadFromFile_missing_or_malformed (codec := samples.sample_codec)
                samples.sample_fs {| models.Addresses := Some ["0xA"] |}
                "whitelist.json") as [_ H].
    rewrite (H samples.malformed_text
               "invalid character looking for beginning of value");
      reflexivity.
Defined.



(** ** The backend client *)

Section Client.
Context {codec : GoJSON.Codec}.

Lemma length_zero_iff (s : string) : (String.length s =? 0)%nat = true <-> s = "".
Proof. destruct s; simpl; split; intros H; congruence. Qed.

Lemma parseJSON_nonempty data :
  data <> "" ->
  client.parseJSON data
  = match GoJSON.Unmarshal client.decode_TokenResponse data with
    | Err err => Err (GoErrors.wrapError "invalid JSON: " err)
    | Ok v => Ok v
    end.
Proof.
  intros H. unfold client.parseJSON.
  destruct (String.length data =? 0)%nat eqn:E; [|reflexivity].
  apply length_zero_iff in E. contradiction.
Qed.

(** C7, as the code has it.  Once the request is built, [GetTokens] gives:
    for a transport failure a [NetworkError]; for a status other than 200
    an [APIError] with the status code, the status text and the target
    URL; for a 200 response with an empty body the error of text
    [failed to parse tokens response: empty response body], which wraps the
    parsing error of text [empty response body]; for a 200 response whose
    body does not decode an error wrapping the decoder's error; and for a
    200 response whose body decodes the decoded [TokenResponse] and no
    error. *)
Theorem GetTokens_classification (backendURL : string) :
  (forall err,
     client.GetTokens backendURL None (client.DoFailed err)
     = Err (GoErrors.NetworkError "get_tokens" (backendURL +:+ "/tokens")
              (Some err)))
  /\ (forall code status body, code <> 200 ->
     client.GetTokens backendURL None (client.DoResponse code status body)
     = Err (GoErrors.APIError code status (backendURL +:+ "/tokens")))
  /\ (forall status,
     client.GetTokens backendURL None (client.DoResponse 200 status (Ok ""))
     = Err (GoErrors.wrapError "failed to parse tokens response: "
              (GoErrors.errorString "empty response body"))
     /\ GoErrors.Error
          (GoErrors.wrapError "failed to parse tokens response: "
             (GoErrors.errorString "empty response body"))
        = "failed to parse tokens response: empty response body")
  /\ (forall status data err, data <> "" ->
     GoJSON.Unmarshal client.decode_TokenResponse data = Err err ->
     client.GetTokens backendURL None (client.DoResponse 200 status (Ok data))
     = Err (GoErrors.wrapError "failed to parse tokens response: "
              (GoErrors.wrapError "invalid JSON: " err)))
  /\ (forall status data r, data <> "" ->
     GoJSON.Unmarshal client.decode_TokenResponse data = Ok r ->
     client.GetTokens backendURL None (client.DoResponse 200 status (Ok data))
     = Ok r).
Proof.
  split; [reflexivity|]. split.
  { intros code status body Hc. unfold client.GetTokens.
    destruct (Z.eqb_spec code 200); [contradiction | reflexivity]. }
  split; [intros status; split; reflexivity|]. split.
  - intros status data err Hd Hu. unfold client.GetTokens. simpl.
    now rewrite (parseJSON_nonempty _ Hd), Hu.
  - intros status data r Hd Hu. unfold client.GetTokens. simpl.
    now rewrite (parseJSON_nonempty _ Hd), Hu.
Qed.

End Client.

(** C7 as stated fails: the error [GetTokens] returns for a 200 response
    with an empty body does not have the text [empty response body]. *)
Lemma GetTokens_empty_body_text :
  ~ exists e,
      client.GetTokens (codec := samples.sample_codec)
        "http://backend/api/v2" None (client.DoResponse 200 "200 OK" (Ok ""))
      = Err e
      /\ GoErrors.Error e = "empty response body".
Proof.
  intros (e & H & T). vm_compute in H. injection H as <-. discriminate T.
Qed.

(** A backend answering 503, and one answering 200 with a text that is no
    JSON. *)
Lemma GetTokens_classification_witness :
  client.GetTokens (codec := samples.sample_codec) "http://backend/api/v2"
    None (client.DoResponse 503 "503 Service Unavailable" (Ok ""))
  = Err (GoErrors.APIError 503 "503 Service Unavailable"
           "http://backend/api/v2/tokens")
  /\ client.GetTokens (codec := samples.sample_codec) "http://backend/api/v2"
       None (client.DoResponse 200 "200 OK" (Ok "<html>"))
     = Err (GoErrors.wrapError "failed to parse tokens response: "
              (GoErrors.wrapError "invalid JSON: "
                 (GoErrors.libError GoErrors.json_SyntaxError
                    "invalid character looking for beginning of value"
                    None))).
Proof.
  destruct (GetTokens_classification (codec := samples.sample_codec)
              "http://backend/api/v2") as (_ & H1 & _ & H2 & _).
  split.
  - apply H1. discriminate.
  - apply H2; [discriminate | reflexivity].
Defined.


(** ** JSON strings written by the encoder *)

Section Encoding.

Ltac bools :=
  repeat match goal with
    | H : _ && _ = true |- _ => apply andb_true_iff in H; destruct H
    | H : _ || _ = false |- _ => apply orb_false_iff in H; destruct H
    | H : negb _ = true |- _ => apply negb_true_iff in H
    | H : negb _ = false |- _ => apply negb_false_iff in H
    | H : (_ <=? _)%N = true |- _ => apply N.leb_le in H
    | H : (_ <=? _)%N = false |- _ => apply N.leb_gt in H
    | H : (_ <? _)%N = true |- _ => apply N.ltb_lt in H
    | H : (_ <? _)%N = false |- _ => apply N.ltb_ge in H
    | H : (_ =? _)%N = true |- _ => apply N.eqb_eq in H
    | H : (_ =? _)%N = false |- _ => apply N.eqb_neq in H
    end.

Lemma raw_ok_high c :
  (0x80 <= GoStrings.byte c)%N -> GoJSONEncode.raw_ok c = true.
Proof.
  intros H. unfold GoJSONEncode.raw_ok.
  destruct (N.leb_spec 0x20 (GoStrings.byte c)); [|lia].
  destruct (N.eqb_spec (GoStrings.byte c) 0x22); [lia|].
  destruct (N.eqb_spec (GoStrings.byte c) 0x5C); [lia|]. reflexivity.
Qed.

Lemma raw_ok_htmlSafe c :
  GoJSONEncode.htmlSafe (GoStrings.byte c) = true ->
  GoJSONEncode.raw_ok c = true.
Proof.
  unfold GoJSONEncode.htmlSafe, GoJSONEncode.raw_ok. intros H. bools.
  repeat (apply andb_true_iff; split); try apply negb_true_iff;
    try apply N.leb_le; try apply N.eqb_neq; assumption.
Qed.

Lemma hex_digit_hex n : GoJSONEncode.hex_digit (GoJSONEncode.hex n) = true.
Proof.
  unfold GoJSONEncode.hex. generalize (N.to_nat n) as m. intros m.
  do 16 (destruct m as [|m]; [reflexivity|]). reflexivity.
Qed.

Lemma chars_escape_app c rest :
  GoJSONEncode.chars rest ->
  GoJSONEncode.chars (GoJSONEncode.escape c +:+ rest).
Proof.
  intros Hr. unfold GoJSONEncode.escape.
  destruct ((GoStrings.byte c =? 0x5C) || (GoStrings.byte c =? 0x22))%N eqn:E1.
  { apply (GoJSONEncode.chars_escape c rest); [|exact Hr].
    unfold GoJSONEncode.simple_escape.
    apply orb_true_iff in E1 as [E|E]; rewrite E;
      rewrite ?orb_true_r; reflexivity. }
  destruct (GoStrings.byte c =? 0x08)%N;
    [now apply (GoJSONEncode.chars_escape "b" rest)|].
  destruct (GoStrings.byte c =? 0x0C)%N;
    [now apply (GoJSONEncode.chars_escape "f" rest)|].
  destruct (GoStrings.byte c =? 0x0A)%N;
    [now apply (GoJSONEncode.chars_escape "n" rest)|].
  destruct (GoStrings.byte c =? 0x0D)%N;
    [now apply (GoJSONEncode.chars_escape "r" rest)|].
  destruct (GoStrings.byte c =? 0x09)%N;
    [now apply (GoJSONEncode.chars_escape "t" rest)|].
  apply (GoJSONEncode.chars_unicode "0" "0" _ _ rest);
    auto using hex_digit_hex.
Qed.

Lemma first_values b :
  In (GoUTF8.first b) [0xF0; 0xF1; 0x02; 0x13; 0x03; 0x23; 0x34; 0x04; 0x44]%N.
Proof.
  unfold GoUTF8.first.
  repeat match goal with
    | |- context [if ?c then _ else _] => destruct c
    end; simpl; tauto.
Qed.

Lemma not_cont_false b : GoUTF8.not_cont b = false -> (0x80 <= b)%N.
Proof. unfold GoUTF8.not_cont. intros H. bools. assumption. Qed.

(** A rune that [DecodeRuneInString] accepts at a non-ASCII byte is
    followed by [size - 1] bytes that are not ASCII either. *)
Lemma DecodeRuneInString_high c0 rest r size :
  GoUTF8.DecodeRuneInString (String c0 rest) = (r, size) ->
  ((r =? GoUTF8.RuneError)%N && (size =? 1)%nat) = false ->
  GoUTF8.high_prefix (size - 1) rest.
Proof.
  unfold GoUTF8.DecodeRuneInString. cbv zeta.
  pose proof (first_values (GoStrings.byte c0)) as Hf.
  set (x := GoUTF8.first (GoStrings.byte c0)) in *.
  simpl in Hf.
  assert (Hlo : forall b1 lo hi,
            GoUTF8.acceptRanges (N.shiftr x 4) = (lo, hi) ->
            (0xF0 <=? x)%N = false ->
            ((b1 <? lo) || (hi <? b1))%N = false -> (0x80 <= b1)%N).
  { intros b1 lo hi Ha Hx Hb.
    destruct Hf as [E|[E|[E|[E|[E|[E|[E|[E|[E|[]]]]]]]]]];
      rewrite <- E in Ha, Hx; vm_compute in Hx; try discriminate;
      vm_compute in Ha; injection Ha as <- <-; bools; lia. }
  destruct (0xF0 <=? x)%N eqn:Hx.
  { intros H _. injection H as _ <-. exact I. }
  destruct (GoUTF8.acceptRanges (N.shiftr x 4)) as [lo hi] eqn:Ha.
  destruct (String.length (String c0 rest) <? N.to_nat (N.land x 7))%nat.
  { intros H N. injection H as <- <-. discriminate N. }
  destruct rest as [|c1 s2].
  { intros H N. injection H as <- <-. discriminate N. }
  destruct ((GoStrings.byte c1 <? lo) || (hi <? GoStrings.byte c1))%N eqn:H1.
  { intros H N. injection H as <- <-. discriminate N. }
  specialize (Hlo _ _ _ eq_refl eq_refl H1).
  destruct (N.to_nat (N.land x 7) <=? 2)%nat.
  { intros H _. injection H as _ <-. simpl. auto. }
  destruct s2 as [|c2 s3].
  { intros H N. injection H as <- <-. discriminate N. }
  destruct (GoUTF8.not_cont (GoStrings.byte c2)) eqn:H2.
  { intros H N. injection H as <- <-. discriminate N. }
  apply not_cont_false in H2.
  destruct (N.to_nat (N.land x 7) <=? 3)%nat.
  { intros H _. injection H as _ <-. simpl. auto. }
  destruct s3 as [|c3 s4].
  { intros H N. injection H as <- <-. discriminate N. }
  destruct (GoUTF8.not_cont (GoStrings.byte c3)) eqn:H3.
  { intros H N. injection H as <- <-. discriminate N. }
  apply not_cont_false in H3.
  intros H _. injection H as _ <-. simpl. auto.
Qed.

Lemma appendString_from_scan c rest :
  GoJSONEncode.appendString_from 0 true (String c rest)
  = if (GoStrings.byte c <? 0x80)%N then
      (if GoJSONEncode.htmlSafe (GoStrings.byte c)
       then String c "" else GoJSONEncode.escape c)
      +:+ GoJSONEncode.appendString_from 0 true rest
    else
      let '(r, size) := GoUTF8.DecodeRuneInString (String c rest) in
      if (r =? GoUTF8.RuneError)%N && (size =? 1)%nat then
        GoJSONEncode.backslash +:+ "ufffd"
        +:+ GoJSONEncode.appendString_from 0 true rest
      else if ((r =? 0x2028) || (r =? 0x2029))%N then
        GoJSONEncode.backslash +:+ "u202"
        +:+ String (GoJSONEncode.hex (N.land r 0xF)) ""
        +:+ GoJSONEncode.appendString_from (size - 1) false rest
      else String c (GoJSONEncode.appendString_from (size - 1) true rest).
Proof. reflexivity. Qed.

Lemma appendString_from_keep_false c rest :
  GoJSONEncode.appendString_from 0 false (String c rest)
  = GoJSONEncode.appendString_from 0 true (String c rest).
Proof. reflexivity. Qed.

Lemma appendString_from_chars src :
  forall k keep, (keep = true -> GoUTF8.high_prefix k src) ->
  GoJSONEncode.chars (GoJSONEncode.appendString_from k keep src).
Proof.
  induction src as [|c rest IH]; intros k keep Hk; [constructor|].
  destruct k as [|k].
  - replace (GoJSONEncode.appendString_from 0 keep (String c rest))
      with (GoJSONEncode.appendString_from 0 true (String c rest))
      by (destruct keep; reflexivity).
    rewrite appendString_from_scan.
    destruct (GoStrings.byte c <? 0x80)%N eqn:Hb.
    + assert (Hrest : GoJSONEncode.chars
                        (GoJSONEncode.appendString_from 0 true rest))
        by (apply IH; intros _; destruct rest; exact I).
      destruct (GoJSONEncode.htmlSafe (GoStrings.byte c)) eqn:Hs.
      * apply GoJSONEncode.chars_raw; [now apply raw_ok_htmlSafe | exact Hrest].
      * now apply chars_escape_app.
    + apply N.ltb_ge in Hb.
      destruct (GoUTF8.DecodeRuneInString (String c rest)) as [r size] eqn:Hd.
      destruct ((r =? GoUTF8.RuneError)%N && (size =? 1)%nat) eqn:He.
      * apply (GoJSONEncode.chars_unicode "f" "f" "f" "d"); try reflexivity.
        apply IH. intros _. destruct rest; exact I.
      * pose proof (DecodeRuneInString_high _ _ _ _ Hd He) as Hh.
        destruct ((r =? 0x2028) || (r =? 0x2029))%N.
        -- apply (GoJSONEncode.chars_unicode "2" "0" "2" _);
             try reflexivity; [apply hex_digit_hex|].
           apply IH. discriminate.
        -- apply GoJSONEncode.chars_raw; [now apply raw_ok_high|].
           apply IH. intros _. exact Hh.
  - destruct keep.
    + destruct (Hk eq_refl) as [Hc Hr].
      apply (GoJSONEncode.chars_raw c); [now apply raw_ok_high|].
      apply IH. intros _. exact Hr.
    + apply (IH k false). discriminate.
Qed.

(** Whatever the bytes of a Go string, the encoder writes a JSON string. *)
Lemma value_appendString (s : string) :
  GoJSONEncode.value (GoJSONEncode.appendString s).
Proof.
  apply GoJSONEncode.value_string, appendString_from_chars.
  intros _. destruct s; exact I.
Qed.

Lemma chars_error : GoJSONEncode.chars "error".
Proof. repeat (apply GoJSONEncode.chars_raw; [reflexivity|]). constructor. Qed.

Lemma chars_message : GoJSONEncode.chars "message".
Proof. repeat (apply GoJSONEncode.chars_raw; [reflexivity|]). constructor. Qed.

Lemma value_Marshal_ErrorResponse (e : models.ErrorResponse) :
  GoJSONEncode.value (GoJSONEncode.Marshal_ErrorResponse e).
Proof.
  apply GoJSONEncode.value_object, GoJSONEncode.members_more;
    [apply chars_error | apply value_appendString |].
  apply GoJSONEncode.members_one; [apply chars_message|].
  apply value_appendString.
Qed.

Ltac plain_chars :=
  repeat (apply GoJSONEncode.chars_raw; [reflexivity|]);
  apply GoJSONEncode.chars_nil.

Lemma value_appendStringPtr (p : option string) :
  GoJSONEncode.value (GoJSONEncode.appendStringPtr p).
Proof.
  destruct p; [apply value_appendString | apply GoJSONEncode.value_null].
Qed.

Lemma value_Marshal_Token (t : models.Token) :
  GoJSONEncode.value (GoJSONEncode.Marshal_Token t).
Proof.
  apply GoJSONEncode.value_object.
  repeat (apply GoJSONEncode.members_more;
          [plain_chars
          | first [apply value_appendString | apply value_appendStringPtr]
          | ]).
  apply GoJSONEncode.members_one; [plain_chars | apply value_appendStringPtr].
Qed.

Lemma elements_join {A} (enc : A -> string) (x : A) (l : list A) :
  (forall a, GoJSONEncode.value (enc a)) ->
  GoJSONEncode.elements (GoJSONEncode.join_elems (List.map enc (x :: l))).
Proof.
  intros H. revert x. induction l as [|y l IH]; intros x.
  - apply GoJSONEncode.elements_one, H.
  - change (GoJSONEncode.join_elems (List.map enc (x :: y :: l)))
      with (enc x +:+ "," +:+ GoJSONEncode.join_elems (List.map enc (y :: l))).
    apply GoJSONEncode.elements_more; [apply H | apply IH].
Qed.

(** Every token response is written as a JSON text. *)
Lemma value_Marshal_TokenResponse (r : models.TokenResponse) :
  GoJSONEncode.value (GoJSONEncode.Marshal_TokenResponse r).
Proof.
  apply GoJSONEncode.value_object, GoJSONEncode.members_one; [plain_chars|].
  destruct r as [[[|t l]|]]; simpl.
  - apply GoJSONEncode.value_empty_array.
  - apply GoJSONEncode.value_array, elements_join, value_Marshal_Token.
  - apply GoJSONEncode.value_null.
Qed.

End Encoding.


(** ** The token filter handler *)

Section TokenFilter.

Import middleware.

(** The loop of [filterTokens]: the tokens kept are those of the whitelist,
    in the order of the input, after the ones already collected; and the
    slice stays nil as long as nothing is kept. *)
Lemma filter_loop (wl : models.TokenWhitelist) (l : list models.Token) :
  forall acc : slice models.Token,
    let r := fold_left
               (fun filteredTokens token =>
                  if models.Contains wl (models.Address token)
                  then append filteredTokens token
                  else filteredTokens) l acc in
    elems r
    = elems acc
      ++ List.filter (fun t => models.Contains wl (models.Address t)) l
    /\ (r = None <->
        acc = None
        /\ List.filter (fun t => models.Contains wl (models.Address t)) l = []).
Proof.
  induction l as [|t l IH]; intros acc; simpl.
  - rewrite app_nil_r. tauto.
  - destruct (models.Contains wl (models.Address t)) eqn:E.
    + destruct (IH (append acc t)) as [H1 H2]. split.
      * rewrite H1. unfold append. simpl. now rewrite <- app_assoc.
      * rewrite H2. unfold append. split; [intros [? _]|intros [_ ?]];
          discriminate.
    + apply IH.
Qed.

(** With a whitelist that is not empty, [filterTokens] returns the tokens
    whose address is in the whitelist, in the order of the response. *)
Lemma filterTokens_subsequence
  (wl : models.TokenWhitelist) (T : models.TokenResponse) :
  models.Size wl <> 0%nat ->
  elems (models.Items (TokenFilterHandler.filterTokens wl (Some T)))
  = List.filter (fun t => models.Contains wl (models.Address t))
      (elems (models.Items T)).
Proof.
  intros Hw. unfold TokenFilterHandler.filterTokens.
  destruct (len (models.Items T) =? 0)%nat eqn:El.
  - apply Nat.eqb_eq in El. destruct T as [[[|t l]|]]; simpl in *;
      try reflexivity; discriminate.
  - destruct (models.Size wl =? 0)%nat eqn:Es;
      [apply Nat.eqb_eq in Es; contradiction|].
    simpl. now rewrite (proj1 (filter_loop wl _ None)).
Qed.

(** When the response has tokens, the whitelist is not empty and no token
    is in it, the slice of the result is nil, and is encoded as [null]. *)
Lemma filterTokens_no_match
  (wl : models.TokenWhitelist) (T : models.TokenResponse) :
  models.Size wl <> 0%nat ->
  len (models.Items T) <> 0%nat ->
  List.filter (fun t => models.Contains wl (models.Address t))
    (elems (models.Items T)) = [] ->
  TokenFilterHandler.filterTokens wl (Some T) = {| models.Items := None |}.
Proof.
  intros Hw Hl Hf. unfold TokenFilterHandler.filterTokens.
  destruct (len (models.Items T) =? 0)%nat eqn:El;
    [apply Nat.eqb_eq in El; contradiction|].
  destruct (models.Size wl =? 0)%nat eqn:Es;
    [apply Nat.eqb_eq in Es; contradiction|].
  f_equal. apply (filter_loop wl _ None). auto.
Qed.

(** C1, at the input of the test "successful filtering with no matches":
    the whitelist holds [0xaaaa] and [0xbbbb], the backend returns the
    tokens [0x1234] and [0x5678].  [filterTokens] returns the nil slice and
    the body written is [{"items":null}], not [{"items":[]}]. *)
Theorem filterTokens_no_match_writes_null :
  let wl := {| models.Addresses := Some ["0xaaaa"; "0xbbbb"] |} in
  let T := {| models.Items := Some [samples.token "0x1234" "Token1";
                                    samples.token "0x5678" "Token2"] |} in
  TokenFilterHandler.filterTokens wl (Some T) = {| models.Items := None |}
  /\ GoHTTP.body (TokenFilterHandler.ServeHTTP wl (Ok T) GoHTTP.NewRecorder)
     = samples.items_null_json
  /\ GoHTTP.body (TokenFilterHandler.ServeHTTP wl (Ok T) GoHTTP.NewRecorder)
     <> samples.items_empty_json.
Proof.
  cbv zeta. split; [reflexivity|]. split; [reflexivity|].
  vm_compute. discriminate.
Qed.

(** C2. When [Size()] of the whitelist is 0, [filterTokens] returns the
    token list of the response unchanged: the result has the same tokens in
    the same order; a response with at least one token is returned as it is
    and written as it is; a response without tokens gives the empty
    list. *)
Theorem filterTokens_empty_whitelist
  (wl : models.TokenWhitelist) (T : models.TokenResponse)
  (Hsize : models.Size wl = 0%nat) :
  elems (models.Items (TokenFilterHandler.filterTokens wl (Some T)))
  = elems (models.Items T)
  /\ (len (models.Items T) <> 0%nat ->
      TokenFilterHandler.filterTokens wl (Some T) = T
      /\ GoHTTP.body (TokenFilterHandler.ServeHTTP wl (Ok T) GoHTTP.NewRecorder)
         = GoJSONEncode.Marshal_TokenResponse T +:+ GoJSONEncode.newline)
  /\ (len (models.Items T) = 0%nat ->
      TokenFilterHandler.filterTokens wl (Some T)
      = {| models.Items := make0 |}).
Proof.
  unfold TokenFilterHandler.ServeHTTP, TokenFilterHandler.filterTokens.
  rewrite Hsize. simpl (0 =? 0)%nat.
  destruct (len (models.Items T) =? 0)%nat eqn:El.
  - apply Nat.eqb_eq in El. split; [|split; [contradiction | reflexivity]].
    destruct T as [[[|t l]|]]; simpl in *; try reflexivity; discriminate.
  - apply Nat.eqb_neq in El. split; [reflexivity|].
    split; [|contradiction]. intros _. split; reflexivity.
Qed.

(** An empty whitelist and the two tokens of the tests. *)
Lemma filterTokens_empty_whitelist_witness :
  TokenFilterHandler.filterTokens models.NewTokenWhitelist
    (Some {| models.Items := Some [samples.token "0x1234" "Token1";
                                   samples.token "0x5678" "Token2"] |})
  = {| models.Items := Some [samples.token "0x1234" "Token1";
                             samples.token "0x5678" "Token2"] |}.
Proof.
  destruct (filterTokens_empty_whitelist models.NewTokenWhitelist
              {| models.Items := Some [samples.token "0x1234" "Token1";
                                       samples.token "0x5678" "Token2"] |}
              eq_refl) as (_ & H & _).
  apply H. discriminate.
Defined.

Lemma string_app_assoc (a b c : string) : (a +:+ b) +:+ c = a +:+ (b +:+ c).
Proof.
  induction a as [|x a IH]; [reflexivity|].
  rewrite !append_cons. now rewrite IH.
Qed.

Lemma Marshal_error_json (category detail : string) :
  GoJSONEncode.appendString category = samples.quoted category ->
  GoJSONEncode.Marshal_ErrorResponse
    {| models.Error := category; models.Message := detail |}
  +:+ GoJSONEncode.newline
  = samples.error_json category detail.
Proof.
  intros H. unfold GoJSONEncode.Marshal_ErrorResponse, samples.error_json.
  simpl models.Error. simpl models.Message. rewrite H.
  unfold GoJSONEncode.member, samples.quoted.
  rewrite !string_app_assoc. reflexivity.
Qed.

Lemma writeErrorResponse_fresh w statusCode message detail :
  GoHTTP.written w = None -> GoHTTP.body w = "" ->
  let w' := TokenFilterHandler.writeErrorResponse w statusCode message detail in
  GoHTTP.written w'
  = Some (statusCode,
          GoHTTP.Set_ (GoHTTP.header w) "Content-Type" "application/json")
  /\ GoHTTP.body w'
     = GoJSONEncode.Marshal_ErrorResponse
         {| models.Error := message; models.Message := detail |}
       +:+ GoJSONEncode.newline.
Proof.
  intros Hw Hb. unfold TokenFilterHandler.writeErrorResponse, GoHTTP.Write,
    GoHTTP.WriteHeader. simpl. rewrite Hw. simpl. now rewrite Hb.
Qed.

(** C4. For every error of the token fetch, on a response not yet
    started: an error classified as network error gives status 502 and the
    body [{"error":"Backend API unreachable","message":<text>}]; otherwise
    an error classified as API error gives 502 and
    [{"error":"Backend API error","message":<text>}]; any other error gives
    500 and [{"error":"Internal server error","message":<text>}]; in all
    three cases the header sent has [Content-Type: application/json] and
    the body is a JSON text. *)
Theorem handleError_response
  (w : GoHTTP.ResponseWriter) (err : error)
  (Hfresh : GoHTTP.written w = None) (Hbody : GoHTTP.body w = "") :
  let w' := TokenFilterHandler.handleError w err in
  (client.IsNetworkError (Some err) = true ->
   GoHTTP.StatusCode w' = Some 502
   /\ GoHTTP.body w'
      = samples.error_json "Backend API unreachable" (GoErrors.Error err))
  /\ (client.IsNetworkError (Some err) = false ->
      client.IsAPIError (Some err) = true ->
      GoHTTP.StatusCode w' = Some 502
      /\ GoHTTP.body w'
         = samples.error_json "Backend API error" (GoErrors.Error err))
  /\ (client.IsNetworkError (Some err) = false ->
      client.IsAPIError (Some err) = false ->
      GoHTTP.StatusCode w' = Some 500
      /\ GoHTTP.body w'
         = samples.error_json "Internal server error" (GoErrors.Error err))
  /\ (exists h, GoHTTP.SentHeader w' = Some h
                /\ h !! "Content-Type" = Some ["application/json"])
  /\ GoJSONEncode.json_text (GoHTTP.body w').
Proof.
  cbv zeta. unfold TokenFilterHandler.handleError.
  assert (W : forall code message,
            let w' := TokenFilterHandler.writeErrorResponse w code message
                        (GoErrors.Error err) in
            (GoHTTP.StatusCode w' = Some code
             /\ GoHTTP.body w'
                = GoJSONEncode.Marshal_ErrorResponse
                    {| models.Error := message;
                       models.Message := GoErrors.Error err |}
                  +:+ GoJSONEncode.newline)
            /\ (exists h, GoHTTP.SentHeader w' = Some h
                          /\ h !! "Content-Type" = Some ["application/json"])
            /\ GoJSONEncode.json_text (GoHTTP.body w')).
  { intros code message.
    destruct (writeErrorResponse_fresh w code message (GoErrors.Error err)
                Hfresh Hbody) as [H1 H2].
    cbv zeta. unfold GoHTTP.StatusCode, GoHTTP.SentHeader.
    rewrite H1, H2. repeat split.
    - eexists. split; [reflexivity|]. apply lookup_insert_eq.
    - eexists. split; [apply value_Marshal_ErrorResponse | reflexivity]. }
  destruct (client.IsNetworkError (Some err));
    [|destruct (client.IsAPIError (Some err))].
  - destruct (W 502 "Backend API unreachable") as ([Hs Hb] & Hh & Hj).
    rewrite (Marshal_error_json _ _ eq_refl) in Hb.
    repeat split; try discriminate; try assumption; intros; assumption.
  - destruct (W 502 "Backend API error") as ([Hs Hb] & Hh & Hj).
    rewrite (Marshal_error_json _ _ eq_refl) in Hb.
    repeat split; try discriminate; try assumption; intros; assumption.
  - destruct (W 500 "Internal server error") as ([Hs Hb] & Hh & Hj).
    rewrite (Marshal_error_json _ _ eq_refl) in Hb.
    repeat split; try discriminate; try assumption; intros; assumption.
Qed.

(** The three errors of the handler's tests, on a fresh recorder. *)
Lemma handleError_response_witness :
  GoHTTP.StatusCode
    (TokenFilterHandler.handleError GoHTTP.NewRecorder
       (GoErrors.NetworkError "get_tokens" "test"
          (Some (GoErrors.errorString "connection failed"))))
  = Some 502
  /\ GoHTTP.StatusCode
       (TokenFilterHandler.handleError GoHTTP.NewRecorder
          (GoErrors.APIError 500 "Internal Server Error" "test"))
     = Some 502
  /\ GoHTTP.StatusCode
       (TokenFilterHandler.handleError GoHTTP.NewRecorder
          (GoErrors.errorString "generic error"))
     = Some 500.
Proof.
  split; [|split].
  - destruct (handleError_response GoHTTP.NewRecorder
                (GoErrors.NetworkError "get_tokens" "test"
                   (Some (GoErrors.errorString "connection failed")))
                eq_refl eq_refl) as (H & _).
    apply H. reflexivity.
  - destruct (handleError_response GoHTTP.NewRecorder
                (GoErrors.APIError 500 "Internal Server Error" "test")
                eq_refl eq_refl) as (_ & H & _).
    apply H; reflexivity.
  - destruct (handleError_response GoHTTP.NewRecorder
                (GoErrors.errorString "generic error")
                eq_refl eq_refl) as (_ & _ & H & _).
    apply H; reflexivity.
Defined.

End TokenFilter.


(** ** The generic proxy handler *)

Section Proxy.

Import middleware.

Local Abbreviation blocked := StandardProxyHandler.skipped.

Lemma Add_values (key : string) (values : list string) :
  forall dst : gmap string (list string),
    fold_left (fun dst value => GoHTTP.Add dst key value) values dst
    = match values with
      | [] => dst
      | _ => <[GoHTTP.CanonicalMIMEHeaderKey key :=
                 default [] (dst !! GoHTTP.CanonicalMIMEHeaderKey key)
                 ++ values]> dst
      end.
Proof.
  induction values as [|v vs IH]; intros dst; [reflexivity|].
  simpl. rewrite IH. unfold GoHTTP.Add. destruct vs as [|v' vs]; [reflexivity|].
  rewrite lookup_insert_eq. simpl. rewrite insert_insert_eq.
  now rewrite <- app_assoc.
Qed.

Lemma copyHeader_lookup (dst : gmap string (list string)) key values k :
  GoHTTP.CanonicalMIMEHeaderKey key = key ->
  StandardProxyHandler.copyHeader dst (key, values) !! k
  = if decide (k = key)
    then if blocked key then dst !! key
         else match values with
              | [] => dst !! key
              | _ => Some (default [] (dst !! key) ++ values)
              end
    else dst !! k.
Proof.
  intros Hc. unfold StandardProxyHandler.copyHeader,
    StandardProxyHandler.skipped.
  destruct (StandardProxyHandler.isHopByHopHeader key); simpl.
  { destruct (decide (k = key)) as [->|]; reflexivity. }
  destruct (StandardProxyHandler.isCORSHeader key); simpl.
  { destruct (decide (k = key)) as [->|]; reflexivity. }
  rewrite Add_values, Hc.
  destruct (decide (k = key)) as [->|Hne].
  - destruct values; [reflexivity|]. now rewrite lookup_insert_eq.
  - destruct values; [reflexivity|]. now rewrite lookup_insert_ne.
Qed.

Lemma copyHeaders_lookup (range : list (string * list string)) :
  forall dst : gmap string (list string),
    NoDup range.*1 ->
    Forall (fun e => GoHTTP.CanonicalMIMEHeaderKey (fst e) = fst e) range ->
    forall k,
      StandardProxyHandler.copyHeaders range dst !! k
      = if blocked k then dst !! k
        else match (list_to_map range : gmap string (list string)) !! k with
             | Some (v :: vs) => Some (default [] (dst !! k) ++ v :: vs)
             | _ => dst !! k
             end.
Proof.
  induction range as [|[key values] rest IH]; intros dst Hnd Hcan k.
  - simpl. rewrite lookup_empty. now destruct (blocked k).
  - apply NoDup_cons in Hnd as [Hfresh Hnd]. inversion Hcan as [|? ? Hk Hrest].
    subst. simpl in Hk.
    change (StandardProxyHandler.copyHeaders ((key, values) :: rest) dst)
      with (StandardProxyHandler.copyHeaders rest
              (StandardProxyHandler.copyHeader dst (key, values))).
    rewrite (IH _ Hnd Hrest k), (copyHeader_lookup dst key values k Hk).
    rewrite list_to_map_cons.
    destruct (decide (k = key)) as [->|Hne].
    + rewrite lookup_insert_eq.
      rewrite (not_elem_of_list_to_map_1 rest key Hfresh).
      destruct (blocked key); [reflexivity|]. now destruct values.
    + now rewrite lookup_insert_ne.
Qed.



End Proxy.


(** ** The tables of the repository's tests, run on the embedding *)

Section TestTables.

Import middleware.

(** TestProxyServer_isTokensEndpoint (src/main_test.go). *)
Example isTokensEndpoint_table :
  List.map main.isTokensEndpoint
    ["/api/v2/tokens"; "/api/v2/tokens/"; "/api/v2/tokens?limit=10";
     "/api/v2/tokens?limit=10&offset=0"; "/api/v2/other";
     "/api/v2/tokens/123"; "/api/v1/tokens"; "/tokens"; ""]
  = [true; true; true; true; false; false; false; false; false].
Proof. reflexivity. Qed.

(** Two slashes at the end: only one is cut. *)
Example isTokensEndpoint_two_slashes :
  main.isTokensEndpoint "/api/v2/tokens//" = false.
Proof. reflexivity. Qed.

(** TestNetworkErrorDetection (src/client/client_error_test.go). *)
Example IsNetworkError_table :
  List.map client.IsNetworkError
    [None;
     Some (GoErrors.NetworkError "test" "http://test.com"
             (Some (GoErrors.errorString "connection failed")));
     Some (GoErrors.libError GoErrors.net_OpError "dial tcp: connection refused"
             (Some (GoErrors.errorString "connection refused")));
     Some (GoErrors.libError GoErrors.net_DNSError
             "lookup invalid.domain: no such host" None);
     Some (GoErrors.errorString
             "context deadline exceeded (Client.Timeout exceeded while awaiting headers)");
     Some (GoErrors.errorString
             "dial tcp 192.168.1.1:80: connect: network is unreachable");
     Some (GoErrors.errorString "write tcp 127.0.0.1:8080: write: broken pipe");
     Some (GoErrors.errorString "some other error")]
  = [false; true; true; true; true; true; true; false].
Proof. vm_compute. reflexivity. Qed.

(** TestAPIErrorDetection. *)
Example IsAPIError_table :
  List.map client.IsAPIError
    [None;
     Some (GoErrors.APIError 500 "Internal Server Error" "http://test.com");
     Some (GoErrors.errorString "some error");
     Some (GoErrors.NetworkError "test" "http://test.com"
             (Some (GoErrors.errorString "connection failed")))]
  = [false; true; false; false].
Proof. reflexivity. Qed.

(** TestErrorTypes: the texts of the two error types of the client. *)
Example APIError_text :
  GoErrors.Error
    (GoErrors.APIError 500 "Internal Server Error" "http://test.com/api")
  = "API error: Internal Server Error (500) from http://test.com/api".
Proof. reflexivity. Qed.

(** An [APIError] whose status text holds a network keyword is taken for a
    network error: [IsNetworkError] is asked first. *)
Example gateway_timeout_is_network_error :
  client.IsNetworkError
    (Some (GoErrors.APIError 504 "504 Gateway Timeout" "http://b/api/v2/tokens"))
  = true.
Proof. vm_compute. reflexivity. Qed.

(** TestTokenFilterHandler_filterTokens, "filter with multiple matches". *)
Example filterTokens_multiple_matches :
  TokenFilterHandler.filterTokens
    {| models.Addresses := Some ["0x1111"; "0x3333"] |}
    (Some {| models.Items :=
               Some [samples.token "0x1111" "Token1";
                     samples.token "0x2222" "Token2";
                     samples.token "0x3333" "Token3";
                     samples.token "0x4444" "Token4"] |})
  = {| models.Items := Some [samples.token "0x1111" "Token1";
                             samples.token "0x3333" "Token3"] |}.
Proof. reflexivity. Qed.

(** "nil input response" and "empty input response". *)
Example filterTokens_nil_and_empty :
  TokenFilterHandler.filterTokens {| models.Addresses := Some ["0x1111"] |}
    None = {| models.Items := Some [] |}
  /\ TokenFilterHandler.filterTokens {| models.Addresses := Some ["0x1111"] |}
       (Some {| models.Items := Some [] |}) = {| models.Items := Some [] |}
  /\ GoHTTP.body
       (TokenFilterHandler.ServeHTTP {| models.Addresses := Some ["0x1111"] |}
          (Ok {| models.Items := Some [] |}) GoHTTP.NewRecorder)
     = samples.items_empty_json.
Proof. repeat split. Qed.

(** Matching is byte for byte: a change of case is no match. *)
Example filterTokens_case_sensitive :
  TokenFilterHandler.filterTokens {| models.Addresses := Some ["0xABCD"] |}
    (Some {| models.Items := Some [samples.token "0xabcd" "Token1";
                                   samples.token "0xABCD" "Token2"] |})
  = {| models.Items := Some [samples.token "0xABCD" "Token2"] |}.
Proof. reflexivity. Qed.

(** TestStandardProxyHandler_CopyHeaders (src/unnamed/part_000). *)
Example copyHeaders_table :
  let dst :=
    StandardProxyHandler.copyHeaders
      [("Content-Type", ["application/json"]);
       ("Cache-Control", ["no-cache"]);
       ("Connection", ["keep-alive"]);
       ("Transfer-Encoding", ["chunked"]);
       ("Custom-Header", ["value1"; "value2"])] ∅ in
  dst !! "Content-Type" = Some ["application/json"]
  /\ dst !! "Cache-Control" = Some ["no-cache"]
  /\ dst !! "Custom-Header" = Some ["value1"; "value2"]
  /\ dst !! "Connection" = None
  /\ dst !! "Transfer-Encoding" = None.
Proof. vm_compute. repeat split. Qed.

(** TestTokenWhitelist_Validate (src/models/token_test.go). *)
Example Validate_table :
  models.Validate {| models.Addresses := Some ["a"; "b"] |} = None
  /\ models.Validate {| models.Addresses := Some ["a"; ""; "b"] |}
     = Some (GoErrors.errorString "empty address at index 1")
  /\ models.Validate {| models.Addresses := Some ["a"; "b"; "a"] |}
     = Some (GoErrors.errorString "duplicate address found: a")
  /\ models.Validate {| models.Addresses := None |}
     = Some (GoErrors.errorString "addresses slice is nil").
Proof. vm_compute. repeat split. Qed.

(** TestTokenWhitelist_RemoveAddress. *)
Example RemoveAddress_table :
  models.RemoveAddress "a" {| models.Addresses := Some ["a"; "b"] |}
  = ({| models.Addresses := Some ["b"] |}, true)
  /\ models.RemoveAddress "c" {| models.Addresses := Some ["b"] |}
     = ({| models.Addresses := Some ["b"] |}, false)
  /\ models.RemoveAddress "a" {| models.Addresses := Some ["a"] |}
     = ({| models.Addresses := Some [] |}, true).
Proof. repeat split. Qed.

End TestTables.


(** ** The whitelist store: validation and how the operations compose *)

Section WhitelistMore.

Lemma Validate_loop_None i (seen : gset string) (l : list string) :
  models.Validate_loop i seen l = None
  <-> ~ In "" l /\ NoDup l /\ (forall x, x ∈ l -> x ∉ seen).
Proof.
  revert i seen. induction l as [|x l IH]; intros i seen; simpl.
  - split; [|reflexivity]. intros _. repeat split; [tauto | constructor |].
    intros y Hy. inversion Hy.
  - destruct (String.eqb_spec x "") as [->|Hx].
    { split; [discriminate|]. intros [H _]. exfalso. apply H. now left. }
    destruct (decide (x ∈ seen)) as [Hs|Hs].
    { split; [discriminate|]. intros (_ & _ & H). exfalso.
      apply (H x); [left | exact Hs]. }
    rewrite IH. rewrite NoDup_cons. split.
    + intros (He & Hn & Hf). repeat split.
      * intros [H|H]; [congruence | contradiction].
      * intros Hin. apply (Hf x Hin). set_solver.
      * exact Hn.
      * intros y Hy. apply elem_of_cons in Hy as [->|Hy]; [exact Hs|].
        specialize (Hf y Hy). set_solver.
    + intros (He & (Hx' & Hn) & Hf). repeat split.
      * intros H. apply He. now right.
      * exact Hn.
      * intros y Hy. assert (y ∉ seen) by (apply Hf; now right).
        assert (y <> x) by (intros ->; contradiction). set_solver.
Qed.

Lemma Validate_None_iff (tw : models.TokenWhitelist) :
  models.Validate tw = None
  <-> exists l, models.Addresses tw = Some l /\ ~ In "" l /\ NoDup l.
Proof.
  unfold models.Validate. destruct (models.Addresses tw) as [l|].
  - rewrite Validate_loop_None. split.
    + intros (He & Hn & _). exists l. auto.
    + intros (l' & E & He & Hn). injection E as <-. repeat split; auto.
      intros x _. set_solver.
  - split; [discriminate|]. intros (l & E & _). discriminate.
Qed.

(** X1. [Validate] accepts a whitelist exactly when its slice is allocated,
    holds no empty address and holds no address twice. *)
Theorem Validate_accepts_iff (tw : models.TokenWhitelist) :
  models.Validate tw = None
  <-> exists l, models.Addresses tw = Some l /\ ~ In "" l /\ NoDup l.
Proof.
  unfold models.Validate. destruct (models.Addresses tw) as [l|].
  - rewrite Validate_loop_None. split.
    + intros (He & Hn & _). exists l. auto.
    + intros (l' & E & He & Hn). injection E as <-. repeat split; auto.
      intros x _. set_solver.
  - split; [discriminate|]. intros (l & E & _). discriminate.
Qed.

Lemma Validate_loop_app i (seen : gset string) (l1 rest : list string) :
  ~ In "" l1 -> NoDup l1 -> (forall x, x ∈ l1 -> x ∉ seen) ->
  models.Validate_loop i seen (l1 ++ rest)
  = models.Validate_loop (i + length l1) (list_to_set l1 ∪ seen) rest.
Proof.
  revert i seen. induction l1 as [|x l1 IH]; intros i seen He Hn Hf.
  - simpl. rewrite Nat.add_0_r. f_equal. set_solver.
  - apply NoDup_cons in Hn as [Hx Hn]. simpl.
    destruct (String.eqb_spec x "") as [->|_];
      [exfalso; apply He; now left|].
    destruct (decide (x ∈ seen)) as [Hs|_];
      [exfalso; apply (Hf x); [left | exact Hs]|].
    rewrite IH.
    + f_equal; [lia | set_solver].
    + intros H. apply He. now right.
    + exact Hn.
    + intros y Hy. assert (y ∉ seen) by (apply Hf; now right).
      assert (y <> x) by (intros ->; contradiction). set_solver.
Qed.

(** X2. [Validate] reports the first defect of the list: after a prefix
    without defect, an empty address is reported with its index, and an
    address that already stands in the prefix is reported as duplicate,
    whatever follows. *)
Theorem Validate_first_defect (l1 l2 : list string) (a : string)
  (Hclean : ~ In "" l1) (Hnodup : NoDup l1) :
  models.Validate {| models.Addresses := Some (l1 ++ "" :: l2) |}
  = Some (GoErrors.errorString
            ("empty address at index " +:+ pretty (length l1)))
  /\ (In a l1 ->
      models.Validate {| models.Addresses := Some (l1 ++ a :: l2) |}
      = Some (GoErrors.errorString ("duplicate address found: " +:+ a))).
Proof.
  unfold models.Validate. simpl. split.
  - rewrite Validate_loop_app by (auto; set_solver). reflexivity.
  - intros Ha. rewrite Validate_loop_app by (auto; set_solver). simpl.
    destruct (String.eqb_spec a "") as [->|_]; [contradiction|].
    destruct (decide (a ∈ list_to_set l1 ∪ (∅ : gset string))) as [_|Hn];
      [reflexivity|].
    exfalso. apply Hn. apply list_elem_of_In in Ha. set_solver.
Qed.

Lemma Validate_first_defect_witness :
  models.Validate {| models.Addresses := Some ["a"; "b"; ""; "a"] |}
  = Some (GoErrors.errorString "empty address at index 2")
  /\ models.Validate {| models.Addresses := Some ["a"; "b"; "a"; ""] |}
     = Some (GoErrors.errorString "duplicate address found: a").
Proof.
  assert (Hc : ~ In "" ["a"; "b"]) by (simpl; intuition discriminate).
  assert (Hn : NoDup ["a"; "b"])
    by (apply (bool_decide_unpack _); reflexivity).
  split.
  - apply (Validate_first_defect ["a"; "b"] ["a"] "a" Hc Hn).
  - apply (Validate_first_defect ["a"; "b"] [""] "a" Hc Hn). now left.
Defined.

Lemma Contains_app_one (l : list string) (a b : string) :
  existsb (fun addr => String.eqb addr b) (l ++ [a])
  = String.eqb a b || existsb (fun addr => String.eqb addr b) l.
Proof.
  rewrite existsb_app. simpl. rewrite orb_false_r. apply orb_comm.
Qed.

(** X3. A successful [AddAddress(a)] makes the whitelist one longer, makes
    [a] a member, changes the membership of no other address, and keeps a
    whitelist that [Validate] accepts acceptable. *)
Theorem AddAddress_success
  (a : string) (tw tw' : models.TokenWhitelist)
  (Hadd : models.AddAddress a tw = (tw', None)) :
  models.Size tw' = S (models.Size tw)
  /\ (forall b, models.Contains tw' b = String.eqb a b || models.Contains tw b)
  /\ (models.Validate tw = None -> models.Validate tw' = None).
Proof.
  unfold models.AddAddress in Hadd.
  destruct (String.eqb_spec a "") as [->|Ha]; [discriminate|].
  destruct (existsb _ _) eqn:Ec; [discriminate|]. injection Hadd as <-.
  unfold models.Size, models.Contains, append. simpl. repeat split.
  - rewrite length_app. simpl. destruct (models.Addresses tw); simpl; lia.
  - intros b. apply Contains_app_one.
  - intros Hv. apply Validate_None_iff in Hv as (l & El & He & Hn).
    apply Validate_None_iff. exists (l ++ [a]). rewrite El. simpl.
    rewrite El in Ec. simpl in Ec. repeat split.
    + intros Hin. apply in_app_or in Hin as [H|[H|[]]]; [contradiction|].
      congruence.
    + apply NoDup_app. repeat split; [exact Hn | | apply NoDup_singleton].
      intros x Hx Hx'. apply list_elem_of_singleton in Hx'. subst x.
      apply list_elem_of_In in Hx. apply existsb_eqb_In in Hx. congruence.
Qed.

Lemma AddAddress_success_witness :
  models.Size (fst (models.AddAddress "c" {| models.Addresses := Some ["a"; "b"] |}))
  = 3%nat.
Proof.
  destruct (AddAddress_success "c" {| models.Addresses := Some ["a"; "b"] |}
              {| models.Addresses := Some ["a"; "b"; "c"] |} eq_refl)
    as (H & _).
  exact H.
Defined.

Lemma second_occurrence (a : string) (l1 l2 m1 m2 m3 : list string) :
  ~ In a l1 -> l1 ++ a :: l2 = m1 ++ a :: m2 ++ a :: m3 -> In a l2.
Proof.
  revert m1. induction l1 as [|x l1 IH]; intros m1 Hn E.
  - destruct m1 as [|y m1]; simpl in E.
    + injection E as ->. apply in_or_app. right. now left.
    + injection E as _ ->. apply in_or_app. right. now left.
  - destruct m1 as [|y m1]; simpl in E.
    + injection E as -> _. exfalso. apply Hn. now left.
    + injection E as _ E. apply (IH m1); [|exact E].
      intros H. apply Hn. now right.
Qed.

(** X4. A successful [RemoveAddress(a)] makes the whitelist one shorter and
    changes the membership of no other address; [a] itself is gone when it
    stood once in the list (as in every list without duplicates) and is
    still a member when it stood there more than once. *)
Theorem RemoveAddress_success
  (a : string) (tw tw' : models.TokenWhitelist)
  (Hrem : models.RemoveAddress a tw = (tw', true)) :
  models.Size tw = S (models.Size tw')
  /\ (forall b, b <> a -> models.Contains tw' b = models.Contains tw b)
  /\ (NoDup (elems (models.Addresses tw)) -> models.Contains tw' a = false)
  /\ (models.Contains tw' a = true <->
      exists l1 l2 l3,
        elems (models.Addresses tw) = l1 ++ a :: l2 ++ a :: l3)
  /\ (models.Validate tw = None -> models.Validate tw' = None).
Proof.
  unfold models.RemoveAddress in Hrem.
  destruct (models.Addresses tw) as [l|] eqn:El; [|discriminate].
  destruct (models.index_of a l) as [i|] eqn:Ei; [|discriminate].
  injection Hrem as <-.
  destruct (index_of_Some _ _ _ Ei) as (l1 & l2 & -> & Hn1 & ->).
  unfold models.Size, models.Contains. simpl. rewrite El. simpl.
  split; [rewrite !length_app; simpl; lia|]. split.
  { intros b Hb. rewrite !existsb_app. simpl.
    destruct (String.eqb_spec a b); [congruence | reflexivity]. }
  split.
  { intros Hnd. apply NoDup_app in Hnd as (_ & Hd & Hnd2).
    apply NoDup_cons in Hnd2 as [Ha2 _].
    destruct (existsb _ (l1 ++ l2)) eqn:E; [|reflexivity].
    apply existsb_eqb_In, in_app_or in E as [H|H]; [contradiction|].
    exfalso. apply Ha2. now apply list_elem_of_In. }
  split.
  { rewrite existsb_eqb_In. split.
    - intros H. apply in_app_or in H as [H|H]; [contradiction|].
      apply in_split in H as (m1 & m2 & ->). now exists l1, m1, m2.
    - intros (m1 & m2 & m3 & E). apply in_or_app. right.
      eapply second_occurrence; eauto. }
  intros Hv. apply Validate_None_iff in Hv as (l & E & He & Hn).
  rewrite El in E. injection E as <-. apply Validate_None_iff.
  exists (l1 ++ l2). split; [reflexivity|]. split.
  - intros Hin. apply He. apply in_app_or in Hin as [H|H]; apply in_or_app;
      [now left | right; now right].
  - apply NoDup_app in Hn as (Hn1' & Hd & Hn2).
    apply NoDup_cons in Hn2 as [_ Hn2]. apply NoDup_app. repeat split; auto.
    intros x Hx Hx2. apply (Hd x Hx). now right.
Qed.

Lemma RemoveAddress_success_witness :
  models.Contains
    (fst (models.RemoveAddress "a" {| models.Addresses := Some ["a"; "b"; "a"] |}))
    "a" = true.
Proof.
  destruct (RemoveAddress_success "a"
              {| models.Addresses := Some ["a"; "b"; "a"] |}
              {| models.Addresses := Some ["b"; "a"] |} eq_refl)
    as (_ & _ & _ & H & _).
  apply H. now exists [], ["b"], [].
Defined.

End WhitelistMore.


(** ** Loading, then asking *)

Section LoadingMore.

Lemma index_of_last (a : string) (l : list string) :
  ~ In a l -> models.index_of a (l ++ [a]) = Some (length l).
Proof.
  induction l as [|x l IH]; intros Hn; simpl.
  - now rewrite String.eqb_refl.
  - destruct (String.eqb_spec x a) as [->|_]; [exfalso; apply Hn; now left|].
    rewrite IH; [reflexivity|]. intros H. apply Hn. now right.
Qed.

(** X5. Adding an address and removing it again gives back the list as it
    was: the address added stands last, and the removal finds it there. *)
Theorem AddAddress_then_RemoveAddress
  (a : string) (tw tw1 : models.TokenWhitelist)
  (Hadd : models.AddAddress a tw = (tw1, None)) :
  models.RemoveAddress a tw1
  = ({| models.Addresses := Some (elems (models.Addresses tw)) |}, true).
Proof.
  unfold models.AddAddress in Hadd.
  destruct (String.eqb a ""); [discriminate|].
  destruct (existsb _ _) eqn:Ec; [discriminate|]. injection Hadd as <-.
  assert (Hn : ~ In a (elems (models.Addresses tw))).
  { intros H. apply existsb_eqb_In in H. congruence. }
  unfold models.RemoveAddress, append. simpl.
  rewrite (index_of_last _ _ Hn).
  rewrite take_app_length.
  replace (S (length (elems (models.Addresses tw))))
    with (length (elems (models.Addresses tw) ++ [a]))
    by (rewrite length_app; simpl; lia).
  now rewrite drop_all, app_nil_r.
Qed.

Lemma AddAddress_then_RemoveAddress_witness :
  models.RemoveAddress "c" {| models.Addresses := Some ["a"; "b"; "c"] |}
  = ({| models.Addresses := Some ["a"; "b"] |}, true).
Proof.
  apply (AddAddress_then_RemoveAddress "c"
           {| models.Addresses := Some ["a"; "b"] |}
           {| models.Addresses := Some ["a"; "b"; "c"] |} eq_refl).
Defined.

Section WithCodec.
Context {codec : GoJSON.Codec}.

(** X6. After loading a file of the legacy shape, the whitelist answers
    from the file alone, whatever it held before: its size is the number of
    strings of the array and [Contains] holds exactly for those strings. *)
Theorem LoadFromJSON_then_Contains
  (data : string) (addrs : list string) (tw : models.TokenWhitelist)
  (Hparse : GoJSON.parse data = Ok (samples.legacy_doc addrs)) :
  snd (models.LoadFromJSON data tw) = None
  /\ models.Size (fst (models.LoadFromJSON data tw)) = length addrs
  /\ forall a,
       models.Contains (fst (models.LoadFromJSON data tw)) a = true
       <-> In a addrs.
Proof.
  rewrite (legacy_LoadFromJSON_addresses data addrs tw Hparse). simpl.
  repeat split; try apply existsb_eqb_In.
Qed.

(** X7. When [LoadFromFile] returns no error for a file that exists, the
    whitelist it leaves holds no empty address and no address twice. *)
Theorem LoadFromFile_success_valid
  (fs : GoOS.FileSystem) (p : string) (tw tw' : models.TokenWhitelist)
  (Hexists : GoOS.Stat fs p <> GoOS.StatNotExist)
  (Hload : models.LoadFromFile fs p tw = (tw', None)) :
  exists l, models.Addresses tw' = Some l /\ ~ In "" l /\ NoDup l.
Proof.
  apply Validate_None_iff. unfold models.LoadFromFile in Hload.
  destruct (GoOS.Stat fs p); try contradiction;
    (destruct (GoOS.ReadFile fs p) as [data|re]; [|discriminate];
     destruct (models.LoadFromJSON data tw) as [tw1 [e1|]]; [discriminate|];
     destruct (models.Validate tw1) eqn:Ev; [discriminate|];
     now injection Hload as <-).
Qed.

(** X8. A file that decodes but does not pass [Validate] makes
    [LoadFromFile] return the validation error after the whitelist has
    been replaced: the addresses of the file are in force. *)
Theorem LoadFromFile_invalid_replaces
  (fs : GoOS.FileSystem) (p data : string) (addrs : list string) (err : error)
  (tw : models.TokenWhitelist)
  (Hexists : GoOS.Stat fs p <> GoOS.StatNotExist)
  (Hread : GoOS.ReadFile fs p = Ok data)
  (Hparse : GoJSON.parse data = Ok (samples.legacy_doc addrs))
  (Hvalidate : models.Validate {| models.Addresses := Some addrs |} = Some err) :
  models.LoadFromFile fs p tw
  = ({| models.Addresses := Some addrs |},
     Some (GoErrors.wrapError
             ("whitelist validation failed for file " +:+ p +:+ ": ") err)).
Proof.
  unfold models.LoadFromFile.
  rewrite Hread, (legacy_LoadFromJSON_addresses data addrs tw Hparse), Hvalidate.
  destruct (GoOS.Stat fs p); try reflexivity. contradiction.
Qed.

(** X9. [LoadFromFile] changes the whitelist only when the file could be
    read and its text decoded: a missing file, a read failure and a text
    that does not decode all leave it as it was. *)
Theorem LoadFromFile_changes_only_decoded
  (fs : GoOS.FileSystem) (p : string) (tw : models.TokenWhitelist)
  (Hchanged : fst (models.LoadFromFile fs p tw) <> tw) :
  exists data v,
    GoOS.ReadFile fs p = Ok data
    /\ GoJSON.Unmarshal models.decode_temp data = Ok v.
Proof.
  unfold models.LoadFromFile, models.LoadFromJSON in Hchanged.
  destruct (GoOS.Stat fs p); simpl in Hchanged; try contradiction;
    (destruct (GoOS.ReadFile fs p) as [data|re]; simpl in Hchanged;
       [|contradiction];
     destruct (GoJSON.Unmarshal models.decode_temp data) as [v|ue] eqn:Eu;
       [now exists data, v | simpl in Hchanged; contradiction]).
Qed.

(** X10. At start-up the whitelist of the server is empty when the file is
    missing, cannot be read or does not decode, and the token filter then
    lets every token of the backend through; when the file decodes, its
    addresses are in force whether or not they pass [Validate]. *)
Theorem startup_whitelist_cases
  (fs : GoOS.FileSystem) (cfg : config.Config) :
  let p := config.WhitelistFile cfg in
  ((GoOS.Stat fs p = GoOS.StatNotExist
    \/ (exists e, GoOS.ReadFile fs p = Err e)
    \/ (exists data e, GoOS.ReadFile fs p = Ok data
                       /\ GoJSON.Unmarshal models.decode_temp data = Err e)) ->
   main.startup_whitelist fs cfg = models.NewTokenWhitelist
   /\ forall T,
        elems (models.Items
                 (middleware.TokenFilterHandler.filterTokens
                    (main.startup_whitelist fs cfg) (Some T)))
        = elems (models.Items T))
  /\ (forall data addrs,
        GoOS.Stat fs p <> GoOS.StatNotExist ->
        GoOS.ReadFile fs p = Ok data ->
        GoJSON.parse data = Ok (samples.legacy_doc addrs) ->
        main.startup_whitelist fs cfg = {| models.Addresses := Some addrs |}).
Proof.
  cbv zeta. split.
  - intros H.
    assert (E : main.startup_whitelist fs cfg = models.NewTokenWhitelist).
    { unfold main.startup_whitelist, models.LoadFromFile.
      destruct H as [H|[[e H]|(data & e & Hr & Hu)]].
      - now rewrite H.
      - rewrite H. now destruct (GoOS.Stat fs _).
      - rewrite Hr, (LoadFromJSON_error _ _ _ Hu).
        now destruct (GoOS.Stat fs _). }
    split; [exact E|]. intros T. rewrite E.
    unfold middleware.TokenFilterHandler.filterTokens. simpl.
    destruct T as [[[|t l]|]]; reflexivity.
  - intros data addrs Hs Hr Hp. unfold main.startup_whitelist,
      models.LoadFromFile.
    rewrite Hr, (legacy_LoadFromJSON_addresses data addrs _ Hp).
    destruct (GoOS.Stat fs _); try contradiction;
      now destruct (models.Validate _).
Qed.

End WithCodec.

Lemma LoadFromJSON_then_Contains_witness :
  models.Size
    (fst (models.LoadFromJSON (codec := samples.whitelist_codec)
            samples.legacy_text {| models.Addresses := Some ["old"] |}))
  = 2%nat.
Proof.
  destruct (LoadFromJSON_then_Contains (codec := samples.whitelist_codec)
              samples.legacy_text ["0xA"; "0xB"]
              {| models.Addresses := Some ["old"] |} eq_refl) as (_ & H & _).
  exact H.
Defined.

Lemma LoadFromFile_success_valid_witness :
  exists l,
    models.Addresses
      (fst (models.LoadFromFile (codec := samples.whitelist_codec)
              samples.whitelist_fs "good.json" models.NewTokenWhitelist))
    = Some l /\ ~ In "" l /\ NoDup l.
Proof.
  apply (LoadFromFile_success_valid (codec := samples.whitelist_codec)
           samples.whitelist_fs "good.json" models.NewTokenWhitelist);
    [discriminate | reflexivity].
Defined.

Lemma LoadFromFile_invalid_replaces_witness :
  fst (models.LoadFromFile (codec := samples.whitelist_codec)
         samples.whitelist_fs "duplicate.json" models.NewTokenWhitelist)
  = {| models.Addresses := Some ["0xA"; "0xA"] |}.
Proof.
  rewrite (LoadFromFile_invalid_replaces (codec := samples.whitelist_codec)
             samples.whitelist_fs "duplicate.json" samples.duplicate_text
             ["0xA"; "0xA"]
             (GoErrors.errorString "duplicate address found: 0xA")
             models.NewTokenWhitelist);
    [reflexivity | discriminate | reflexivity | reflexivity | reflexivity].
Defined.

Lemma LoadFromFile_changes_only_decoded_witness :
  exists data v,
    GoOS.ReadFile samples.whitelist_fs "good.json" = Ok data
    /\ GoJSON.Unmarshal (codec := samples.whitelist_codec)
         (models.decode_temp (codec := samples.whitelist_codec)) data = Ok v.
Proof.
  apply (LoadFromFile_changes_only_decoded (codec := samples.whitelist_codec)
           samples.whitelist_fs "good.json" models.NewTokenWhitelist).
  vm_compute. discriminate.
Defined.

Lemma startup_whitelist_cases_witness :
  main.startup_whitelist (codec := samples.whitelist_codec)
    samples.whitelist_fs (samples.config_with "locked.json")
  = models.NewTokenWhitelist
  /\ main.startup_whitelist (codec := samples.whitelist_codec)
       samples.whitelist_fs (samples.config_with "duplicate.json")
     = {| models.Addresses := Some ["0xA"; "0xA"] |}.
Proof.
  split.
  - destruct (startup_whitelist_cases (codec := samples.whitelist_codec)
                samples.whitelist_fs (samples.config_with "locked.json"))
      as [H _].
    apply H. right. left. eexists. reflexivity.
  - destruct (startup_whitelist_cases (codec := samples.whitelist_codec)
                samples.whitelist_fs (samples.config_with "duplicate.json"))
      as [_ H].
    apply (H samples.duplicate_text); [discriminate | reflexivity | reflexivity].
Defined.

End LoadingMore.


(** ** The whitelist with per-token metadata *)

Section TokensMore.

Lemma find_Address_existsb (toks : list models_tokens.WhitelistToken)
  (a : string) :
  List.find (fun t => String.eqb (models_tokens.Address t) a) toks <> None
  <-> existsb (fun addr => String.eqb addr a)
        (List.map models_tokens.Address toks) = true.
Proof.
  induction toks as [|t toks IH]; simpl.
  - split; [congruence | discriminate].
  - destruct (String.eqb (models_tokens.Address t) a); simpl; [|exact IH].
    split; [reflexivity | discriminate].
Qed.

Lemma find_Address_found (toks : list models_tokens.WhitelistToken)
  (a : string) (t : models_tokens.WhitelistToken) :
  List.find (fun t => String.eqb (models_tokens.Address t) a) toks = Some t ->
  models_tokens.Address t = a.
Proof.
  intros H. apply find_some in H as [_ H]. now apply String.eqb_eq.
Qed.

Lemma map_Address_bare (addrs : list string) :
  List.map models_tokens.Address
    (List.map (fun addr => {| models_tokens.Address := addr;
                              models_tokens.IconURL := None |}) addrs)
  = addrs.
Proof.
  induction addrs as [|a l IH]; simpl; [reflexivity | now rewrite IH].
Qed.

Section WithCodec.
Context {codec : GoJSON.Codec}.

(** X11. Whatever text [LoadFromJSON] accepts, it leaves the two lists of
    the whitelist in step: both are allocated, the addresses are those of
    the tokens in order, so [GetTokenInfo] finds an entry exactly for the
    addresses [Contains] accepts, and the entry found carries the address
    asked for. *)
Theorem LoadFromJSON_lists_in_step
  (data : string) (tw tw' : models_tokens.TokenWhitelist)
  (Hload : models_tokens.LoadFromJSON data tw = (tw', None)) :
  models_tokens.Tokens tw' <> None
  /\ models_tokens.Addresses tw' <> None
  /\ models_tokens.in_step tw'
  /\ (forall a, models_tokens.GetTokenInfo tw' a <> None
                <-> models_tokens.Contains tw' a = true)
  /\ (forall a t, models_tokens.GetTokenInfo tw' a = Some t ->
                  models_tokens.Address t = a).
Proof.
  assert (Hstep : models_tokens.Tokens tw' <> None
                  /\ models_tokens.Addresses tw' <> None /\ models_tokens.in_step tw').
  { unfold models_tokens.LoadFromJSON in Hload.
    destruct (GoJSON.Unmarshal _ data) as [t|e]; [|discriminate].
    destruct t as [[[|tok toks]|] [addrs|]]; simpl in Hload;
      injection Hload as <-; unfold models_tokens.in_step; simpl;
      rewrite ?map_Address_bare; repeat split; discriminate. }
  destruct Hstep as (Ht & Ha & Hstep). repeat split; try assumption.
  - unfold models_tokens.GetTokenInfo, models_tokens.Contains.
    rewrite Hstep. apply find_Address_existsb.
  - unfold models_tokens.GetTokenInfo, models_tokens.Contains.
    rewrite Hstep. apply find_Address_existsb.
  - intros a t. apply find_Address_found.
Qed.

End WithCodec.

(** X12. [AddAddress], [RemoveAddress] and [Clear] change the addresses
    only, so the token entries go out of step: on a whitelist whose lists
    agree, an address just added is contained but has no entry, and an
    address removed, or any address after [Clear], keeps its entry. *)
Theorem edits_leave_Tokens
  (a : string) (tw : models_tokens.TokenWhitelist) (Hstep : models_tokens.in_step tw) :
  (forall tw', models_tokens.AddAddress a tw = (tw', None) ->
     models_tokens.Contains tw' a = true
     /\ models_tokens.GetTokenInfo tw' a = None)
  /\ (forall tw', models_tokens.RemoveAddress a tw = (tw', true) ->
        models_tokens.GetTokenInfo tw' a <> None)
  /\ (models_tokens.Contains tw a = true ->
        models_tokens.Contains (models_tokens.Clear tw) a = false
        /\ models_tokens.GetTokenInfo (models_tokens.Clear tw) a <> None).
Proof.
  assert (Hinfo : models_tokens.GetTokenInfo tw a <> None
                  <-> models_tokens.Contains tw a = true).
  { unfold models_tokens.GetTokenInfo, models_tokens.Contains.
    rewrite Hstep. apply find_Address_existsb. }
  split; [|split].
  - intros tw' H. unfold models_tokens.AddAddress in H.
    destruct (String.eqb a ""); [discriminate|].
    destruct (existsb _ _) eqn:Ec; [discriminate|]. injection H as <-.
    split.
    + unfold models_tokens.Contains, append. simpl.
      rewrite existsb_app. simpl. rewrite String.eqb_refl.
      now rewrite orb_true_r.
    + change (models_tokens.GetTokenInfo tw a = None).
      destruct (models_tokens.GetTokenInfo tw a) eqn:Eg; [|reflexivity].
      assert (Hc : models_tokens.Contains tw a = true)
        by (apply Hinfo; congruence).
      unfold models_tokens.Contains in Hc. congruence.
  - intros tw' H. unfold models_tokens.RemoveAddress in H.
    destruct (models_tokens.Addresses tw) as [l|] eqn:El; [|discriminate].
    destruct (models.index_of a l) as [i|] eqn:Ei; [|discriminate].
    injection H as <-.
    change (models_tokens.GetTokenInfo tw a <> None). apply Hinfo.
    unfold models_tokens.Contains. rewrite El. simpl.
    apply existsb_eqb_In. apply index_of_Some in Ei.
    destruct Ei as (l1 & l2 & -> & _). apply in_or_app. right. now left.
  - intros Hc. split; [reflexivity|].
    change (models_tokens.GetTokenInfo tw a <> None). now apply Hinfo.
Qed.

Lemma LoadFromJSON_lists_in_step_witness :
  models_tokens.GetTokenInfo
    (fst (models_tokens.LoadFromJSON (codec := samples.whitelist_codec)
            samples.legacy_text models_tokens.NewTokenWhitelist)) "0xB"
  <> None.
Proof.
  destruct (LoadFromJSON_lists_in_step (codec := samples.whitelist_codec)
              samples.legacy_text models_tokens.NewTokenWhitelist _ eq_refl)
    as (_ & _ & _ & H & _).
  apply H. reflexivity.
Defined.

Lemma edits_leave_Tokens_witness :
  models_tokens.GetTokenInfo
    (models_tokens.Clear
       {| models_tokens.Tokens :=
            Some [{| models_tokens.Address := "0xA";
                     models_tokens.IconURL := Some "a.png" |}];
          models_tokens.Addresses := Some ["0xA"] |}) "0xA"
  <> None.
Proof.
  destruct (edits_leave_Tokens "0xA"
              {| models_tokens.Tokens :=
                   Some [{| models_tokens.Address := "0xA";
                            models_tokens.IconURL := Some "a.png" |}];
                 models_tokens.Addresses := Some ["0xA"] |} eq_refl)
    as (_ & _ & H).
  apply H. reflexivity.
Defined.

End TokensMore.


(** ** The token filter, from the backend call to the bytes written *)

Section TokenFilterMore.

Import middleware.

Lemma filter_filter {A} (f : A -> bool) (l : list A) :
  List.filter f (List.filter f l) = List.filter f l.
Proof.
  induction l as [|x l IH]; simpl; [reflexivity|].
  destruct (f x) eqn:E; simpl; [rewrite E|]; now rewrite ?IH.
Qed.

Lemma len_zero_elems {A} (s : slice A) : len s = 0%nat <-> elems s = [].
Proof. destruct s as [[|x l]|]; simpl; split; congruence. Qed.

(** X13. The slice [filterTokens] returns is nil in one case only: the
    backend sent at least one token, the whitelist is not empty, and no
    token of the backend is in it.  In every other case, a nil response or
    an empty list included, the slice is allocated. *)
Theorem filterTokens_nil_iff
  (wl : models.TokenWhitelist) (response : option models.TokenResponse) :
  models.Items (TokenFilterHandler.filterTokens wl response) = None
  <-> exists T, response = Some T
                /\ len (models.Items T) <> 0%nat
                /\ models.Size wl <> 0%nat
                /\ forall t, In t (elems (models.Items T)) ->
                             models.Contains wl (models.Address t) = false.
Proof.
  unfold TokenFilterHandler.filterTokens.
  destruct response as [T|]; simpl.
  2:{ split; [discriminate | intros (T & H & _); discriminate]. }
  destruct (len (models.Items T) =? 0)%nat eqn:El.
  { apply Nat.eqb_eq in El. split; [discriminate|].
    intros (T' & [= <-] & H & _). contradiction. }
  apply Nat.eqb_neq in El.
  destruct (models.Size wl =? 0)%nat eqn:Es.
  { apply Nat.eqb_eq in Es. split.
    - intros H. rewrite H in El. now elim El.
    - intros (T' & [= <-] & _ & H & _). contradiction. }
  apply Nat.eqb_neq in Es. simpl.
  destruct (filter_loop wl (elems (models.Items T)) None) as [_ Hnil].
  cbv zeta in Hnil. rewrite Hnil. split.
  - intros [_ Hf]. exists T. repeat split; try assumption.
    intros t Ht. destruct (models.Contains wl (models.Address t)) eqn:Ec;
      [|reflexivity].
    assert (Hin : In t (List.filter
                          (fun t => models.Contains wl (models.Address t))
                          (elems (models.Items T))))
      by (apply filter_In; auto).
    rewrite Hf in Hin. contradiction.
  - intros (T' & [= <-] & _ & _ & Hall). split; [reflexivity|].
    revert Hall. generalize (elems (models.Items T)) as l.
    induction l as [|t l IH]; intros Hall; [reflexivity|].
    simpl. rewrite (Hall t) by now left.
    apply IH. intros t' Ht'. apply Hall. now right.
Qed.

(** X14. Filtering a second time changes no token: the tokens of
    [filterTokens] applied to its own result are those of the first
    result, for every whitelist and every response. *)
Theorem filterTokens_twice
  (wl : models.TokenWhitelist) (response : option models.TokenResponse) :
  elems (models.Items
           (TokenFilterHandler.filterTokens wl
              (Some (TokenFilterHandler.filterTokens wl response))))
  = elems (models.Items (TokenFilterHandler.filterTokens wl response)).
Proof.
  set (X := TokenFilterHandler.filterTokens wl response).
  destruct (Nat.eq_dec (models.Size wl) 0%nat) as [Hz|Hnz].
  - unfold TokenFilterHandler.filterTokens at 1.
    destruct (len (models.Items X) =? 0)%nat eqn:El.
    + apply Nat.eqb_eq, len_zero_elems in El. now rewrite El.
    + now rewrite Hz.
  - rewrite (filterTokens_subsequence wl X Hnz). subst X.
    destruct response as [T|]; [|reflexivity].
    rewrite (filterTokens_subsequence wl T Hnz). apply filter_filter.
Qed.

Section WithCodec.
Context {codec : GoJSON.Codec}.

Lemma IsNetworkError_NetworkError op url cause :
  client.IsNetworkError (Some (GoErrors.NetworkError op url cause)) = true.
Proof. reflexivity. Qed.

Lemma ServeHTTP_error (wl : models.TokenWhitelist) (err : error)
  (w : GoHTTP.ResponseWriter) :
  GoHTTP.written w = None -> GoHTTP.body w = "" ->
  let w' := TokenFilterHandler.ServeHTTP wl (Err err) w in
  exists code category,
    GoHTTP.written w'
    = Some (code, GoHTTP.Set_ (GoHTTP.header w)
                    "Content-Type" "application/json")
    /\ GoHTTP.body w'
       = GoJSONEncode.Marshal_ErrorResponse
           {| models.Error := category;
              models.Message := GoErrors.Error err |}
         +:+ GoJSONEncode.newline
    /\ ((code = 502 /\ category = "Backend API unreachable"
         /\ client.IsNetworkError (Some err) = true)
        \/ (code = 502 /\ category = "Backend API error"
            /\ client.IsNetworkError (Some err) = false)
        \/ (code = 500 /\ category = "Internal server error"
            /\ client.IsNetworkError (Some err) = false)).
Proof.
  intros Hw Hb. cbv zeta.
  unfold TokenFilterHandler.ServeHTTP, TokenFilterHandler.handleError.
  assert (Hset : forall h : GoHTTP.Header,
             GoHTTP.Set_ (GoHTTP.Set_ h "Content-Type" "application/json")
               "Content-Type" "application/json"
             = GoHTTP.Set_ h "Content-Type" "application/json").
  { intros h. unfold GoHTTP.Set_. apply insert_insert_eq. }
  destruct (client.IsNetworkError (Some err)) eqn:En;
    [|destruct (client.IsAPIError (Some err))];
    match goal with
    | |- context [TokenFilterHandler.writeErrorResponse ?w0 ?c ?m ?d] =>
        destruct (writeErrorResponse_fresh w0 c m d Hw Hb) as [H1 H2];
        exists c, m; split;
          [rewrite H1; simpl; now rewrite Hset | split; [exact H2 | tauto]]
    end.
Qed.

(** X15. From the backend call to the bytes written, for every outcome of
    the call and on a response not yet started: the status is 200 when
    [GetTokens] succeeded and 500 or 502 otherwise; it is 502 with the
    category [Backend API unreachable] whenever the transport failed, and
    502 whenever the backend answered with a status other than 200; the
    headers sent name the content type [application/json]; and the body is
    always one JSON text followed by a newline. *)
Theorem tokens_endpoint_response
  (wl : models.TokenWhitelist) (backendURL : string)
  (newRequest : option error) (do : client.RoundTrip)
  (w : GoHTTP.ResponseWriter)
  (Hfresh : GoHTTP.written w = None) (Hbody : GoHTTP.body w = "") :
  let fetched := client.GetTokens backendURL newRequest do in
  let w' := TokenFilterHandler.ServeHTTP wl fetched w in
  (exists code h,
      GoHTTP.written w' = Some (code, h)
      /\ h !! "Content-Type" = Some ["application/json"]
      /\ (code = 200 \/ code = 500 \/ code = 502)
      /\ (code = 200 <-> exists T, fetched = Ok T)
      /\ (newRequest = None ->
          (exists err, do = client.DoFailed err)
          \/ (exists c s b, do = client.DoResponse c s b /\ c <> 200) ->
          code = 502))
  /\ (exists v, GoHTTP.body w' = v +:+ GoJSONEncode.newline
                /\ GoJSONEncode.value v)
  /\ (forall err, newRequest = None -> do = client.DoFailed err ->
        GoHTTP.body w'
        = GoJSONEncode.Marshal_ErrorResponse
            {| models.Error := "Backend API unreachable";
               models.Message :=
                 "network error during get_tokens to " +:+
                 (backendURL +:+ "/tokens") +:+ ": " +:+ GoErrors.Error err |}
          +:+ GoJSONEncode.newline).
Proof.
  cbv zeta.
  assert (Hct : forall h : GoHTTP.Header,
             GoHTTP.Set_ h "Content-Type" "application/json"
               !! "Content-Type" = Some ["application/json"]).
  { intros h. unfold GoHTTP.Set_.
    change (GoHTTP.CanonicalMIMEHeaderKey "Content-Type") with "Content-Type".
    apply lookup_insert_eq. }
  destruct (client.GetTokens backendURL newRequest do) as [T|e] eqn:Eg.
  - (* success *)
    unfold TokenFilterHandler.ServeHTTP, GoHTTP.Write, GoHTTP.WriteHeader.
    simpl. rewrite Hfresh, Hbody. simpl. split; [|split].
    + eexists _, _. split; [reflexivity|].
      split; [apply Hct|]. split; [now left|]. split.
      * split; [now exists T | reflexivity].
      * intros -> [[err ->]|(c & s & b & -> & Hc)]; simpl in Eg;
          [discriminate|].
        apply Z.eqb_neq in Hc. rewrite Hc in Eg. discriminate.
    + eexists. split; [reflexivity | apply value_Marshal_TokenResponse].
    + intros err -> ->. discriminate.
  - destruct (ServeHTTP_error wl e w Hfresh Hbody)
      as (code & cat & Hw & Hb & Hcases).
    split; [|split].
    + exists code, (GoHTTP.Set_ (GoHTTP.header w)
                      "Content-Type" "application/json").
      split; [exact Hw|]. split; [apply Hct|]. split; [|split; [split|]].
      * destruct Hcases as [(-> & _)|[(-> & _)|(-> & _)]]; auto.
      * intros ->. destruct Hcases as [(H & _)|[(H & _)|(H & _)]];
          discriminate.
      * intros [T HT]. discriminate.
      * intros -> Hdo.
        assert (Hn : client.IsNetworkError (Some e) = true
                     \/ client.IsAPIError (Some e) = true).
        { destruct Hdo as [[err ->]|(c & s & b & -> & Hc)]; simpl in Eg.
          - injection Eg as <-. now left.
          - apply Z.eqb_neq in Hc. rewrite Hc in Eg. simpl in Eg.
            injection Eg as <-. now right. }
        revert Hw. unfold TokenFilterHandler.ServeHTTP,
          TokenFilterHandler.handleError.
        destruct Hn as [Hn|Hn]; rewrite Hn;
          [|destruct (client.IsNetworkError (Some e))];
          match goal with
          | |- context [TokenFilterHandler.writeErrorResponse ?w0 ?c ?m ?d] =>
              destruct (writeErrorResponse_fresh w0 c m d Hfresh Hbody)
                as [H1 _]; rewrite H1
          end; congruence.
    + eexists. split; [exact Hb | apply value_Marshal_ErrorResponse].
    + intros err -> ->. simpl in Eg. injection Eg as <-.
      rewrite Hb. destruct Hcases as [(_ & -> & _)|[(_ & _ & H)|(_ & _ & H)]];
        [reflexivity | discriminate | discriminate].
Qed.

End WithCodec.

Lemma tokens_endpoint_response_witness :
  GoHTTP.StatusCode
    (TokenFilterHandler.ServeHTTP
       {| models.Addresses := Some ["0xA"] |}
       (client.GetTokens (codec := samples.sample_codec)
          "https://exp.co2e.cc/api/v2" None
          (client.DoResponse 404 "404 Not Found" (Ok "not found")))
       GoHTTP.NewRecorder)
  = Some 502.
Proof.
  destruct (tokens_endpoint_response (codec := samples.sample_codec)
              {| models.Addresses := Some ["0xA"] |}
              "https://exp.co2e.cc/api/v2" None
              (client.DoResponse 404 "404 Not Found" (Ok "not found"))
              GoHTTP.NewRecorder eq_refl eq_refl)
    as ((code & h & Hw & _ & _ & _ & H502) & _).
  unfold GoHTTP.StatusCode. rewrite Hw. f_equal. apply H502; [reflexivity|].
  right. eexists _, _, _. split; [reflexivity | discriminate].
Defined.

End TokenFilterMore.


(** ** The client: classification of errors, headers sent on *)

Section ClientMore.

Lemma ToLower_app (s t : string) :
  GoStrings.ToLower (s +:+ t) = GoStrings.ToLower s +:+ GoStrings.ToLower t.
Proof.
  induction s as [|c s IH]; [reflexivity|].
  rewrite append_cons. simpl. now rewrite IH, append_cons.
Qed.

Lemma Contains_app_l (p s substr : string) :
  GoStrings.Contains s substr = true ->
  GoStrings.Contains (p +:+ s) substr = true.
Proof.
  intros H. induction p as [|c p IH]; [exact H|].
  rewrite append_cons. simpl. rewrite IH. apply orb_true_r.
Qed.



(** *** [forwardHeaders] *)

Lemma Get_canonical (h : GoHTTP.Header) (k1 k2 : string) :
  GoHTTP.CanonicalMIMEHeaderKey k1 = GoHTTP.CanonicalMIMEHeaderKey k2 ->
  GoHTTP.Get h k1 = GoHTTP.Get h k2.
Proof. unfold GoHTTP.Get. now intros ->. Qed.

Lemma Get_Set_eq (h : GoHTTP.Header) (header key value : string) :
  GoHTTP.CanonicalMIMEHeaderKey header = GoHTTP.CanonicalMIMEHeaderKey key ->
  GoHTTP.Get (GoHTTP.Set_ h header value) key = value.
Proof.
  intros E. unfold GoHTTP.Get, GoHTTP.Set_. rewrite E.
  now rewrite lookup_insert_eq.
Qed.

Lemma Get_Set_ne (h : GoHTTP.Header) (header key value : string) :
  GoHTTP.CanonicalMIMEHeaderKey header <> GoHTTP.CanonicalMIMEHeaderKey key ->
  GoHTTP.Get (GoHTTP.Set_ h header value) key = GoHTTP.Get h key.
Proof.
  intros E. unfold GoHTTP.Get, GoHTTP.Set_.
  now rewrite lookup_insert_ne.
Qed.

(** The first loop of [forwardHeaders], seen through [Get]. *)
Lemma Get_forward_loop (src : GoHTTP.Header) (hs : list string) :
  forall (h : GoHTTP.Header) (key : string),
    GoHTTP.Get
      (fold_left
         (fun h header =>
            let value := GoHTTP.Get src header in
            if negb (String.eqb value "") then GoHTTP.Set_ h header value
            else h) hs h) key
    = if existsb (fun header =>
                    String.eqb (GoHTTP.CanonicalMIMEHeaderKey header)
                      (GoHTTP.CanonicalMIMEHeaderKey key)) hs
         && negb (String.eqb (GoHTTP.Get src key) "")
      then GoHTTP.Get src key
      else GoHTTP.Get h key.
Proof.
  induction hs as [|x hs IH]; intros h key; [reflexivity|].
  cbn [fold_left existsb]. rewrite IH. cbv zeta.
  destruct (String.eqb_spec (GoHTTP.CanonicalMIMEHeaderKey x)
              (GoHTTP.CanonicalMIMEHeaderKey key)) as [E|E].
  - rewrite (Get_canonical src x key E). simpl orb.
    destruct (String.eqb (GoHTTP.Get src key) "") eqn:Ev; simpl negb.
    + now rewrite !andb_false_r.
    + rewrite !andb_true_r. rewrite (Get_Set_eq _ _ _ _ E).
      now destruct (existsb _ hs).
  - simpl orb.
    destruct (negb (String.eqb (GoHTTP.Get src x) ""));
      [now rewrite (Get_Set_ne _ _ _ _ E) | reflexivity].
Qed.

Lemma forwarded_key (key : string) :
  existsb (fun header =>
             String.eqb (GoHTTP.CanonicalMIMEHeaderKey header)
               (GoHTTP.CanonicalMIMEHeaderKey key)) client.headersToForward
  = true
  <-> In (GoHTTP.CanonicalMIMEHeaderKey key)
        ["Accept"; "Accept-Encoding"; "Accept-Language"; "Cache-Control";
         "Content-Type"; "User-Agent"; "X-Forwarded-For"; "X-Real-Ip"].
Proof.
  generalize (GoHTTP.CanonicalMIMEHeaderKey key) as k. intros k. split.
  - rewrite existsb_exists.
    intros (x & Hin & Heq). apply String.eqb_eq in Heq. rewrite <- Heq.
    unfold client.headersToForward in Hin. simpl in Hin.
    repeat (destruct Hin as [<-|Hin];
            [vm_compute; auto 10|]). exfalso; exact Hin.
  - intros Hin. simpl in Hin.
    repeat (destruct Hin as [<-|Hin]; [reflexivity|]).
    exfalso; exact Hin.
Qed.

Lemma single_valued_Set (h : GoHTTP.Header) (key value : string) :
  client.single_valued h -> value <> "" ->
  client.single_valued (GoHTTP.Set_ h key value).
Proof.
  intros Hh Hv k vs. unfold GoHTTP.Set_.
  destruct (decide (GoHTTP.CanonicalMIMEHeaderKey key = k)) as [<-|Hne].
  - rewrite lookup_insert_eq. intros [= <-]. now exists value.
  - rewrite lookup_insert_ne by exact Hne. apply Hh.
Qed.

Lemma single_valued_loop (src : GoHTTP.Header) (hs : list string) :
  forall h : GoHTTP.Header,
    client.single_valued h ->
    client.single_valued
      (fold_left
         (fun h header =>
            let value := GoHTTP.Get src header in
            if negb (String.eqb value "") then GoHTTP.Set_ h header value
            else h) hs h).
Proof.
  induction hs as [|x hs IH]; intros h Hh; [exact Hh|].
  cbn [fold_left]. apply IH. cbv zeta.
  destruct (String.eqb_spec (GoHTTP.Get src x) ""); simpl negb;
    [exact Hh | now apply single_valued_Set].
Qed.

(** X17. What [forwardHeaders] puts on a new backend request, read with
    [Get]: [User-Agent] is the client's, or [go-api-proxy/1.0] when the
    client sent none; [X-Forwarded-For] is the client's, or the client
    address of [getClientIP] when the client sent none; the other six
    listed headers carry the first value the client sent; every other
    header ([Authorization] and [Cookie] among them) is absent.  Every
    entry holds exactly one value, which is not empty. *)
Theorem forwardHeaders_Get (req : GoHTTP.Request) (key : string) :
  let src := GoHTTP.req_Header req in
  let out := client.forwardHeaders req ∅ in
  let k := GoHTTP.CanonicalMIMEHeaderKey key in
  (k = "User-Agent" ->
   GoHTTP.Get out key
   = if String.eqb (GoHTTP.Get src "User-Agent") ""
     then "go-api-proxy/1.0" else GoHTTP.Get src "User-Agent")
  /\ (k = "X-Forwarded-For" ->
      GoHTTP.Get out key
      = if String.eqb (GoHTTP.Get src "X-Forwarded-For") ""
        then client.getClientIP req else GoHTTP.Get src "X-Forwarded-For")
  /\ (In k ["Accept"; "Accept-Encoding"; "Accept-Language"; "Cache-Control";
            "Content-Type"; "X-Real-Ip"] ->
      GoHTTP.Get out key = GoHTTP.Get src key)
  /\ (~ In k ["Accept"; "Accept-Encoding"; "Accept-Language"; "Cache-Control";
              "Content-Type"; "User-Agent"; "X-Forwarded-For"; "X-Real-Ip"] ->
      GoHTTP.Get out key = "")
  /\ client.single_valued out.
Proof.
  cbv zeta. unfold client.forwardHeaders.
  set (src := GoHTTP.req_Header req).
  set (h1 := fold_left _ client.headersToForward ∅).
  assert (H1 : forall key,
             GoHTTP.Get h1 key
             = if existsb (fun header =>
                             String.eqb (GoHTTP.CanonicalMIMEHeaderKey header)
                               (GoHTTP.CanonicalMIMEHeaderKey key))
                    client.headersToForward
               then GoHTTP.Get src key else "").
  { intros key0. subst h1. rewrite Get_forward_loop.
    change (GoHTTP.Get ∅ key0) with "".
    destruct (existsb _ _); [|reflexivity].
    simpl andb. now destruct (String.eqb_spec (GoHTTP.Get src key0) "")
      as [->|]. }
  assert (S1 : client.single_valued h1).
  { subst h1. apply single_valued_loop. intros k vs.
    rewrite lookup_empty. discriminate. }
  set (h2 := if String.eqb (GoHTTP.Get src "X-Forwarded-For") "" then _
             else h1).
  assert (S2 : client.single_valued h2).
  { subst h2. destruct (String.eqb (GoHTTP.Get src "X-Forwarded-For") "");
      [|exact S1].
    destruct (String.eqb_spec (client.getClientIP req) ""); simpl negb;
      [exact S1 | now apply single_valued_Set]. }
  assert (H2 : forall key,
             GoHTTP.Get h2 key
             = if String.eqb (GoHTTP.CanonicalMIMEHeaderKey key)
                    "X-Forwarded-For"
                  && String.eqb (GoHTTP.Get src "X-Forwarded-For") ""
               then client.getClientIP req else GoHTTP.Get h1 key).
  { intros key0. subst h2.
    destruct (String.eqb_spec (GoHTTP.CanonicalMIMEHeaderKey key0)
                "X-Forwarded-For") as [E|E]; simpl andb.
    - destruct (String.eqb (GoHTTP.Get src "X-Forwarded-For") "") eqn:Ex;
        [|reflexivity].
      destruct (String.eqb_spec (client.getClientIP req) "") as [Ec|Ec];
        simpl negb.
      + rewrite Ec, H1.
        rewrite (Get_canonical src key0 "X-Forwarded-For") by (now rewrite E).
        apply String.eqb_eq in Ex. rewrite Ex. now destruct (existsb _ _).
      + apply Get_Set_eq. now rewrite E.
    - destruct (String.eqb (GoHTTP.Get src "X-Forwarded-For") "");
        [|reflexivity].
      destruct (negb (String.eqb (client.getClientIP req) ""));
        [|reflexivity].
      apply Get_Set_ne. intros E'. apply E. now rewrite <- E'. }
  assert (H3 : forall key,
             GoHTTP.CanonicalMIMEHeaderKey key <> "User-Agent" ->
             GoHTTP.Get
               (if String.eqb (GoHTTP.Get src "User-Agent") ""
                then GoHTTP.Set_ h2 "User-Agent" "go-api-proxy/1.0" else h2)
               key
             = GoHTTP.Get h2 key).
  { intros key0 E. destruct (String.eqb (GoHTTP.Get src "User-Agent") "");
      [|reflexivity].
    apply Get_Set_ne. intros E'. apply E. now rewrite <- E'. }
  split; [|split; [|split; [|split]]].
  - intros Hk.
    destruct (String.eqb (GoHTTP.Get src "User-Agent") "") eqn:Eu.
    + apply Get_Set_eq. now rewrite Hk.
    + rewrite H2, Hk. simpl andb. rewrite H1.
      rewrite (proj2 (forwarded_key key)) by (rewrite Hk; simpl; auto 10).
      apply Get_canonical. now rewrite Hk.
  - intros Hk. rewrite H3 by (rewrite Hk; discriminate).
    rewrite H2, Hk. rewrite String.eqb_refl. simpl andb.
    destruct (String.eqb (GoHTTP.Get src "X-Forwarded-For") "");
      [reflexivity|].
    rewrite H1.
    rewrite (proj2 (forwarded_key key)) by (rewrite Hk; simpl; auto 10).
    apply Get_canonical. now rewrite Hk.
  - intros Hk.
    assert (Hua : GoHTTP.CanonicalMIMEHeaderKey key <> "User-Agent").
    { intros E. rewrite E in Hk. simpl in Hk.
      repeat (destruct Hk as [Hk|Hk]; [discriminate|]). contradiction. }
    assert (Hxff : GoHTTP.CanonicalMIMEHeaderKey key <> "X-Forwarded-For").
    { intros E. rewrite E in Hk. simpl in Hk.
      repeat (destruct Hk as [Hk|Hk]; [discriminate|]). contradiction. }
    rewrite H3 by exact Hua. rewrite H2.
    apply String.eqb_neq in Hxff. rewrite Hxff. simpl andb. rewrite H1.
    rewrite (proj2 (forwarded_key key)); [reflexivity|].
    simpl in Hk. simpl. intuition.
  - intros Hk.
    assert (Hua : GoHTTP.CanonicalMIMEHeaderKey key <> "User-Agent").
    { intros E. apply Hk. rewrite E. simpl. auto 10. }
    assert (Hxff : GoHTTP.CanonicalMIMEHeaderKey key <> "X-Forwarded-For").
    { intros E. apply Hk. rewrite E. simpl. auto 10. }
    rewrite H3 by exact Hua. rewrite H2.
    apply String.eqb_neq in Hxff. rewrite Hxff. simpl andb. rewrite H1.
    destruct (existsb _ _) eqn:Ee; [|reflexivity].
    apply forwarded_key in Ee. contradiction.
  - destruct (String.eqb (GoHTTP.Get src "User-Agent") ""); [|exact S2].
    apply single_valued_Set; [exact S2 | discriminate].
Qed.

Lemma forwardHeaders_Get_witness :
  GoHTTP.Get
    (client.forwardHeaders
       {| GoHTTP.req_Method := "GET"; GoHTTP.req_Path := "/api/v2/blocks";
          GoHTTP.req_RawQuery := "";
          GoHTTP.req_Header :=
            {[ "Authorization" := ["Bearer secret"];
               "Accept" := ["application/json"; "text/html"] ]};
          GoHTTP.req_RemoteAddr := "192.168.1.1:12345";
          GoHTTP.req_Body := None |} ∅) "authorization" = ""
  /\ GoHTTP.Get
       (client.forwardHeaders
          {| GoHTTP.req_Method := "GET"; GoHTTP.req_Path := "/api/v2/blocks";
             GoHTTP.req_RawQuery := "";
             GoHTTP.req_Header :=
               {[ "Authorization" := ["Bearer secret"];
                  "Accept" := ["application/json"; "text/html"] ]};
             GoHTTP.req_RemoteAddr := "192.168.1.1:12345";
             GoHTTP.req_Body := None |} ∅) "user-agent" = "go-api-proxy/1.0".
Proof.
  split.
  - destruct (forwardHeaders_Get
                {| GoHTTP.req_Method := "GET";
                   GoHTTP.req_Path := "/api/v2/blocks";
                   GoHTTP.req_RawQuery := "";
                   GoHTTP.req_Header :=
                     {[ "Authorization" := ["Bearer secret"];
                        "Accept" := ["application/json"; "text/html"] ]};
                   GoHTTP.req_RemoteAddr := "192.168.1.1:12345";
                   GoHTTP.req_Body := None |} "authorization")
      as (_ & _ & _ & H & _).
    apply H. vm_compute. intuition discriminate.
  - destruct (forwardHeaders_Get
                {| GoHTTP.req_Method := "GET";
                   GoHTTP.req_Path := "/api/v2/blocks";
                   GoHTTP.req_RawQuery := "";
                   GoHTTP.req_Header :=
                     {[ "Authorization" := ["Bearer secret"];
                        "Accept" := ["application/json"; "text/html"] ]};
                   GoHTTP.req_RemoteAddr := "192.168.1.1:12345";
                   GoHTTP.req_Body := None |} "user-agent")
      as (H & _).
    rewrite H by reflexivity. reflexivity.
Defined.

(** *** [getClientIP] *)

Lemma Contains_byte_cons (c sep : ascii) (s : string) :
  GoStrings.Contains (String c s) (String sep "") = false ->
  Ascii.eqb c sep = false /\ GoStrings.Contains s (String sep "") = false.
Proof.
  simpl. destruct (Ascii.eqb c sep); simpl.
  - now destruct s.
  - auto.
Qed.

Lemma SplitByte_first (sep : ascii) (piece rest : string) :
  GoStrings.Contains piece (String sep "") = false ->
  rest = "" \/ GoStrings.HasPrefix rest (String sep "") = true ->
  exists pieces, GoStrings.SplitByte (piece +:+ rest) sep = piece :: pieces.
Proof.
  intros Hp Hr. induction piece as [|c p IH].
  - change ("" +:+ rest) with rest. destruct Hr as [->|Hr].
    + now exists [].
    + destruct rest as [|c r]; [discriminate|]. simpl in Hr. simpl.
      destruct (Ascii.eqb c sep); [|discriminate]. eauto.
  - apply Contains_byte_cons in Hp as [Hc Hp].
    destruct (IH Hp) as [pieces E]. rewrite append_cons. simpl.
    rewrite Hc, E. eauto.
Qed.

Lemma LastIndexByte_absent (sep : ascii) (s : string) :
  GoStrings.Contains s (String sep "") = false ->
  GoStrings.LastIndexByte s sep = None.
Proof.
  induction s as [|c s IH]; [reflexivity|].
  intros H. apply Contains_byte_cons in H as [Hc Hs].
  simpl. now rewrite (IH Hs), Hc.
Qed.

Lemma LastIndexByte_last (sep : ascii) (host port : string) :
  GoStrings.Contains port (String sep "") = false ->
  GoStrings.LastIndexByte (host +:+ String sep port) sep
  = Some (String.length host).
Proof.
  intros Hp. induction host as [|c h IH].
  - change ("" +:+ String sep port) with (String sep port). simpl.
    now rewrite (LastIndexByte_absent _ _ Hp), Ascii.eqb_refl.
  - rewrite append_cons. simpl. now rewrite IH.
Qed.

(** X18. The client address [getClientIP] reports.  When the request has
    [X-Forwarded-For], it is the text before the first comma, without the
    white space around it, whatever the other sources say; otherwise it is
    [X-Real-IP] when that is present; otherwise [RemoteAddr] up to its
    last colon, or all of it when it has none. *)
Theorem getClientIP_sources (req : GoHTTP.Request) :
  let src := GoHTTP.req_Header req in
  (forall piece rest,
      GoHTTP.Get src "X-Forwarded-For" = piece +:+ rest ->
      piece +:+ rest <> "" ->
      GoStrings.Contains piece "," = false ->
      rest = "" \/ GoStrings.HasPrefix rest "," = true ->
      client.getClientIP req = GoStrings.TrimSpace piece)
  /\ (GoHTTP.Get src "X-Forwarded-For" = "" ->
      GoHTTP.Get src "X-Real-IP" <> "" ->
      client.getClientIP req = GoHTTP.Get src "X-Real-IP")
  /\ (GoHTTP.Get src "X-Forwarded-For" = "" ->
      GoHTTP.Get src "X-Real-IP" = "" ->
      (forall host port,
          GoHTTP.req_RemoteAddr req = host +:+ ":" +:+ port ->
          GoStrings.Contains port ":" = false ->
          client.getClientIP req = host)
      /\ (GoStrings.Contains (GoHTTP.req_RemoteAddr req) ":" = false ->
          client.getClientIP req = GoHTTP.req_RemoteAddr req)).
Proof.
  cbv zeta. unfold client.getClientIP. split; [|split].
  - intros piece rest Hx Hne Hp Hr. rewrite Hx.
    destruct (String.eqb_spec (piece +:+ rest) ""); [contradiction|].
    destruct (SplitByte_first _ _ _ Hp Hr) as [pieces ->]. reflexivity.
  - intros -> Hxri. simpl.
    now destruct (String.eqb_spec (GoHTTP.Get (GoHTTP.req_Header req)
                                     "X-Real-IP") "").
  - intros -> ->. simpl. split.
    + intros host port Hra Hp. rewrite Hra.
      change (host +:+ ":" +:+ port) with (host +:+ String ":" port).
      destruct (String.eqb_spec (host +:+ String ":" port) "") as [E|_].
      { destruct host; discriminate. }
      simpl negb. cbv iota.
      rewrite (LastIndexByte_last _ _ _ Hp). apply take_length_append.
    + intros Hc. rewrite (LastIndexByte_absent _ _ Hc).
      now destruct (String.eqb_spec (GoHTTP.req_RemoteAddr req) "")
        as [->|_].
Qed.

Lemma getClientIP_sources_witness :
  client.getClientIP
    {| GoHTTP.req_Method := "GET"; GoHTTP.req_Path := "/";
       GoHTTP.req_RawQuery := "";
       GoHTTP.req_Header :=
         {[ "X-Forwarded-For" := [" 10.0.0.1 , 10.0.0.2"];
            "X-Real-Ip" := ["10.9.9.9"] ]};
       GoHTTP.req_RemoteAddr := "192.168.1.1:12345";
       GoHTTP.req_Body := None |}
  = "10.0.0.1".
Proof.
  destruct (getClientIP_sources
              {| GoHTTP.req_Method := "GET"; GoHTTP.req_Path := "/";
                 GoHTTP.req_RawQuery := "";
                 GoHTTP.req_Header :=
                   {[ "X-Forwarded-For" := [" 10.0.0.1 , 10.0.0.2"];
                      "X-Real-Ip" := ["10.9.9.9"] ]};
                 GoHTTP.req_RemoteAddr := "192.168.1.1:12345";
                 GoHTTP.req_Body := None |}) as (H & _).
  rewrite (H " 10.0.0.1 " ", 10.0.0.2");
    [reflexivity | reflexivity | discriminate | reflexivity
    | right; reflexivity].
Defined.

End ClientMore.


(** ** The generic proxy, from the inbound request to the bytes written *)

Section ProxyMore.

Import middleware.

Lemma Error_fresh (w : GoHTTP.ResponseWriter) (line : string) (code : Z) :
  GoHTTP.written w = None -> GoHTTP.body w = "" ->
  let w' := GoHTTP.Error w line code in
  GoHTTP.StatusCode w' = Some code
  /\ GoHTTP.body w' = line +:+ GoJSONEncode.newline
  /\ exists h,
       GoHTTP.SentHeader w' = Some h
       /\ h !! "Content-Type" = Some ["text/plain; charset=utf-8"]
       /\ h !! "X-Content-Type-Options" = Some ["nosniff"]
       /\ h !! "Content-Length" = None.
Proof.
  intros Hw Hb. cbv zeta.
  unfold GoHTTP.Error, GoHTTP.Write, GoHTTP.WriteHeader, GoHTTP.StatusCode,
    GoHTTP.SentHeader. simpl. rewrite Hw. simpl. rewrite Hb.
  split; [reflexivity|]. split; [reflexivity|].
  eexists. split; [reflexivity|]. unfold GoHTTP.Set_, GoHTTP.Del.
  change (GoHTTP.CanonicalMIMEHeaderKey "Content-Type") with "Content-Type".
  change (GoHTTP.CanonicalMIMEHeaderKey "X-Content-Type-Options")
    with "X-Content-Type-Options".
  change (GoHTTP.CanonicalMIMEHeaderKey "Content-Length")
    with "Content-Length".
  split; [|split].
  - rewrite lookup_insert_ne by discriminate. apply lookup_insert_eq.
  - apply lookup_insert_eq.
  - rewrite !lookup_insert_ne by discriminate. apply lookup_delete_eq.
Qed.


(** X20. However the generic proxy fails (the inbound body cannot be read,
    the backend request cannot be built, the transport fails), the client
    gets one of three fixed lines of plain text, never the text of the
    error: 502 for a network or API error, 500 otherwise, with
    [Content-Type: text/plain; charset=utf-8], [X-Content-Type-Options:
    nosniff] and no [Content-Length] among the headers sent. *)
Theorem Serve_failure_plain_text
  (backendURL : string) (newRequest : string -> string -> option error)
  (do : GoHTTP.Outgoing -> res GoHTTP.Response)
  (order : GoHTTP.Header -> list (string * list string))
  (r : GoHTTP.Request) (w : GoHTTP.ResponseWriter) (err : error)
  (Hfresh : GoHTTP.written w = None) (Hempty : GoHTTP.body w = "")
  (Hfail : client.ProxyRequest backendURL newRequest do r
             (StandardProxyHandler.endpoint r) = Err err) :
  let w' := StandardProxyHandler.Serve backendURL newRequest do order r w in
  exists code line h,
    GoHTTP.StatusCode w' = Some code
    /\ GoHTTP.body w' = line +:+ GoJSONEncode.newline
    /\ In (code, line)
         [(502, "Bad Gateway: Backend API unreachable");
          (502, "Bad Gateway: Backend API error");
          (500, "Internal Server Error")]
    /\ (code = 500 <-> client.IsNetworkError (Some err) = false
                       /\ client.IsAPIError (Some err) = false)
    /\ GoHTTP.SentHeader w' = Some h
    /\ h !! "Content-Type" = Some ["text/plain; charset=utf-8"]
    /\ h !! "X-Content-Type-Options" = Some ["nosniff"]
    /\ h !! "Content-Length" = None.
Proof.
  cbv zeta. unfold StandardProxyHandler.Serve. rewrite Hfail.
  unfold StandardProxyHandler.ServeHTTP, StandardProxyHandler.handleError.
  destruct (client.IsNetworkError (Some err));
    [|destruct (client.IsAPIError (Some err))];
    match goal with
    | |- context [GoHTTP.Error w ?line ?code] =>
        destruct (Error_fresh w line code Hfresh Hempty)
          as (H1 & H2 & h & H3 & H4 & H5 & H6);
        exists code, line, h;
        split; [exact H1|]; split; [exact H2|];
        split; [simpl; auto|]; split;
          [split; [try discriminate; auto | intros [? ?]; congruence]|];
        auto
    end.
Qed.


Lemma Serve_failure_plain_text_witness :
  exists code line h,
    GoHTTP.StatusCode
      (StandardProxyHandler.Serve "https://exp.co2e.cc/api/v2"
         (fun _ _ => None) (fun _ => Ok samples.sample_response)
         (fun _ => samples.sample_range)
         {| GoHTTP.req_Method := "POST"; GoHTTP.req_Path := "/blocks";
            GoHTTP.req_RawQuery := ""; GoHTTP.req_Header := ∅;
            GoHTTP.req_RemoteAddr := "192.168.1.1:12345";
            GoHTTP.req_Body :=
              Some (Err (GoErrors.errorString "unexpected EOF")) |}
         GoHTTP.NewRecorder) = Some code
    /\ GoHTTP.body
         (StandardProxyHandler.Serve "https://exp.co2e.cc/api/v2"
            (fun _ _ => None) (fun _ => Ok samples.sample_response)
            (fun _ => samples.sample_range)
            {| GoHTTP.req_Method := "POST"; GoHTTP.req_Path := "/blocks";
               GoHTTP.req_RawQuery := ""; GoHTTP.req_Header := ∅;
               GoHTTP.req_RemoteAddr := "192.168.1.1:12345";
               GoHTTP.req_Body :=
                 Some (Err (GoErrors.errorString "unexpected EOF")) |}
            GoHTTP.NewRecorder) = line +:+ GoJSONEncode.newline
    /\ In (code, line)
         [(502, "Bad Gateway: Backend API unreachable");
          (502, "Bad Gateway: Backend API error");
          (500, "Internal Server Error")]
    /\ (code = 500 <->
        client.IsNetworkError
          (Some (GoErrors.wrapError "failed to read request body: "
                   (GoErrors.errorString "unexpected EOF"))) = false
        /\ client.IsAPIError
             (Some (GoErrors.wrapError "failed to read request body: "
                      (GoErrors.errorString "unexpected EOF"))) = false)
    /\ GoHTTP.SentHeader
         (StandardProxyHandler.Serve "https://exp.co2e.cc/api/v2"
            (fun _ _ => None) (fun _ => Ok samples.sample_response)
            (fun _ => samples.sample_range)
            {| GoHTTP.req_Method := "POST"; GoHTTP.req_Path := "/blocks";
               GoHTTP.req_RawQuery := ""; GoHTTP.req_Header := ∅;
               GoHTTP.req_RemoteAddr := "192.168.1.1:12345";
               GoHTTP.req_Body :=
                 Some (Err (GoErrors.errorString "unexpected EOF")) |}
            GoHTTP.NewRecorder) = Some h
    /\ h !! "Content-Type" = Some ["text/plain; charset=utf-8"]
    /\ h !! "X-Content-Type-Options" = Some ["nosniff"]
    /\ h !! "Content-Length" = None.
Proof.
  apply (Serve_failure_plain_text "https://exp.co2e.cc/api/v2"
           (fun _ _ => None) (fun _ => Ok samples.sample_response)
           (fun _ => samples.sample_range)
           {| GoHTTP.req_Method := "POST"; GoHTTP.req_Path := "/blocks";
              GoHTTP.req_RawQuery := ""; GoHTTP.req_Header := ∅;
              GoHTTP.req_RemoteAddr := "192.168.1.1:12345";
              GoHTTP.req_Body :=
                Some (Err (GoErrors.errorString "unexpected EOF")) |}
           GoHTTP.NewRecorder
           (GoErrors.wrapError "failed to read request body: "
              (GoErrors.errorString "unexpected EOF"))
           eq_refl eq_refl eq_refl).
Defined.

End ProxyMore.


(** ** The CORS handler *)

Section CORSMore.

Import middleware.

Lemma Set_lookup_eq (h : GoHTTP.Header) (key value k : string) :
  GoHTTP.CanonicalMIMEHeaderKey key = k ->
  GoHTTP.Set_ h key value !! k = Some [value].
Proof. intros <-. apply lookup_insert_eq. Qed.

Lemma Set_lookup_ne (h : GoHTTP.Header) (key value k : string) :
  GoHTTP.CanonicalMIMEHeaderKey key <> k ->
  GoHTTP.Set_ h key value !! k = h !! k.
Proof. intros H. now apply lookup_insert_ne. Qed.

Lemma isCORSHeader_names (key : string) :
  StandardProxyHandler.isCORSHeader key = true ->
  In key
    ["Access-Control-Allow-Origin"; "Access-Control-Allow-Methods";
     "Access-Control-Allow-Headers"; "Access-Control-Allow-Credentials";
     "Access-Control-Expose-Headers"; "Access-Control-Max-Age";
     "Access-Control-Request-Method"; "Access-Control-Request-Headers"].
Proof.
  unfold StandardProxyHandler.isCORSHeader. rewrite existsb_exists.
  intros (x & Hin & Heq). apply String.eqb_eq in Heq. now subst x.
Qed.

Ltac set_lookup :=
  repeat first
    [ rewrite Set_lookup_eq by reflexivity
    | rewrite Set_lookup_ne by (vm_compute; discriminate) ].

(** X21. A preflight request is answered by the CORS handler alone: for
    the method [OPTIONS] the wrapped handler is not run (the response is
    the same whatever it is, so neither the backend nor the token filter
    is reached), the status is 200, nothing is added to the body, and the
    headers sent allow the seven methods and set the max age. *)
Theorem preflight_answered_by_CORS
  (next next' : GoHTTP.Request -> GoHTTP.ResponseWriter
                -> GoHTTP.ResponseWriter)
  (requestID : string) (r : GoHTTP.Request) (w : GoHTTP.ResponseWriter)
  (Hmethod : GoHTTP.req_Method r = "OPTIONS")
  (Hfresh : GoHTTP.written w = None) :
  let w' := CORSHandler.ServeHTTP next requestID r w in
  CORSHandler.ServeHTTP next' requestID r w = w'
  /\ GoHTTP.StatusCode w' = Some 200
  /\ GoHTTP.body w' = GoHTTP.body w
  /\ exists h,
       GoHTTP.SentHeader w' = Some h
       /\ h !! "Access-Control-Allow-Methods"
          = Some ["GET, POST, PUT, DELETE, OPTIONS, HEAD, PATCH"]
       /\ h !! "Access-Control-Allow-Credentials" = Some ["true"]
       /\ h !! "Access-Control-Max-Age" = Some ["86400"].
Proof.
  cbv zeta. unfold CORSHandler.ServeHTTP. rewrite Hmethod. simpl String.eqb.
  cbv iota. split; [reflexivity|].
  unfold GoHTTP.WriteHeader, GoHTTP.StatusCode, GoHTTP.SentHeader. simpl.
  rewrite Hfresh. simpl. split; [reflexivity|]. split; [reflexivity|].
  eexists. split; [reflexivity|].
  unfold CORSHandler.setCORSHeaders.
  destruct (negb (String.eqb requestID ""));
    destruct (negb (String.eqb (GoHTTP.Get (GoHTTP.req_Header r) "Origin")
                      ""));
    repeat split; set_lookup; reflexivity.
Qed.

Lemma preflight_answered_by_CORS_witness :
  main.rootHandler (fun w => GoHTTP.Write "tokens" w)
    (fun _ w => GoHTTP.Write "proxied" w)
    {| GoHTTP.req_Method := "OPTIONS"; GoHTTP.req_Path := "/api/v2/tokens";
       GoHTTP.req_RawQuery := ""; GoHTTP.req_Header := ∅;
       GoHTTP.req_RemoteAddr := "192.168.1.1:12345";
       GoHTTP.req_Body := None |} GoHTTP.NewRecorder
  = CORSHandler.ServeHTTP (fun _ w => w) ""
      {| GoHTTP.req_Method := "OPTIONS"; GoHTTP.req_Path := "/api/v2/tokens";
         GoHTTP.req_RawQuery := ""; GoHTTP.req_Header := ∅;
         GoHTTP.req_RemoteAddr := "192.168.1.1:12345";
         GoHTTP.req_Body := None |} GoHTTP.NewRecorder.
Proof.
  unfold main.rootHandler.
  apply (preflight_answered_by_CORS (fun _ w => w));
    reflexivity.
Defined.



End CORSMore.


(** ** The list of allowed request headers *)

Section AllowedHeaders.

Import middleware.

Lemma contains_In (l : list string) (item : string) :
  CORSHandler.contains l item = true
  <-> In (GoStrings.ToLower item) (List.map GoStrings.ToLower l).
Proof.
  unfold CORSHandler.contains. rewrite existsb_exists, in_map_iff.
  split; intros (x & H1 & H2).
  - apply String.eqb_eq in H2. eauto.
  - exists x. split; [exact H2 | now apply String.eqb_eq].
Qed.

Lemma addRequested_spec (adds : list string) :
  forall allowed : list string,
    List.NoDup (List.map GoStrings.ToLower allowed) ->
    let out := CORSHandler.addRequested allowed adds in
    (exists extra,
        out = allowed ++ extra
        /\ Forall (fun h => h <> ""
                            /\ In h (List.map GoStrings.TrimSpace adds)
                            /\ CORSHandler.contains allowed h = false) extra)
    /\ List.NoDup (List.map GoStrings.ToLower out)
    /\ (forall h, CORSHandler.contains allowed h = true ->
                  CORSHandler.contains out h = true)
    /\ (forall h, In h (List.map GoStrings.TrimSpace adds) -> h <> "" ->
                  CORSHandler.contains out h = true).
Proof.
  induction adds as [|a adds IH]; intros allowed Hnd; cbv zeta.
  - unfold CORSHandler.addRequested. simpl. split; [|split; [|split]].
    + exists []. now rewrite app_nil_r.
    + exact Hnd.
    + auto.
    + intros h [].
  - unfold CORSHandler.addRequested. cbn [fold_left].
    fold (CORSHandler.addRequested
            (if negb (String.eqb (GoStrings.TrimSpace a) "")
                && negb (CORSHandler.contains allowed (GoStrings.TrimSpace a))
             then allowed ++ [GoStrings.TrimSpace a] else allowed) adds).
    set (h0 := GoStrings.TrimSpace a).
    destruct (String.eqb_spec h0 "") as [He|He]; simpl negb; simpl andb.
    + destruct (IH allowed Hnd) as ((extra & E & Hex) & Hnd' & Hmono & Hall).
      split; [|split; [|split]]; auto.
      * exists extra. split; [exact E|].
        eapply Forall_impl; [exact Hex|]. simpl. intros x (? & ? & ?). auto.
      * intros h [Hh|Hh] Hne; [change (h0 = h) in Hh; congruence | auto].
    + destruct (CORSHandler.contains allowed h0) eqn:Ec; simpl negb.
      * destruct (IH allowed Hnd)
          as ((extra & E & Hex) & Hnd' & Hmono & Hall).
        split; [|split; [|split]]; auto.
        -- exists extra. split; [exact E|].
           eapply Forall_impl; [exact Hex|]. simpl. intros x (? & ? & ?).
           auto.
        -- intros h [Hh|Hh] Hne; [change (h0 = h) in Hh; subst h; auto | auto].
      * assert (Hnd1 : List.NoDup
                         (List.map GoStrings.ToLower (allowed ++ [h0]))).
        { rewrite map_app. simpl. apply NoDup_ListNoDup, NoDup_app.
          split; [now apply NoDup_ListNoDup|]. split.
          - intros x Hx Hx'. apply list_elem_of_singleton in Hx'. subst x.
            apply list_elem_of_In in Hx. apply contains_In in Hx. congruence.
          - apply NoDup_singleton. }
        destruct (IH (allowed ++ [h0]) Hnd1)
          as ((extra & E & Hex) & Hnd' & Hmono & Hall).
        assert (Hgrow : forall h, CORSHandler.contains allowed h = true ->
                                  CORSHandler.contains (allowed ++ [h0]) h
                                  = true).
        { intros h. rewrite !contains_In, map_app, in_app_iff. auto. }
        assert (Hself : CORSHandler.contains (allowed ++ [h0]) h0 = true).
        { rewrite contains_In, map_app, in_app_iff. right. now left. }
        split; [|split; [|split]]; auto.
        -- exists (h0 :: extra). split; [now rewrite E, <- app_assoc|].
           constructor; [repeat split; simpl; auto|].
           eapply Forall_impl; [exact Hex|]. simpl. intros x (? & ? & Hx).
           repeat split; auto.
           destruct (CORSHandler.contains allowed x) eqn:Ex; [|reflexivity].
           rewrite (Hgrow x Ex) in Hx. discriminate.
        -- intros h [Hh|Hh] Hne; [change (h0 = h) in Hh; subst h; auto | auto].
Qed.

(** X23. The list behind [Access-Control-Allow-Headers]: it starts with the
    ten default names; what follows are names the request asked for in
    [Access-Control-Request-Headers], trimmed, not empty and not yet in
    the list; no two names of the list are equal up to case; and every
    name asked for (trimmed, not empty) is in the list up to case. *)
Theorem allowedHeaders_list (r : GoHTTP.Request) :
  let asked :=
    List.map GoStrings.TrimSpace
      (GoStrings.SplitByte
         (GoHTTP.Get (GoHTTP.req_Header r) "Access-Control-Request-Headers")
         ","%char) in
  let out := CORSHandler.allowedHeaders r in
  (exists extra,
      out = CORSHandler.defaultAllowedHeaders ++ extra
      /\ Forall (fun h => h <> "" /\ In h asked
                          /\ CORSHandler.contains
                               CORSHandler.defaultAllowedHeaders h = false)
           extra)
  /\ List.NoDup (List.map GoStrings.ToLower out)
  /\ (forall h, In h asked -> h <> "" -> CORSHandler.contains out h = true).
Proof.
  cbv zeta.
  assert (Hnd : List.NoDup
                  (List.map GoStrings.ToLower
                     CORSHandler.defaultAllowedHeaders)).
  { apply NoDup_ListNoDup, (bool_decide_unpack _). reflexivity. }
  assert (E : CORSHandler.allowedHeaders r
              = CORSHandler.addRequested CORSHandler.defaultAllowedHeaders
                  (GoStrings.SplitByte
                     (GoHTTP.Get (GoHTTP.req_Header r)
                        "Access-Control-Request-Headers") ","%char)).
  { unfold CORSHandler.allowedHeaders.
    destruct (String.eqb_spec
                (GoHTTP.Get (GoHTTP.req_Header r)
                   "Access-Control-Request-Headers") "") as [->|_];
      reflexivity. }
  rewrite E.
  destruct (addRequested_spec
              (GoStrings.SplitByte
                 (GoHTTP.Get (GoHTTP.req_Header r)
                    "Access-Control-Request-Headers") ","%char)
              CORSHandler.defaultAllowedHeaders Hnd)
    as (H1 & H2 & _ & H4).
  split; [exact H1|]. split; [exact H2 | exact H4].
Qed.

Lemma allowedHeaders_list_witness :
  CORSHandler.contains
    (CORSHandler.allowedHeaders
       {| GoHTTP.req_Method := "OPTIONS"; GoHTTP.req_Path := "/api/v2/tokens";
          GoHTTP.req_RawQuery := "";
          GoHTTP.req_Header :=
            {[ "Access-Control-Request-Headers" :=
                 ["content-type, X-Custom "] ]};
          GoHTTP.req_RemoteAddr := "192.168.1.1:12345";
          GoHTTP.req_Body := None |}) "X-Custom"
  = true.
Proof.
  destruct (allowedHeaders_list
              {| GoHTTP.req_Method := "OPTIONS";
                 GoHTTP.req_Path := "/api/v2/tokens";
                 GoHTTP.req_RawQuery := "";
                 GoHTTP.req_Header :=
                   {[ "Access-Control-Request-Headers" :=
                        ["content-type, X-Custom "] ]};
                 GoHTTP.req_RemoteAddr := "192.168.1.1:12345";
                 GoHTTP.req_Body := None |}) as (_ & _ & H).
  apply H; [vm_compute; auto | discriminate].
Defined.

End AllowedHeaders.


(** ** Configuration *)

Section ConfigMore.

Lemma wrap64_small (z : Z) :
  config.min_int <= z <= config.max_int -> config.wrap64 z = z.
Proof.
  unfold config.wrap64, config.min_int, config.max_int.
  change (2 ^ 63) with 9223372036854775808.
  change (2 ^ 64) with 18446744073709551616.
  intros H. rewrite Z.mod_small by lia. lia.
Qed.

Lemma wrap64_range (z : Z) :
  config.min_int <= config.wrap64 z <= config.max_int.
Proof.
  unfold config.wrap64, config.min_int, config.max_int.
  change (2 ^ 63) with 9223372036854775808.
  change (2 ^ 64) with 18446744073709551616.
  pose proof (Z.mod_pos_bound (z + 9223372036854775808)
                18446744073709551616 eq_refl). lia.
Qed.

(** X24. [Validate] accepts a configuration exactly when the host starts
    with [http://] or [https://], the port is a decimal number from 1 to
    65535, the whitelist path is not empty and the timeout is positive.
    The two tests for an empty host and an empty port decide the message
    only: an empty host or port fails the test that comes next as well. *)
Theorem config_Validate_accepts_iff (c : config.Config) :
  config.Validate c = None
  <-> (GoStrings.HasPrefix (config.BackendHost c) "http://" = true
       \/ GoStrings.HasPrefix (config.BackendHost c) "https://" = true)
      /\ (exists port, config.Atoi (config.Port c) = Some port
                       /\ 1 <= port <= 65535)
      /\ config.WhitelistFile c <> ""
      /\ 0 < config.Timeout c.
Proof.
  unfold config.Validate. split.
  - destruct (String.eqb (config.BackendHost c) ""); [discriminate|].
    destruct (GoStrings.HasPrefix (config.BackendHost c) "http://") eqn:E1;
      destruct (GoStrings.HasPrefix (config.BackendHost c) "https://")
        eqn:E2; simpl; try discriminate;
      (destruct (String.eqb (config.Port c) ""); [discriminate|];
       destruct (config.Atoi (config.Port c)) as [port|]; [|discriminate];
       destruct ((port <? 1) || (port >? 65535)) eqn:Ep; [discriminate|];
       destruct (String.eqb_spec (config.WhitelistFile c) "");
         [discriminate|];
       destruct (config.Timeout c <=? 0) eqn:Et; [discriminate|];
       intros _; apply orb_false_iff in Ep as [Ep1 Ep2];
       split; [auto|]; split; [exists port; split; [reflexivity | lia]|];
       split; [assumption | lia]).
  - intros (Hh & (port & Hp & Hr) & Hw & Ht).
    destruct (String.eqb_spec (config.BackendHost c) "") as [E|_].
    { rewrite E in Hh. destruct Hh; discriminate. }
    assert (E : negb (GoStrings.HasPrefix (config.BackendHost c) "http://")
                && negb (GoStrings.HasPrefix (config.BackendHost c)
                           "https://") = false).
    { destruct Hh as [-> | ->]; [reflexivity | apply andb_false_r]. }
    rewrite E.
    destruct (String.eqb_spec (config.Port c) "") as [E'|_].
    { rewrite E' in Hp. discriminate. }
    rewrite Hp.
    replace ((port <? 1) || (port >? 65535)) with false
      by (symmetry; apply orb_false_iff; lia).
    destruct (String.eqb_spec (config.WhitelistFile c) "");
      [contradiction|].
    replace (config.Timeout c <=? 0) with false by lia. reflexivity.
Qed.

Section WithEnv.
Variable Getenv : string -> string.

Lemma getTimeoutFromEnv_cases (key : string) (defaultValue : Z) :
  config.getTimeoutFromEnv Getenv key defaultValue = defaultValue
  \/ exists seconds,
       config.Atoi (Getenv key) = Some seconds /\ 0 < seconds
       /\ config.getTimeoutFromEnv Getenv key defaultValue
          = config.wrap64 (seconds * config.Second).
Proof.
  unfold config.getTimeoutFromEnv.
  destruct (negb _); [|now left].
  destruct (config.Atoi (Getenv key)) as [s|]; [|now left].
  destruct (s >? 0) eqn:E; [|now left].
  right. exists s. repeat split. lia.
Qed.

Lemma getTimeoutFromEnv_seconds_aux (key : string) :
  config.getTimeoutFromEnv Getenv key (30 * config.Second) <= 0 ->
  exists seconds,
    config.Atoi (Getenv key) = Some seconds /\ 9223372036 < seconds.
Proof.
  intros H.
  destruct (getTimeoutFromEnv_cases key (30 * config.Second))
    as [E|(s & Ha & Hs & E)]; rewrite E in H.
  - unfold config.Second in H. lia.
  - exists s. split; [exact Ha|].
    destruct (Z_le_gt_dec s 9223372036) as [Hle|Hgt]; [|lia].
    rewrite wrap64_small in H;
      unfold config.Second, config.min_int, config.max_int in *;
      change (2 ^ 63) with 9223372036854775808; lia.
Qed.

(** X25. The timeout read from the environment, for a value that is a
    decimal number [seconds]: up to 9223372036 seconds it is that many
    seconds, and positive; for zero or less it is the default; above
    9223372036 the product leaves the 64 bits of a duration, and the
    timeout is not [seconds] seconds.  A value that is no number gives the
    default. *)
Theorem getTimeoutFromEnv_seconds (key : string) (defaultValue : Z) :
  (forall seconds,
      config.Atoi (Getenv key) = Some seconds ->
      (0 < seconds <= 9223372036 ->
       config.getTimeoutFromEnv Getenv key defaultValue
       = seconds * config.Second
       /\ 0 < config.getTimeoutFromEnv Getenv key defaultValue)
      /\ (seconds <= 0 ->
          config.getTimeoutFromEnv Getenv key defaultValue = defaultValue)
      /\ (9223372036 < seconds ->
          config.getTimeoutFromEnv Getenv key defaultValue
          <> seconds * config.Second))
  /\ (config.Atoi (Getenv key) = None ->
      config.getTimeoutFromEnv Getenv key defaultValue = defaultValue).
Proof.
  unfold config.getTimeoutFromEnv. split.
  - intros seconds Ha.
    destruct (String.eqb_spec (Getenv key) "") as [E|_].
    { rewrite E in Ha. discriminate. }
    simpl negb. cbv iota. rewrite Ha. split; [|split].
    + intros Hr. replace (seconds >? 0) with true by lia.
      rewrite wrap64_small;
        unfold config.Second, config.min_int, config.max_int;
        change (2 ^ 63) with 9223372036854775808; lia.
    + intros Hr. now replace (seconds >? 0) with false by lia.
    + intros Hr. replace (seconds >? 0) with true by lia.
      pose proof (wrap64_range (seconds * config.Second)) as Hw.
      revert Hw. unfold config.Second, config.min_int, config.max_int.
      change (2 ^ 63) with 9223372036854775808. lia.
  - intros Ha. rewrite Ha. now destruct (negb _).
Qed.

(** X26. [Load] on every environment: a configuration it returns passes
    [Validate], and each of its three strings is the variable's value, or
    the default when the variable is empty or unset.  When it fails, the
    error wraps one of three messages; the messages about an empty host,
    port or whitelist path cannot occur, since the defaults fill these in,
    and the message about the timeout occurs only after an overflow. *)
Theorem Load_outcomes :
  match config.Load Getenv with
  | Ok c =>
      config.Validate c = None
      /\ config.BackendHost c
         = (if String.eqb (Getenv "BACKEND_HOST") ""
            then "https://exp.co2e.cc" else Getenv "BACKEND_HOST")
      /\ config.Port c
         = (if String.eqb (Getenv "PORT") "" then "80" else Getenv "PORT")
      /\ config.WhitelistFile c
         = (if String.eqb (Getenv "WHITELIST_FILE") ""
            then "whitelist.json" else Getenv "WHITELIST_FILE")
  | Err e =>
      exists msg,
        e = GoErrors.wrapError "configuration validation failed: "
              (GoErrors.errorString msg)
        /\ In msg ["backend host must start with http:// or https://";
                   "port must be a valid number between 1 and 65535";
                   "timeout must be greater than 0"]
        /\ (msg = "timeout must be greater than 0" ->
            exists seconds,
              config.Atoi (Getenv "HTTP_TIMEOUT") = Some seconds
              /\ 9223372036 < seconds)
  end.
Proof.
  assert (Hdef : forall key d, d <> "" ->
                   config.getEnvWithDefault Getenv key d <> ""
                   /\ config.getEnvWithDefault Getenv key d
                      = if String.eqb (Getenv key) "" then d else Getenv key).
  { intros key d Hd. unfold config.getEnvWithDefault.
    destruct (String.eqb_spec (Getenv key) ""); simpl; auto. }
  destruct (Hdef "BACKEND_HOST" "https://exp.co2e.cc") as [Hh Hh'];
    [discriminate|].
  destruct (Hdef "PORT" "80") as [Hp Hp']; [discriminate|].
  destruct (Hdef "WHITELIST_FILE" "whitelist.json") as [Hw Hw'];
    [discriminate|].
  unfold config.Load.
  destruct (config.Validate _) as [e|] eqn:Ev.
  - revert Ev. unfold config.Validate. cbn [config.BackendHost config.Port
      config.WhitelistFile config.Timeout].
    apply String.eqb_neq in Hh, Hp, Hw. rewrite Hh, Hp, Hw.
    destruct (negb _ && negb _).
    { intros [= <-]. eexists. split; [reflexivity|]. split; [simpl; auto|].
      discriminate. }
    destruct (match config.Atoi _ with Some _ => _ | None => true end).
    { intros [= <-]. eexists. split; [reflexivity|]. split; [simpl; auto|].
      discriminate. }
    destruct (_ <=? 0) eqn:Et; [|discriminate].
    intros [= <-]. eexists. split; [reflexivity|]. split; [simpl; auto|].
    intros _. apply Z.leb_le in Et.
    destruct (getTimeoutFromEnv_seconds_aux "HTTP_TIMEOUT") as [s Hs];
      [exact Et|]. exists s. exact Hs.
  - repeat split; assumption.
Qed.

End WithEnv.

Lemma Load_outcomes_witness :
  match config.Load (fun _ => "") with
  | Ok c => config.Validate c = None /\ config.Port c = "80"
  | Err _ => False
  end.
Proof.
  pose proof (Load_outcomes (fun _ => "")) as H.
  destruct (config.Load (fun _ => "")) as [c|e] eqn:E.
  - destruct H as (H1 & _ & H2 & _). split; [exact H1 | exact H2].
  - vm_compute in E. discriminate.
Defined.

Lemma getTimeoutFromEnv_seconds_witness :
  config.getTimeoutFromEnv (fun _ => "45") "HTTP_TIMEOUT" (30 * config.Second)
  = 45 * config.Second.
Proof.
  destruct (getTimeoutFromEnv_seconds (fun _ => "45") "HTTP_TIMEOUT"
              (30 * config.Second)) as [H _].
  destruct (H 45 eq_refl) as [H1 _]. apply H1. lia.
Defined.

Lemma append_empty_r (s : string) : s +:+ "" = s.
Proof.
  induction s as [|x s IH]; [reflexivity|]. rewrite append_cons. now rewrite IH.
Qed.

Lemma GetBackendAPIURL_host (c : config.Config) (q : string) :
  config.BackendHost c = q +:+ "/"
  \/ (config.BackendHost c = q /\ GoStrings.HasSuffix q "/" = false) ->
  config.GetBackendAPIURL c = q +:+ "/api/v2".
Proof.
  unfold config.GetBackendAPIURL. intros [-> | [-> H]].
  - now rewrite TrimSuffix_app.
  - unfold GoStrings.TrimSuffix. now rewrite H.
Qed.

Section WithCodec.
Context {codec : GoJSON.Codec}.

(** X27. The URLs the two handlers ask the backend for.  The base is the
    configured host without one trailing slash, followed by [/api/v2]; the
    token filter asks for the base followed by [/tokens]; the generic proxy
    asks for the base followed by the whole inbound path and query, so an
    inbound path that itself starts with [/api/v2] gives a URL that has
    this prefix twice.  The URLs are read off the network errors, which
    name them. *)
Theorem backend_URLs
  (c : config.Config) (q : string)
  (Hhost : config.BackendHost c = q +:+ "/"
           \/ (config.BackendHost c = q
               /\ GoStrings.HasSuffix q "/" = false)) :
  config.GetBackendAPIURL c = q +:+ "/api/v2"
  /\ (forall err,
        client.GetTokens (config.GetBackendAPIURL c) None
          (client.DoFailed err)
        = Err (GoErrors.NetworkError "get_tokens" (q +:+ "/api/v2/tokens")
                 (Some err)))
  /\ (forall err r,
        GoHTTP.req_Body r = None ->
        client.ProxyRequest (config.GetBackendAPIURL c) (fun _ _ => None)
          (fun _ => Err err) r (middleware.StandardProxyHandler.endpoint r)
        = Err (GoErrors.NetworkError "backend_request"
                 (q +:+ "/api/v2" +:+ GoHTTP.req_Path r +:+
                  (if String.eqb (GoHTTP.req_RawQuery r) "" then ""
                   else "?" +:+ GoHTTP.req_RawQuery r))
                 (Some err))).
Proof.
  rewrite (GetBackendAPIURL_host c q Hhost). split; [reflexivity|]. split.
  - intros err. unfold client.GetTokens. now rewrite string_app_assoc.
  - intros err r Hb. unfold client.ProxyRequest. rewrite Hb.
    unfold middleware.StandardProxyHandler.endpoint.
    rewrite string_app_assoc.
    destruct (String.eqb (GoHTTP.req_RawQuery r) ""); [|reflexivity].
    now rewrite append_empty_r.
Qed.

End WithCodec.

Lemma backend_URLs_witness :
  client.ProxyRequest
    (config.GetBackendAPIURL (samples.config_with "whitelist.json"))
    (fun _ _ => None)
    (fun _ => Err (GoErrors.errorString "connection refused"))
    {| GoHTTP.req_Method := "GET"; GoHTTP.req_Path := "/api/v2/blocks";
       GoHTTP.req_RawQuery := ""; GoHTTP.req_Header := ∅;
       GoHTTP.req_RemoteAddr := "192.168.1.1:12345";
       GoHTTP.req_Body := None |} "/api/v2/blocks"
  = Err (GoErrors.NetworkError "backend_request"
           "https://exp.co2e.cc/api/v2/api/v2/blocks"
           (Some (GoErrors.errorString "connection refused"))).
Proof.
  destruct (backend_URLs (codec := samples.sample_codec)
              (samples.config_with "whitelist.json") "https://exp.co2e.cc"
              (or_intror (conj eq_refl eq_refl))) as (_ & _ & H).
  apply (H (GoErrors.errorString "connection refused")
           {| GoHTTP.req_Method := "GET";
              GoHTTP.req_Path := "/api/v2/blocks";
              GoHTTP.req_RawQuery := ""; GoHTTP.req_Header := ∅;
              GoHTTP.req_RemoteAddr := "192.168.1.1:12345";
              GoHTTP.req_Body := None |} eq_refl).
Defined.

End ConfigMore.
